(** * UniFi RADIUS server: MAC normalisation, VLAN resolution, audit logging

    A shallow embedding of [python-radius/radius_server.py]
    ([DatabaseManager] and [UniFiRadiusServer]) and the properties of its
    authentication decision path.

    Conventions of the embedding:
    - a Python [str] is a [string]; a character is its code point, for code
      points below 256 (ASCII and Latin-1);
    - a Python [int] is a [Z];
    - [None] is the [None] of an [option];
    - the MySQL server and the UDP socket are an explicit [World] that every
      effectful method threads through; the calls into [mysql.connector]
      and [pyrad] that can raise take their outcome from a script held by
      the world;
    - calls to [logger] write to the process log only and are left out. *)

From stdpp Require Import base decidable option list strings gmap pretty.
From Stdlib Require Import ZArith Ascii String Lia.

Local Open Scope string_scope.
Local Open Scope Z_scope.

(** ** Python built-ins used by the server *)

Module Py.

(** Code point of a character. *)
Definition ord (c : ascii) : Z := Z.of_N (N_of_ascii c).

Definition chr (n : Z) : ascii := ascii_of_N (Z.to_N n).

Definition between (lo hi n : Z) : bool := (lo <=? n) && (n <=? hi).

(** [str.isalnum] on one character: letters, decimal digits, and the other
    digit and numeric characters of Latin-1 (superscripts, fractions). *)
Definition isalnum (c : ascii) : bool :=
  let n := ord c in
  between 48 57 n || between 65 90 n || between 97 122 n
  || (n =? 170) || (n =? 178) || (n =? 179) || (n =? 181)
  || (n =? 185) || (n =? 186) || between 188 190 n
  || between 192 214 n || between 216 246 n || between 248 255 n.

(** [str.lower] on one character. *)
Definition lower (c : ascii) : ascii :=
  let n := ord c in
  if between 65 90 n || between 192 214 n || between 216 222 n
  then chr (n + 32) else c.

(** Characters that [int] strips from both ends of its argument. *)
Definition isspace (c : ascii) : bool :=
  let n := ord c in
  between 9 13 n || (n =? 32) || (n =? 133) || (n =? 160).

(** Value of a character as a digit in bases up to 36, as [int] reads it. *)
Definition digit_value (c : ascii) : option Z :=
  let n := ord c in
  if between 48 57 n then Some (n - 48)
  else if between 97 122 n then Some (n - 87)
  else if between 65 90 n then Some (n - 55)
  else None.

Definition is_digit (base : Z) (c : ascii) : bool :=
  match digit_value c with
  | Some d => d <? base
  | None => false
  end.

Fixpoint lstrip (cs : list ascii) : list ascii :=
  match cs with
  | c :: cs' => if isspace c then lstrip cs' else cs
  | [] => []
  end.

Definition strip (cs : list ascii) : list ascii :=
  reverse (lstrip (reverse (lstrip cs))).

(** The digits of an integer literal: at least one digit, single
    underscores allowed between digits only. [acc] is the value read so
    far, [prev] tells whether the previous character was a digit. *)
Fixpoint digits (base : Z) (acc : Z) (prev : bool) (cs : list ascii)
  : option Z :=
  match cs with
  | [] => if prev then Some acc else None
  | c :: cs' =>
      if Ascii.eqb c "_" then
        if prev then digits base acc false cs' else None
      else
        match digit_value c with
        | Some d => if d <? base then digits base (acc * base + d) true cs'
                    else None
        | None => None
        end
  end.

(** After the sign, [int(s, 16)] skips one [0x] or [0X] prefix and one
    underscore after it; [int(s, 10)] knows no prefix. *)
Definition skip_prefix (base : Z) (cs : list ascii) : list ascii :=
  if base =? 16 then
    match cs with
    | c0 :: c1 :: rest =>
        if Ascii.eqb c0 "0" && (Ascii.eqb c1 "x" || Ascii.eqb c1 "X") then
          match rest with
          | u :: rest' => if Ascii.eqb u "_" then rest' else rest
          | [] => rest
          end
        else cs
    | _ => cs
    end
  else cs.

(** [int(s, base)] for [base] 10 or 16; [None] stands for [ValueError]. *)
Definition int (base : Z) (s : string) : option Z :=
  let cs := strip (list_ascii_of_string s) in
  let '(neg, cs) :=
    match cs with
    | c :: cs' =>
        if Ascii.eqb c "-" then (true, cs')
        else if Ascii.eqb c "+" then (false, cs')
        else (false, cs)
    | [] => (false, cs)
    end in
  match digits base 0 false (skip_prefix base cs) with
  | Some v => Some (if neg then - v else v)
  | None => None
  end.

(** [sep.join(parts)] *)
Fixpoint join (sep : string) (parts : list string) : string :=
  match parts with
  | [] => ""
  | [p] => p
  | p :: ps => p ++ sep ++ join sep ps
  end.

(** [s[i:j]] for [0 <= i <= j]: the slice is cut short at the end of [s]. *)
Definition slice (s : string) (i j : nat) : string :=
  string_of_list_ascii (take (j - i) (drop i (list_ascii_of_string s))).

(** [range(start, stop, step)] for a positive step, as a list. *)
Definition range (start stop step : nat) : list nat :=
  (fun i => (start + i * step)%nat) <$> seq 0 ((stop - start + step - 1) / step)%nat.

(** [s.split(sep)] for a one-character separator. *)
Fixpoint split_go (sep : ascii) (cur : list ascii) (cs : list ascii)
  : list string :=
  match cs with
  | [] => [string_of_list_ascii (reverse cur)]
  | c :: cs' =>
      if Ascii.eqb c sep
      then string_of_list_ascii (reverse cur) :: split_go sep [] cs'
      else split_go sep (c :: cur) cs'
  end.

Definition split (sep : ascii) (s : string) : list string :=
  split_go sep [] (list_ascii_of_string s).

(** [str(n)] for an integer. *)
Definition str_of_int (n : Z) : string := pretty n.

(** [str.isprintable] on one character. *)
Definition isprintable (c : ascii) : bool :=
  let n := ord c in
  between 32 126 n || between 161 172 n || between 174 255 n.

Definition double_quote : ascii := chr 34.

Definition hex_digit (d : Z) : ascii :=
  if d <? 10 then chr (48 + d) else chr (87 + d).

(** One character of [repr(s)] between the quotes [q]. *)
Definition repr_char (q : ascii) (c : ascii) : list ascii :=
  let n := ord c in
  if Ascii.eqb c q || Ascii.eqb c "\" then ["\"%char; c]
  else if n =? 9 then ["\"%char; "t"%char]
  else if n =? 10 then ["\"%char; "n"%char]
  else if n =? 13 then ["\"%char; "r"%char]
  else if isprintable c then [c]
  else ["\"%char; "x"%char; hex_digit (n / 16); hex_digit (n mod 16)].

(** [repr(s)]: between single quotes, or between double quotes when [s]
    holds a single quote and no double quote; the quote in use, the
    backslash and the characters that do not print are escaped. *)
Definition repr (s : string) : string :=
  let cs := list_ascii_of_string s in
  let q := if existsb (Ascii.eqb "'") cs && negb (existsb (Ascii.eqb double_quote) cs)
           then double_quote else "'"%char in
  string_of_list_ascii (q :: List.concat (repr_char q <$> cs) ++ [q])%list.

(** The text of the [ValueError] that [int(s, base)] raises: the literal
    is shown by [repr], cut after 200 characters. *)
Definition invalid_literal (base : Z) (s : string) : string :=
  "invalid literal for int() with base " ++ str_of_int base ++ ": "
  ++ string_of_list_ascii (take 200 (list_ascii_of_string (repr s))).

End Py.

(** ** DatabaseManager.normalize_mac *)

(** [''.join(c.lower() for c in mac if c.isalnum())] *)
Definition clean_mac_of (mac : string) : string :=
  string_of_list_ascii
    (Py.lower <$> filter (fun c => Py.isalnum c = true) (list_ascii_of_string mac)).

Definition normalize_mac (mac : option string) : option string :=
  match mac with
  | None => None
  | Some "" => None
  | Some mac =>
      let clean_mac := clean_mac_of mac in
      if negb (String.length clean_mac =? 12)%nat then None
      else
        match Py.int 16 clean_mac with
        | None => None
        | Some _ =>
            Some (Py.join ":"
                    ((fun i => Py.slice clean_mac i (i + 2)) <$> Py.range 0 12 2))
        end
  end.

(** ** Values, packets and replies *)

(** An attribute value as [pyrad] decodes it: a [str] for the string and
    ipaddr attributes of the dictionary, an [int] for the integer ones. *)
Inductive value :=
  | VStr (s : string)
  | VInt (n : Z).

(** Truth value of an object that is [None], a [str] or an [int]. *)
Definition truthy (v : option value) : bool :=
  match v with
  | None => false
  | Some (VStr s) => negb (String.eqb s "")
  | Some (VInt n) => negb (n =? 0)
  end.

(** [v or ''] *)
Definition or_empty (v : option value) : value :=
  match v with
  | Some x => if truthy v then x else VStr ""
  | None => VStr ""
  end.

(** [str(v)], as an f-string formats [v]. *)
Definition str_of (v : option value) : string :=
  match v with
  | None => "None"
  | Some (VStr s) => s
  | Some (VInt n) => Py.str_of_int n
  end.

Definition str_of_opt (s : option string) : string :=
  match s with
  | None => "None"
  | Some s => s
  end.

(** The request as the engine reads it: the decoded attributes by name,
    each with the list of its values, and the peer the datagram came
    from. *)
Record Packet := {
  attrs : gmap string (list value);
  source : string * Z;
}.

Inductive Code := AccessRequest | AccessAccept | AccessReject.

Record Reply := {
  code : Code;
  reply_source : string * Z;
  reply_attrs : gmap string (list value);
}.

(** [request_pkt.CreateReply()]: a reply with no attribute; pyrad gives it
    the Access-Accept code until the caller sets another. *)
Definition CreateReply (request_pkt : Packet) : Reply :=
  {| code := AccessAccept; reply_source := source request_pkt; reply_attrs := ∅ |}.

Definition set_code (c : Code) (r : Reply) : Reply :=
  {| code := c; reply_source := reply_source r; reply_attrs := reply_attrs r |}.

Definition set_source (src : string * Z) (r : Reply) : Reply :=
  {| code := code r; reply_source := src; reply_attrs := reply_attrs r |}.

(** [reply.AddAttribute(key, v)]: appends [v] to the values of [key]. *)
Definition AddAttribute (key : string) (v : value) (r : Reply) : Reply :=
  {| code := code r;
     reply_source := reply_source r;
     reply_attrs := <[key := (default [] (reply_attrs r !! key) ++ [v])%list]> (reply_attrs r) |}.

(** ** UniFiRadiusServer.create_accept_packet, create_reject_packet *)

Definition create_accept_packet (request_pkt : Packet) (vlan_id : Z) : Reply :=
  let reply := CreateReply request_pkt in
  let reply := set_code AccessAccept reply in
  let reply := set_source (source request_pkt) reply in
  let reply := AddAttribute "Tunnel-Type" (VInt 13) reply in
  let reply := AddAttribute "Tunnel-Medium-Type" (VInt 6) reply in
  let reply := AddAttribute "Tunnel-Private-Group-ID" (VStr (Py.str_of_int vlan_id)) reply in
  reply.

Definition create_reject_packet (request_pkt : Packet) : Reply :=
  let reply := CreateReply request_pkt in
  let reply := set_code AccessReject reply in
  let reply := set_source (source request_pkt) reply in
  reply.

(** ** The store *)

(** Rows of the four tables, with the columns the server reads or writes. *)
Record RadreplyRow := {
  rr_username : string;
  rr_attribute : string;
  rr_value : string;
}.

Record MacPrefixRow := {
  mp_prefix : string;
  mp_vlan_id : Z;
}.

Record DefaultVlanRow := {
  dv_id : Z;
  dv_vlan_id : Z;
  dv_enabled : Z;
}.

Record RadiusLogRow := {
  lg_username : value;
  lg_nas_ip_address : value;
  lg_nas_port_id : value;
  lg_called_station_id : value;
  lg_calling_station_id : value;
  lg_request_type : string;
  lg_response_type : string;
  lg_reason : string;
}.

(** Tables are lists of rows in storage order. *)
Record Database := {
  radreply : list RadreplyRow;
  mac_prefixes : list MacPrefixRow;
  default_vlan_config : list DefaultVlanRow;
  radius_logs : list RadiusLogRow;
}.

(** The four statements the server sends. *)
Inductive Statement :=
  | SelectRadreply (username : string)
  | SelectMacPrefixes (prefix : string)
  | SelectDefaultVlan
  | InsertRadiusLog (row : RadiusLogRow).

(** [SELECT value FROM radreply WHERE username = %s AND
    attribute = 'Tunnel-Private-Group-ID' LIMIT 1]: the first such row. *)
Definition select_radreply (db : Database) (username : string) : option RadreplyRow :=
  List.find (fun r => String.eqb (rr_username r) username
                      && String.eqb (rr_attribute r) "Tunnel-Private-Group-ID")
            (radreply db).

(** [SELECT vlan_id FROM mac_prefixes WHERE prefix = %s LIMIT 1] *)
Definition select_mac_prefixes (db : Database) (prefix : string) : option MacPrefixRow :=
  List.find (fun r => String.eqb (mp_prefix r) prefix) (mac_prefixes db).

(** The row with the greatest [id] of a list ([ORDER BY id DESC LIMIT 1]);
    [id] is the key of the table, among equal ids the earliest row is
    kept. *)
Definition newest (best : option DefaultVlanRow) (r : DefaultVlanRow)
  : option DefaultVlanRow :=
  match best with
  | None => Some r
  | Some b => if dv_id b <? dv_id r then Some r else Some b
  end.

(** [SELECT vlan_id FROM default_vlan_config WHERE enabled = 1
    ORDER BY id DESC LIMIT 1] *)
Definition select_default_vlan (db : Database) : option DefaultVlanRow :=
  fold_left newest
            (List.filter (fun r => dv_enabled r =? 1) (default_vlan_config db))
            None.

(** ** Exceptions *)

Inductive exn :=
  | MySQLError (msg : string)        (* mysql.connector.Error *)
  | ValueError (msg : string)
  | TypeError (msg : string)
  | IndexError (msg : string)
  | UnboundLocalError (msg : string)
  | OSError (msg : string).

Definition is_mysql_error (e : exn) : bool :=
  match e with
  | MySQLError _ => true
  | _ => false
  end.

(** [str(e)] *)
Definition exn_str (e : exn) : string :=
  match e with
  | MySQLError m | ValueError m | TypeError m | IndexError m
  | UnboundLocalError m | OSError m => m
  end.

(** ** The world and the monad of effectful methods *)

Inductive Connection := Conn (owner : nat).

Inductive Cursor := Cur (conn : Connection).

(** A script gives the outcome of the next calls of one kind, in order:
    [None] for success, [Some msg] for a failure with that message; calls
    beyond the end of the script succeed. *)
Definition Script := list (option string).

Definition next_outcome (s : Script) : option string * Script :=
  match s with
  | [] => (None, [])
  | o :: s' => (o, s')
  end.

Record World := {
  db : Database;
  (* DatabaseManager.connection_pool, keyed by thread identity *)
  connection_pool : gmap nat Connection;
  (* outcomes of mysql.connector.connect, conn.cursor, cursor.execute and
     SendReplyPacket *)
  connect_script : Script;
  cursor_script : Script;
  execute_script : Script;
  send_script : Script;
  (* every statement passed to cursor.execute so far, oldest first *)
  executed : list Statement;
  (* Server.authfds, and the replies written to the sockets so far *)
  authfds : list nat;
  sent : list (nat * Reply);
}.

Definition set_db (x : Database) (w : World) : World :=
  {| db := x; connection_pool := connection_pool w;
     connect_script := connect_script w; cursor_script := cursor_script w;
     execute_script := execute_script w; send_script := send_script w;
     executed := executed w; authfds := authfds w; sent := sent w |}.

Definition set_connection_pool (x : gmap nat Connection) (w : World) : World :=
  {| db := db w; connection_pool := x;
     connect_script := connect_script w; cursor_script := cursor_script w;
     execute_script := execute_script w; send_script := send_script w;
     executed := executed w; authfds := authfds w; sent := sent w |}.

Definition set_connect_script (x : Script) (w : World) : World :=
  {| db := db w; connection_pool := connection_pool w;
     connect_script := x; cursor_script := cursor_script w;
     execute_script := execute_script w; send_script := send_script w;
     executed := executed w; authfds := authfds w; sent := sent w |}.

Definition set_cursor_script (x : Script) (w : World) : World :=
  {| db := db w; connection_pool := connection_pool w;
     connect_script := connect_script w; cursor_script := x;
     execute_script := execute_script w; send_script := send_script w;
     executed := executed w; authfds := authfds w; sent := sent w |}.

Definition set_execute_script (x : Script) (w : World) : World :=
  {| db := db w; connection_pool := connection_pool w;
     connect_script := connect_script w; cursor_script := cursor_script w;
     execute_script := x; send_script := send_script w;
     executed := executed w; authfds := authfds w; sent := sent w |}.

Definition set_send_script (x : Script) (w : World) : World :=
  {| db := db w; connection_pool := connection_pool w;
     connect_script := connect_script w; cursor_script := cursor_script w;
     execute_script := execute_script w; send_script := x;
     executed := executed w; authfds := authfds w; sent := sent w |}.

Definition set_executed (x : list Statement) (w : World) : World :=
  {| db := db w; connection_pool := connection_pool w;
     connect_script := connect_script w; cursor_script := cursor_script w;
     execute_script := execute_script w; send_script := send_script w;
     executed := x; authfds := authfds w; sent := sent w |}.

Definition set_sent (x : list (nat * Reply)) (w : World) : World :=
  {| db := db w; connection_pool := connection_pool w;
     connect_script := connect_script w; cursor_script := cursor_script w;
     execute_script := execute_script w; send_script := send_script w;
     executed := executed w; authfds := authfds w; sent := x |}.

Definition append_log (row : RadiusLogRow) (d : Database) : Database :=
  {| radreply := radreply d; mac_prefixes := mac_prefixes d;
     default_vlan_config := default_vlan_config d;
     radius_logs := (radius_logs d ++ [row])%list |}.

(** How a call ends: with a value, or with an exception on its way up. *)
Inductive outcome (A : Type) :=
  | Return (a : A)
  | Raise (e : exn).
Arguments Return {A} a.
Arguments Raise {A} e.

Definition M (A : Type) : Type := World -> outcome A * World.

Definition ret {A} (a : A) : M A := fun w => (Return a, w).

Definition raise {A} (e : exn) : M A := fun w => (Raise e, w).

Definition bind {A B} (m : M A) (k : A -> M B) : M B :=
  fun w =>
    match m w with
    | (Return a, w') => k a w'
    | (Raise e, w') => (Raise e, w')
    end.

#[global] Instance M_ret : MRet M := @ret.
#[global] Instance M_bind : MBind M := fun A B k m => bind m k.

(** The outcome of [m] as a value: what a [try] block hands to its
    [except] and [finally] clauses. *)
Definition attempt {A} (m : M A) : M (exn + A) :=
  fun w =>
    match m w with
    | (Return a, w') => (Return (inr a), w')
    | (Raise e, w') => (Return (inl e), w')
    end.

(** [try: m  except <class> as e: handler e], for the exceptions that
    [handles] accepts. *)
Definition try_except {A} (m : M A) (handles : exn -> bool) (handler : exn -> M A)
  : M A :=
  fun w =>
    match m w with
    | (Return a, w') => (Return a, w')
    | (Raise e, w') => if handles e then handler e w' else (Raise e, w')
    end.

(** [try: m  finally: cleanup]: [cleanup] runs however [m] ends, and an
    exception it raises replaces the outcome of [m]. *)
Definition try_finally {A} (m : M A) (cleanup : M unit) : M A :=
  fun w =>
    match m w with
    | (r, w') =>
        match cleanup w' with
        | (Return _, w'') => (r, w'')
        | (Raise e, w'') => (Raise e, w'')
        end
    end.

(** ** DatabaseManager.get_connection *)

Definition get_connection (thread_id : nat) : M (option Connection) :=
  fun w =>
    match connection_pool w !! thread_id with
    | Some conn => (Return (Some conn), w)
    | None =>
        let '(failure, rest) := next_outcome (connect_script w) in
        let w := set_connect_script rest w in
        match failure with
        | None =>
            let conn := Conn thread_id in
            (Return (Some conn),
             set_connection_pool (<[thread_id := conn]> (connection_pool w)) w)
        | Some _ => (Return None, w)
        end
    end.

(** ** The calls into mysql.connector *)

(** [conn.cursor(...)] *)
Definition conn_cursor (conn : Connection) : M Cursor :=
  fun w =>
    let '(failure, rest) := next_outcome (cursor_script w) in
    let w := set_cursor_script rest w in
    match failure with
    | None => (Return (Cur conn), w)
    | Some msg => (Raise (MySQLError msg), w)
    end.

(** [cursor.execute(statement, params)]: the statement reaches the server
    or the call raises; an INSERT that succeeds appends its row. *)
Definition execute (cursor : Cursor) (st : Statement) : M unit :=
  fun w =>
    let w := set_executed (executed w ++ [st]) w in
    let '(failure, rest) := next_outcome (execute_script w) in
    let w := set_execute_script rest w in
    match failure with
    | Some msg => (Raise (MySQLError msg), w)
    | None =>
        match st with
        | InsertRadiusLog row => (Return tt, set_db (append_log row (db w)) w)
        | _ => (Return tt, w)
        end
    end.

(** [cursor.fetchone()] after each of the three SELECT statements. *)
Definition fetchone_radreply (username : string) : M (option RadreplyRow) :=
  fun w => (Return (select_radreply (db w) username), w).

Definition fetchone_mac_prefixes (prefix : string) : M (option MacPrefixRow) :=
  fun w => (Return (select_mac_prefixes (db w) prefix), w).

Definition fetchone_default_vlan : M (option DefaultVlanRow) :=
  fun w => (Return (select_default_vlan (db w)), w).

(** What reading the local variable [cursor] raises while it is unbound. *)
Definition unbound_cursor : exn :=
  UnboundLocalError
    "cannot access local variable 'cursor' where it is not associated with a value".

(** [cursor.close()] in a [finally] clause; [cursor] is [None] when the
    local variable was never assigned. *)
Definition cursor_close (cursor : option Cursor) : M unit :=
  match cursor with
  | Some _ => ret tt
  | None => raise unbound_cursor
  end.

Definition bound {A} (v : exn + A) : option A :=
  match v with
  | inr a => Some a
  | inl _ => None
  end.

(** [int(result['value'])] on the text of a [radreply] row. *)
Definition int_of_value (s : string) : M Z :=
  match Py.int 10 s with
  | Some n => ret n
  | None => raise (ValueError (Py.invalid_literal 10 s))
  end.

(** ** DatabaseManager.get_vlan_for_mac *)

Definition get_vlan_for_mac (thread_id : nat) (mac : option string)
  : M (option Z * option string) :=
  (* Step 1: normalize the MAC address format *)
  match normalize_mac mac with
  | None => ret (None, None)
  | Some normalized_mac =>
      (* Step 2: get database connection *)
      conn ← get_connection thread_id;
      match conn with
      | None => ret (None, None)
      | Some conn =>
          opened ← attempt (conn_cursor conn);
          try_finally
            (try_except
               (match opened with
                | inl e => raise e
                | inr cursor =>
                    (* Step 3: exact MAC match in radreply *)
                    execute cursor (SelectRadreply normalized_mac);;
                    result ← fetchone_radreply normalized_mac;
                    match result with
                    | Some row =>
                        vlan_id ← int_of_value (rr_value row);
                        ret (Some vlan_id, Some "exact")
                    | None =>
                        (* Step 4: MAC prefix match *)
                        let mac_prefix :=
                          Py.join ":" (take 3 (Py.split ":" normalized_mac)) in
                        execute cursor (SelectMacPrefixes mac_prefix);;
                        result ← fetchone_mac_prefixes mac_prefix;
                        match result with
                        | Some row => ret (Some (mp_vlan_id row), Some "prefix")
                        | None =>
                            (* Step 5: default VLAN if enabled *)
                            execute cursor SelectDefaultVlan;;
                            result ← fetchone_default_vlan;
                            match result with
                            | Some row => ret (Some (dv_vlan_id row), Some "default")
                            | None => ret (None, None)
                            end
                        end
                    end
                end)
               is_mysql_error
               (fun _ => ret (None, None)))
            (cursor_close (bound opened))
      end
  end.

(** ** DatabaseManager.log_radius_request *)

(** The parameters of the INSERT statement. *)
Definition audit_row (username nas_ip nas_port called_station_id calling_station_id
                        : option value)
    (request_type response_type reason : string) : RadiusLogRow :=
  {| lg_username := or_empty username;
     lg_nas_ip_address := or_empty nas_ip;
     lg_nas_port_id := or_empty nas_port;
     lg_called_station_id := or_empty called_station_id;
     lg_calling_station_id := or_empty calling_station_id;
     lg_request_type := request_type;
     lg_response_type := response_type;
     lg_reason := reason |}.

Definition log_radius_request (thread_id : nat)
    (username nas_ip nas_port called_station_id calling_station_id : option value)
    (request_type response_type reason : string) : M bool :=
  conn ← get_connection thread_id;
  match conn with
  | None => ret false
  | Some conn =>
      opened ← attempt (conn_cursor conn);
      try_finally
        (try_except
           (match opened with
            | inl e => raise e
            | inr cursor =>
                execute cursor
                  (InsertRadiusLog
                     (audit_row username nas_ip nas_port called_station_id
                        calling_station_id request_type response_type reason));;
                ret true
            end)
           is_mysql_error
           (fun _ => ret false))
        (cursor_close (bound opened))
  end.

(** ** UniFiRadiusServer.HandleAuthPacket *)

(** [l[0]] *)
Definition first_of (l : list value) : exn + option value :=
  match l with
  | v :: _ => inr (Some v)
  | [] => inl (IndexError "list index out of range")
  end.

(** [key in pkt] *)
Definition has (pkt : Packet) (key : string) : bool :=
  bool_decide (is_Some (attrs pkt !! key)).

(** [pkt[key][0]], and [pkt.get(key, [None])[0]], for a key that [pkt]
    holds. *)
Definition first_value (pkt : Packet) (key : string) : exn + option value :=
  match attrs pkt !! key with
  | Some l => first_of l
  | None => inr None
  end.

(** The local variables of [HandleAuthPacket] that its [except] clause
    reads. [mac_address] is assigned first and always bound; each of the
    others is [None] while unbound and [Some v] once assigned [v]. *)
Record Locals := {
  mac_address : option value;
  nas_ip : option (option value);
  nas_port : option (option value);
  called_station_id : option (option value);
  calling_station_id : option (option value);
}.

(** [x if 'x' in locals() else None] *)
Definition local_or_None (x : option (option value)) : option value :=
  match x with
  | Some v => v
  | None => None
  end.

(** The assignments at the head of the [try] block, which read the packet
    only: the locals they bind, and the exception that stopped them, if
    any. *)
Definition read_request (pkt : Packet) : Locals * option exn :=
  let l0 := {| mac_address := None; nas_ip := None; nas_port := None;
               called_station_id := None; calling_station_id := None |} in
  match (if has pkt "Calling-Station-Id" then first_value pkt "Calling-Station-Id"
         else if has pkt "User-Name" then first_value pkt "User-Name"
         else inr None) with
  | inl e => (l0, Some e)
  | inr mac =>
  let l1 := {| mac_address := mac; nas_ip := None; nas_port := None;
               called_station_id := None; calling_station_id := None |} in
  match (if has pkt "NAS-IP-Address" then first_value pkt "NAS-IP-Address"
         else inr (Some (VStr (fst (source pkt))))) with
  | inl e => (l1, Some e)
  | inr ip =>
  let l2 := {| mac_address := mac; nas_ip := Some ip; nas_port := None;
               called_station_id := None; calling_station_id := None |} in
  match (if has pkt "NAS-Port" then first_value pkt "NAS-Port" else inr None) with
  | inl e => (l2, Some e)
  | inr port =>
  let l3 := {| mac_address := mac; nas_ip := Some ip; nas_port := Some port;
               called_station_id := None; calling_station_id := None |} in
  match (if has pkt "Called-Station-Id" then first_value pkt "Called-Station-Id"
         else inr None) with
  | inl e => (l3, Some e)
  | inr called =>
  let l4 := {| mac_address := mac; nas_ip := Some ip; nas_port := Some port;
               called_station_id := Some called; calling_station_id := None |} in
  match (if has pkt "Calling-Station-Id" then first_value pkt "Calling-Station-Id"
         else inr None) with
  | inl e => (l4, Some e)
  | inr calling =>
      ({| mac_address := mac; nas_ip := Some ip; nas_port := Some port;
          called_station_id := Some called; calling_station_id := Some calling |},
       None)
  end end end end end.

(** [self.database.get_vlan_for_mac(mac_address)] on the object the packet
    gave: [normalize_mac] iterates over its argument, which an [int] does
    not allow. *)
Definition call_get_vlan_for_mac (thread_id : nat) (mac_address : option value)
  : M (option Z * option string) :=
  match mac_address with
  | Some (VStr s) => get_vlan_for_mac thread_id (Some s)
  | Some (VInt _) => raise (TypeError "'int' object is not iterable")
  | None => get_vlan_for_mac thread_id None
  end.

(** [self.SendReplyPacket(fd, reply)] *)
Definition SendReplyPacket (fd : nat) (reply : Reply) : M unit :=
  fun w =>
    let '(failure, rest) := next_outcome (send_script w) in
    let w := set_send_script rest w in
    match failure with
    | None => (Return tt, set_sent (sent w ++ [(fd, reply)]) w)
    | Some msg => (Raise (OSError msg), w)
    end.

Definition get_authfds : M (list nat) := fun w => (Return (authfds w), w).

(** The body of the [try] block after the packet has been read. *)
Definition decide_request (thread_id : nat) (pkt : Packet) (l : Locals) : M Reply :=
  if negb (truthy (mac_address l)) then
    log_radius_request thread_id
      (Some (VStr "unknown"))
      (local_or_None (nas_ip l)) (local_or_None (nas_port l))
      (local_or_None (called_station_id l)) (local_or_None (calling_station_id l))
      "Access-Request" "Access-Reject" "No MAC address found in request";;
    ret (create_reject_packet pkt)
  else
    found ← call_get_vlan_for_mac thread_id (mac_address l);
    match found with
    | (None, match_type) =>
        log_radius_request thread_id
          (mac_address l)
          (local_or_None (nas_ip l)) (local_or_None (nas_port l))
          (local_or_None (called_station_id l)) (local_or_None (calling_station_id l))
          "Access-Request" "Access-Reject"
          ("No VLAN assignment found for MAC " ++ str_of (mac_address l));;
        ret (create_reject_packet pkt)
    | (Some vlan_id, match_type) =>
        let reply := create_accept_packet pkt vlan_id in
        log_radius_request thread_id
          (mac_address l)
          (local_or_None (nas_ip l)) (local_or_None (nas_port l))
          (local_or_None (called_station_id l)) (local_or_None (calling_station_id l))
          "Access-Request" "Access-Accept"
          ("VLAN " ++ Py.str_of_int vlan_id ++ " assigned via "
             ++ str_of_opt match_type ++ " match");;
        ret reply
    end.

(** The [except Exception as e] clause. *)
Definition on_error (thread_id : nat) (pkt : Packet) (l : Locals) (e : exn) : M Reply :=
  log_radius_request thread_id
    (mac_address l)
    (local_or_None (nas_ip l)) (local_or_None (nas_port l))
    (local_or_None (called_station_id l)) (local_or_None (calling_station_id l))
    "Access-Request" "Access-Reject"
    ("Server error: " ++ exn_str e);;
  ret (create_reject_packet pkt).

(** The transmission at the end of [HandleAuthPacket]; a failure to send
    is logged and goes no further. *)
Definition send_response (reply : option Reply) : M unit :=
  fds ← get_authfds;
  match reply, fds with
  | Some r, fd :: _ =>
      try_except (SendReplyPacket fd r) (fun _ => true) (fun _ => ret tt)
  | _, _ => ret tt
  end.

(** The method returns nothing; the embedding returns the final value of
    its local variable [reply], and the replies handed to the socket are in
    [sent]. *)
Definition HandleAuthPacket (thread_id : nat) (pkt : Packet) : M (option Reply) :=
  let '(l, stopped) := read_request pkt in
  reply ← try_except
            (match stopped with
             | Some e => raise e
             | None => decide_request thread_id pkt l
             end)
            (fun _ => true)
            (on_error thread_id pkt l);
  let reply := Some reply in
  send_response reply;;
  ret reply.

(** ** demo_radius.py *)

(** The two dictionaries that stand for the tables in the demonstration. *)
Definition mock_radreply : gmap string Z :=
  {[ "aa:bb:cc:dd:ee:ff" := 100; "11:22:33:44:55:66" := 200;
     "aa:bb:cc:77:88:99" := 150 ]}.

Definition mock_mac_prefixes : gmap string Z :=
  {[ "aa:bb:cc" := 300; "11:22:33" := 400; "ff:ee:dd" := 500 ]}.

(** [mock_vlan_lookup], the closure of [demo_vlan_lookup_logic], with the
    two dictionaries it closes over as parameters. *)
Definition mock_vlan_lookup (radreply_dict mac_prefixes_dict : gmap string Z)
    (mac : option string) : option Z * option string :=
  match normalize_mac mac with
  | None => (None, None)
  | Some normalized_mac =>
      match radreply_dict !! normalized_mac with
      | Some vlan_id => (Some vlan_id, Some "exact")
      | None =>
          let mac_prefix := Py.join ":" (take 3 (Py.split ":" normalized_mac)) in
          match mac_prefixes_dict !! mac_prefix with
          | Some vlan_id => (Some vlan_id, Some "prefix")
          | None => (None, None)
          end
      end
  end.

(** The dictionary that [create_mock_radius_response] returns: a code and,
    for an accept only, the key [attributes]. *)
Record MockResponse := {
  mock_code : string;
  mock_attributes : option (gmap string value);
}.

Definition create_mock_radius_response (vlan_id : option Z) : MockResponse :=
  match vlan_id with
  | None => {| mock_code := "Access-Reject"; mock_attributes := None |}
  | Some vlan_id =>
      {| mock_code := "Access-Accept";
         mock_attributes :=
           Some {[ "Tunnel-Type" := VInt 13;
                   "Tunnel-Medium-Type" := VInt 6;
                   "Tunnel-Private-Group-ID" := VStr (Py.str_of_int vlan_id) ]} |}
  end.

(** ** Vocabulary of the properties *)

(** The characters that survive the filter of [normalize_mac]. *)
Definition clean_chars (cs : list ascii) : list ascii :=
  Py.lower <$> filter (fun c => Py.isalnum c = true) cs.

(** The canonical text built from a cleaned string. *)
Definition canonical (clean_mac : string) : string :=
  Py.join ":" ((fun i => Py.slice clean_mac i (i + 2)) <$> Py.range 0 12 2).

(** A script without failure. *)
Definition quiet (s : Script) : Prop := Forall (fun o => o = None) s.

(** The store answers every call of the resolver: connecting, opening a
    cursor and executing statements all succeed. *)
Definition healthy (w : World) : Prop :=
  quiet (connect_script w) /\ quiet (cursor_script w) /\ quiet (execute_script w).

(** The manufacturer prefix the resolver looks up. *)
Definition prefix_of (normalized_mac : string) : string :=
  Py.join ":" (take 3 (Py.split ":" normalized_mac)).

(** What a call leaves alone: the rule tables, the sockets and what was
    sent; and a script without failure stays so. *)
Definition frame (w w' : World) : Prop :=
  radreply (db w') = radreply (db w)
  /\ mac_prefixes (db w') = mac_prefixes (db w)
  /\ default_vlan_config (db w') = default_vlan_config (db w)
  /\ authfds w' = authfds w
  /\ sent w' = sent w
  /\ send_script w' = send_script w
  /\ (quiet (connect_script w) -> quiet (connect_script w'))
  /\ (quiet (cursor_script w) -> quiet (cursor_script w'))
  /\ (quiet (execute_script w) -> quiet (execute_script w')).

(** A failure was met between two states of a script: some outcome
    consumed was a failure. *)
Definition failed_in (before after : Script) : Prop :=
  exists used msg, before = (used ++ after)%list /\ In (Some msg) used.

(** The name of a reply code in the audit table. *)
Definition response_type_of (c : Code) : string :=
  match c with
  | AccessRequest => "Access-Request"
  | AccessAccept => "Access-Accept"
  | AccessReject => "Access-Reject"
  end.

(** A packet as pyrad decodes it: an attribute that is present has at
    least one value. *)
Definition decoded (pkt : Packet) : Prop :=
  forall key, attrs pkt !! key <> Some [].

(** The statements that read. *)
Definition is_select (st : Statement) : bool :=
  match st with
  | InsertRadiusLog _ => false
  | _ => true
  end.

(** The store that holds the rules of two dictionaries, each VLAN written
    with [str] as the administration pages write it, and no default. *)
Definition db_of_dicts (radreply_dict mac_prefixes_dict : gmap string Z) : Database :=
  {| radreply :=
       (fun kv => {| rr_username := fst kv;
                     rr_attribute := "Tunnel-Private-Group-ID";
                     rr_value := Py.str_of_int (snd kv) |})
         <$> map_to_list radreply_dict;
     mac_prefixes :=
       (fun kv => {| mp_prefix := fst kv; mp_vlan_id := snd kv |})
         <$> map_to_list mac_prefixes_dict;
     default_vlan_config := [];
     radius_logs := [] |}.

(** The first value of an attribute, if the packet holds one. *)
Definition first_attr (pkt : Packet) (key : string) : option value :=
  match attrs pkt !! key with
  | Some (v :: _) => Some v
  | _ => None
  end.

(** The store without the device rows of other attributes. *)
Definition only_vlan_rows (d : Database) : Database :=
  {| radreply :=
       List.filter (fun r => String.eqb (rr_attribute r) "Tunnel-Private-Group-ID")
                   (radreply d);
     mac_prefixes := mac_prefixes d;
     default_vlan_config := default_vlan_config d;
     radius_logs := radius_logs d |}.

(** The three device rows that the administration pages and
    [setup_test_data] of test_radius.py write for one station. *)
Definition device_rows (mac : string) (vlan : Z) : list RadreplyRow :=
  [ {| rr_username := mac; rr_attribute := "Tunnel-Type"; rr_value := "13" |};
    {| rr_username := mac; rr_attribute := "Tunnel-Medium-Type"; rr_value := "6" |};
    {| rr_username := mac; rr_attribute := "Tunnel-Private-Group-ID";
       rr_value := Py.str_of_int vlan |} ].

(** ** Example stores, worlds and requests *)

Definition TPGI : string := "Tunnel-Private-Group-ID".

Definition example_db : Database :=
  {| radreply :=
       [ {| rr_username := "aa:bb:cc:dd:ee:ff"; rr_attribute := TPGI; rr_value := "100" |} ];
     mac_prefixes := [ {| mp_prefix := "aa:bb:cc"; mp_vlan_id := 300 |} ];
     default_vlan_config :=
       [ {| dv_id := 1; dv_vlan_id := 999; dv_enabled := 1 |};
         {| dv_id := 3; dv_vlan_id := 998; dv_enabled := 1 |};
         {| dv_id := 4; dv_vlan_id := 997; dv_enabled := 0 |};
         {| dv_id := 2; dv_vlan_id := 996; dv_enabled := 1 |} ];
     radius_logs := [] |}.

Definition no_default_db : Database :=
  {| radreply := radreply example_db;
     mac_prefixes := mac_prefixes example_db;
     default_vlan_config := [ {| dv_id := 1; dv_vlan_id := 999; dv_enabled := 0 |} ];
     radius_logs := [] |}.

(** A server that has just started: no pooled connection, one listening
    socket, and the given scripts for connecting and opening cursors. *)
Definition fresh_world (d : Database) (connects cursors executes : Script) : World :=
  {| db := d; connection_pool := ∅;
     connect_script := connects; cursor_script := cursors;
     execute_script := executes; send_script := [];
     executed := []; authfds := [5%nat]; sent := [] |}.

Definition up (d : Database) : World := fresh_world d [] [] [].

(** A request from an access point for the station [mac]. *)
Definition request_for (mac : string) : Packet :=
  {| attrs := {[ "Calling-Station-Id" := [VStr mac];
                 "User-Name" := [VStr "guest"] ]};
     source := ("192.0.2.10", 51000) |}.

(** The store cannot be reached: both attempts to connect fail. *)
Definition outage : World :=
  fresh_world example_db
    [Some "Can't connect to MySQL server"; Some "Can't connect to MySQL server"]
    [] [].

(** The thread holds a pooled connection that the server has closed since:
    opening a cursor on it fails. *)
Definition stale : World :=
  {| db := example_db;
     connection_pool := {[ 7%nat := Conn 7 ]};
     connect_script := [];
     cursor_script := [Some "MySQL Connection not available."];
     execute_script := []; send_script := [];
     executed := []; authfds := [5%nat]; sent := [] |}.

(** A request that names no station. *)
Definition anonymous_request : Packet :=
  {| attrs := {[ "NAS-Port" := [VInt 3] ]}; source := ("192.0.2.10", 51000) |}.

(** The first attempt to connect fails; the next one succeeds. *)
Definition flaky : World :=
  fresh_world example_db [Some "Can't connect to MySQL server"] [] [].

(** * Properties *)

(** ** Characters *)

Lemma lower_isalnum c :
  Py.isalnum c = true ->
  Py.isalnum (Py.lower c) = true /\ Py.lower (Py.lower c) = Py.lower c.
Proof.
  destruct c as [[] [] [] [] [] [] [] []]; vm_compute; intuition congruence.
Qed.

Lemma colon_not_alnum : Py.isalnum ":" = false.
Proof. reflexivity. Qed.

Lemma clean_chars_cons c cs :
  clean_chars (c :: cs) =
  if Py.isalnum c then Py.lower c :: clean_chars cs else clean_chars cs.
Proof.
  unfold clean_chars. rewrite filter_cons.
  destruct (decide (Py.isalnum c = true)) as [H|H].
  - rewrite H. reflexivity.
  - destruct (Py.isalnum c); [congruence | reflexivity].
Qed.

Lemma clean_mac_of_chars s :
  clean_mac_of s = string_of_list_ascii (clean_chars (list_ascii_of_string s)).
Proof. reflexivity. Qed.

(** A cleaned string holds alphanumeric, lower-cased characters only. *)
Lemma clean_chars_fixed cs :
  Forall (fun c => Py.isalnum c = true /\ Py.lower c = c) (clean_chars cs).
Proof.
  induction cs as [|c cs IH]; [constructor|].
  rewrite clean_chars_cons. destruct (Py.isalnum c) eqn:Hc; [|exact IH].
  constructor; [|exact IH]. apply lower_isalnum in Hc. exact Hc.
Qed.

(** ** normalize_mac *)

Lemma normalize_mac_Some mac y :
  normalize_mac mac = Some y ->
  exists s, mac = Some s /\ s <> "" /\
            String.length (clean_mac_of s) = 12%nat /\
            is_Some (Py.int 16 (clean_mac_of s)) /\
            y = canonical (clean_mac_of s).
Proof.
  destruct mac as [s|]; [|discriminate].
  destruct s as [|a s]; [discriminate|].
  unfold normalize_mac.
  destruct (Nat.eqb_spec (String.length (clean_mac_of (String a s))) 12) as [Hlen|Hlen];
    [|discriminate].
  cbn [negb].
  destruct (Py.int 16 (clean_mac_of (String a s))) as [n|] eqn:Hint; [|discriminate].
  intros [= <-]. exists (String a s).
  split; [reflexivity|]. split; [discriminate|]. split; [assumption|].
  split; [eauto | reflexivity].
Qed.

Lemma normalize_mac_of_clean s :
  s <> "" ->
  String.length (clean_mac_of s) = 12%nat ->
  is_Some (Py.int 16 (clean_mac_of s)) ->
  normalize_mac (Some s) = Some (canonical (clean_mac_of s)).
Proof.
  intros Hs Hlen [n Hint]. destruct s as [|a s]; [congruence|].
  unfold normalize_mac. rewrite Hlen, Hint. reflexivity.
Qed.

Lemma string_length_list s : String.length s = List.length (list_ascii_of_string s).
Proof. induction s; simpl; congruence. Qed.

(** Cleaning the canonical text gives the cleaned string back. *)
Lemma clean_canonical cs :
  List.length cs = 12%nat ->
  Forall (fun c => Py.isalnum c = true /\ Py.lower c = c) cs ->
  clean_mac_of (canonical (string_of_list_ascii cs)) = string_of_list_ascii cs
  /\ canonical (string_of_list_ascii cs) <> "".
Proof.
  intros Hlen Hall.
  do 12 (destruct cs as [|? cs]; [discriminate|]).
  destruct cs; [|discriminate].
  repeat match goal with
         | H : Forall _ (_ :: _) |- _ => apply Forall_cons in H; destruct H as [[? ?] H]
         end.
  split; [|discriminate].
  rewrite clean_mac_of_chars. f_equal.
  cbv [canonical Py.range Py.slice Py.join fmap list_fmap seq
       string_of_list_ascii list_ascii_of_string take drop
       Nat.add Nat.sub Nat.mul Nat.div Nat.divmod fst String.append].
  repeat (rewrite clean_chars_cons;
          first [ rewrite colon_not_alnum
                | match goal with
                  | Ha : Py.isalnum ?c = true, Hl : Py.lower ?c = ?c
                    |- context [Py.isalnum ?c] => rewrite Ha, Hl
                  end ]).
  reflexivity.
Qed.

(** *** Which texts are accepted *)

Lemma clean_char_plain c :
  Py.isalnum c = true -> Py.lower c = c ->
  Py.isspace c = false /\ Ascii.eqb c "_" = false /\ Ascii.eqb c "-" = false
  /\ Ascii.eqb c "+" = false /\ Ascii.eqb c "X" = false.
Proof.
  destruct c as [[] [] [] [] [] [] [] []]; vm_compute;
    intuition congruence.
Qed.

Lemma lstrip_plain cs :
  Forall (fun c => Py.isalnum c = true /\ Py.lower c = c) cs -> Py.lstrip cs = cs.
Proof.
  destruct 1 as [|c cs [Ha Hl] _]; [reflexivity|].
  cbn. destruct (clean_char_plain c Ha Hl) as (-> & _). reflexivity.
Qed.

Lemma strip_plain cs :
  Forall (fun c => Py.isalnum c = true /\ Py.lower c = c) cs -> Py.strip cs = cs.
Proof.
  intros H. unfold Py.strip. rewrite (lstrip_plain cs H).
  rewrite lstrip_plain by (apply Forall_reverse; exact H).
  apply reverse_involutive.
Qed.

Lemma digits_plain cs : forall acc prev,
  Forall (fun c => Py.isalnum c = true /\ Py.lower c = c) cs ->
  is_Some (Py.digits 16 acc prev cs) <->
  forallb (Py.is_digit 16) cs = true /\ (cs <> [] \/ prev = true).
Proof.
  induction cs as [|c cs IH]; intros acc prev H.
  - cbn. destruct prev; split.
    + intros _. auto.
    + intros _. eauto.
    + intros [? [=]].
    + intros [_ [?|?]]; congruence.
  - apply Forall_cons in H as [[Ha Hl] H].
    destruct (clean_char_plain c Ha Hl) as (_ & Hu & _).
    cbn [Py.digits forallb]. rewrite Hu. unfold Py.is_digit at 1.
    destruct (Py.digit_value c) as [d|].
    + destruct (d <? 16).
      * rewrite (IH _ true H). cbn. split.
        -- intros [Hall _]. split; [exact Hall | left; discriminate].
        -- intros [Hall _]. auto.
      * cbn. split; [intros [? [=]] | intros [[=] _]].
    + cbn. split; [intros [? [=]] | intros [[=] _]].
Qed.

(** On a cleaned string, [int(clean_mac, 16)] succeeds exactly for
    hexadecimal digits, alone or after the prefix [0x]. *)
Lemma int16_clean cs :
  Forall (fun c => Py.isalnum c = true /\ Py.lower c = c) cs ->
  is_Some (Py.int 16 (string_of_list_ascii cs)) <->
  (cs <> [] /\ forallb (Py.is_digit 16) cs = true)
  \/ (exists rest, cs = "0"%char :: "x"%char :: rest /\ rest <> []
                   /\ forallb (Py.is_digit 16) rest = true).
Proof.
  intros H. unfold Py.int.
  rewrite list_ascii_of_string_of_list_ascii, (strip_plain cs H).
  assert (Hsome : forall (neg : bool) l,
            is_Some (match Py.digits 16 0 false l with
                     | Some v => Some (if neg then - v else v)
                     | None => None
                     end) <-> is_Some (Py.digits 16 0 false l)).
  { intros neg l. destruct (Py.digits 16 0 false l); split; intros [? [=]]; eauto. }
  destruct cs as [|c0 cs].
  { cbn. split.
    - intros [? [=]].
    - intros [[? _]|(? & [=] & _)]; congruence. }
  pose proof H as H0. apply Forall_cons in H0 as [[Ha0 Hl0] Hcs].
  destruct (clean_char_plain c0 Ha0 Hl0) as (_ & _ & -> & -> & _).
  transitivity (is_Some (Py.digits 16 0 false (Py.skip_prefix 16 (c0 :: cs))));
    [exact (Hsome false _)|].
  unfold Py.skip_prefix. cbn [Z.eqb Pos.eqb].
  destruct cs as [|c1 cs].
  { rewrite (digits_plain [c0] 0 false H). split.
    - intros [Hall _]. left. split; [discriminate | exact Hall].
    - intros [[_ Hall]|(? & [=] & _)]. split; [exact Hall | left; discriminate]. }
  pose proof Hcs as H1. apply Forall_cons in H1 as [[Ha1 Hl1] Hrest].
  destruct (clean_char_plain c1 Ha1 Hl1) as (_ & _ & _ & _ & HX).
  rewrite HX, orb_false_r.
  destruct (Ascii.eqb_spec c0 "0") as [->|Hc0];
    [destruct (Ascii.eqb_spec c1 "x") as [->|Hc1]|]; cbn [andb].
  - assert (Hskip : match cs with
                    | u :: rest' => if Ascii.eqb u "_" then rest' else cs
                    | [] => cs
                    end = cs).
    { destruct cs as [|u cs']; [reflexivity|].
      apply Forall_cons in Hrest as [[Hau Hlu] _].
      destruct (clean_char_plain u Hau Hlu) as (_ & -> & _). reflexivity. }
    rewrite Hskip, (digits_plain cs 0 false Hrest). split.
    + intros [Hall [Hne|[=]]]. right. exists cs. auto.
    + intros [[_ Hall]|(rest & [= <-] & Hne & Hall)].
      * cbn in Hall. discriminate.
      * auto.
  - rewrite (digits_plain _ 0 false H). split.
    + intros [Hall _]. left. split; [discriminate | exact Hall].
    + intros [[_ Hall]|(rest & [= ? _] & _)]; [|congruence].
      split; [exact Hall | left; discriminate].
  - rewrite (digits_plain _ 0 false H). split.
    + intros [Hall _]. left. split; [discriminate | exact Hall].
    + intros [[_ Hall]|(rest & [= ? _] & _)]; [|congruence].
      split; [exact Hall | left; discriminate].
Qed.

(** The texts [normalize_mac] accepts, and what it returns for them: the
    cleaned text has 12 characters, which are hexadecimal digits, or [0x]
    and ten hexadecimal digits. Texts are those of code points below 256,
    the range of [string]; beyond it Python's [int] also reads the other
    decimal digits of Unicode. *)
Lemma normalize_mac_spec s y :
  normalize_mac (Some s) = Some y <->
  let cs := clean_chars (list_ascii_of_string s) in
  List.length cs = 12%nat
  /\ (forallb (Py.is_digit 16) cs = true
      \/ exists rest, cs = "0"%char :: "x"%char :: rest
                      /\ forallb (Py.is_digit 16) rest = true)
  /\ y = canonical (string_of_list_ascii cs).
Proof.
  cbn zeta. set (cs := clean_chars (list_ascii_of_string s)).
  assert (Hlen : String.length (clean_mac_of s) = List.length cs).
  { rewrite clean_mac_of_chars, string_length_list,
      list_ascii_of_string_of_list_ascii. reflexivity. }
  pose proof (int16_clean cs (clean_chars_fixed _)) as Hint.
  split.
  - intros H. apply normalize_mac_Some in H as (s' & [= <-] & _ & H12 & Hsome & ->).
    rewrite Hlen in H12. rewrite clean_mac_of_chars in Hsome. fold cs in Hsome.
    split; [exact H12|]. split; [|reflexivity].
    apply Hint in Hsome as [[_ Hall]|(rest & Hcs & _ & Hall)]; eauto.
  - intros (H12 & Hhex & ->).
    change (string_of_list_ascii cs) with (clean_mac_of s).
    apply normalize_mac_of_clean.
    + intros ->. discriminate H12.
    + rewrite Hlen. exact H12.
    + rewrite clean_mac_of_chars. fold cs. apply Hint.
      destruct Hhex as [Hall|(rest & Hcs & Hall)].
      * left. split; [|exact Hall]. intros Hnil. rewrite Hnil in H12. discriminate.
      * right. exists rest. split; [exact Hcs|]. split; [|exact Hall].
        intros ->. rewrite Hcs in H12. discriminate.
Qed.

(** C10. [normalize_mac] is idempotent: a canonical output is accepted
    again and is returned unchanged, so normalising twice is the same as
    normalising once. *)
Theorem normalize_mac_idempotent mac y :
  normalize_mac mac = Some y ->
  normalize_mac (Some y) = Some y
  /\ normalize_mac (normalize_mac mac) = normalize_mac mac.
Proof.
  intros H. assert (Hy : normalize_mac (Some y) = Some y).
  { destruct (normalize_mac_Some _ _ H) as (s & -> & Hs & Hlen & Hint & ->).
    rewrite clean_mac_of_chars in *.
    set (cs := clean_chars (list_ascii_of_string s)) in *.
    assert (Hcs : List.length cs = 12%nat).
    { rewrite string_length_list, list_ascii_of_string_of_list_ascii in Hlen.
      exact Hlen. }
    destruct (clean_canonical cs Hcs (clean_chars_fixed _)) as [Hclean Hne].
    rewrite (normalize_mac_of_clean _ Hne); rewrite Hclean.
    - reflexivity.
    - rewrite string_length_list, list_ascii_of_string_of_list_ascii. exact Hcs.
    - exact Hint. }
  split; [exact Hy | rewrite H; exact Hy].
Qed.

Lemma normalize_mac_idempotent_witness :
  normalize_mac (Some "AA-BB-CC-DD-EE-FF") = Some "aa:bb:cc:dd:ee:ff"
  /\ normalize_mac (Some "aa:bb:cc:dd:ee:ff") = Some "aa:bb:cc:dd:ee:ff"
  /\ normalize_mac (normalize_mac (Some "AA-BB-CC-DD-EE-FF"))
     = normalize_mac (Some "AA-BB-CC-DD-EE-FF").
Proof.
  split; [vm_compute; reflexivity|].
  apply (normalize_mac_idempotent (Some "AA-BB-CC-DD-EE-FF") "aa:bb:cc:dd:ee:ff").
  vm_compute; reflexivity.
Defined.

(** C3. The text [0x1234567890] is accepted, although its second character
    is no hexadecimal digit: [int(clean_mac, 16)] reads [0x] as the prefix
    of a literal. The result is not the canonical form of any MAC
    address. *)
Theorem normalize_mac_accepts_hex_prefix :
  clean_mac_of "0x1234567890" = "0x1234567890"
  /\ String.length (clean_mac_of "0x1234567890") = 12%nat
  /\ Py.is_digit 16 "x" = false
  /\ normalize_mac (Some "0x1234567890") = Some "0x:12:34:56:78:90".
Proof. vm_compute. repeat split; reflexivity. Qed.

(** ** [str] and [int] on integers *)

Lemma digit_char d :
  (d < 10)%N ->
  Ascii.eqb (pretty_N_char d) "_" = false
  /\ Py.digit_value (pretty_N_char d) = Some (Z.of_N d)
  /\ Py.isspace (pretty_N_char d) = false
  /\ Ascii.eqb (pretty_N_char d) "-" = false
  /\ Ascii.eqb (pretty_N_char d) "+" = false.
Proof.
  intros Hd.
  assert (d = 0 \/ d = 1 \/ d = 2 \/ d = 3 \/ d = 4 \/ d = 5 \/ d = 6
          \/ d = 7 \/ d = 8 \/ d = 9)%N as H by lia.
  repeat destruct H as [->|H]; try subst d; vm_compute; repeat split; reflexivity.
Qed.

(** Reading the digits that [str] wrote, most significant first. *)
Lemma digits_pretty_go x :
  (0 < x)%N ->
  exists k, 0 <= k /\ forall s acc prev,
    Py.digits 10 acc prev (list_ascii_of_string (pretty_N_go x s))
    = Py.digits 10 (acc * 10 ^ k + Z.of_N x) true (list_ascii_of_string s).
Proof.
  induction (N.lt_wf_0 x) as [x _ IH]. intros Hx.
  assert (Hmod : (x mod 10 < 10)%N) by (apply N.mod_lt; lia).
  destruct (digit_char _ Hmod) as (Hu & Hv & _).
  destruct (N.eq_dec (x / 10) 0) as [Hz|Hnz].
  - exists 1. split; [lia|]. intros s acc prev.
    rewrite pretty_N_go_step by exact Hx. rewrite Hz, pretty_N_go_0.
    cbn [list_ascii_of_string Py.digits]. rewrite Hu, Hv.
    assert (Hlt : (Z.of_N (x mod 10) <? 10) = true) by (apply Z.ltb_lt; lia).
    rewrite Hlt. f_equal.
    assert (x = x mod 10)%N as Hx'.
    { pose proof (N.div_mod x 10 ltac:(lia)) as Hdm. rewrite Hz in Hdm.
      rewrite N.mul_0_r, N.add_0_l in Hdm. exact Hdm. }
    rewrite <- Hx'. rewrite Z.pow_1_r. reflexivity.
  - destruct (IH (x / 10)%N) as (k & Hk & Hgo).
    { apply N.div_lt; lia. }
    { apply N.neq_0_lt_0. exact Hnz. }
    exists (k + 1). split; [lia|]. intros s acc prev.
    rewrite pretty_N_go_step by exact Hx. rewrite Hgo.
    cbn [list_ascii_of_string Py.digits]. rewrite Hu, Hv.
    assert (Hlt : (Z.of_N (x mod 10) <? 10) = true) by (apply Z.ltb_lt; lia).
    rewrite Hlt. f_equal.
    rewrite Z.pow_add_r, Z.pow_1_r by lia.
    assert (Z.of_N x = 10 * Z.of_N (x / 10) + Z.of_N (x mod 10)) as ->.
    { rewrite (N.div_mod x 10) at 1 by lia.
      rewrite N2Z.inj_add, N2Z.inj_mul. reflexivity. }
    ring.
Qed.

Lemma pretty_go_plain x : forall s,
  Forall (fun c => Py.isspace c = false /\ Ascii.eqb c "-" = false
                   /\ Ascii.eqb c "+" = false) (list_ascii_of_string s) ->
  Forall (fun c => Py.isspace c = false /\ Ascii.eqb c "-" = false
                   /\ Ascii.eqb c "+" = false)
         (list_ascii_of_string (pretty_N_go x s)).
Proof.
  induction (N.lt_wf_0 x) as [x _ IH]. intros s Hs.
  destruct (N.eq_dec x 0) as [->|Hx]; [rewrite pretty_N_go_0; exact Hs|].
  rewrite pretty_N_go_step by lia. apply IH.
  - apply N.div_lt; lia.
  - cbn [list_ascii_of_string]. constructor; [|exact Hs].
    assert (Hmod : (x mod 10 < 10)%N) by (apply N.mod_lt; lia).
    destruct (digit_char _ Hmod) as (_ & _ & ? & ? & ?). auto.
Qed.

Lemma pretty_go_nonempty x s : (0 < x)%N -> pretty_N_go x s <> "".
Proof.
  induction (N.lt_wf_0 x) as [x _ IH] in s |- *. intros Hx.
  rewrite pretty_N_go_step by exact Hx.
  destruct (N.eq_dec (x / 10) 0) as [->|Hnz].
  - rewrite pretty_N_go_0. discriminate.
  - apply IH; [apply N.div_lt; lia | apply N.neq_0_lt_0; exact Hnz].
Qed.

Lemma strip_no_space cs :
  Forall (fun c => Py.isspace c = false) cs -> Py.strip cs = cs.
Proof.
  intros H.
  assert (Hl : forall l, Forall (fun c => Py.isspace c = false) l -> Py.lstrip l = l).
  { intros l Hf. destruct Hf as [|c l Hc _]; [reflexivity|]. cbn. rewrite Hc. reflexivity. }
  unfold Py.strip. rewrite (Hl cs H).
  rewrite Hl by (apply Forall_reverse; exact H).
  apply reverse_involutive.
Qed.

(** [int(str(n)) == n] for a positive [n] written without sign. *)
Lemma int_pretty_pos p :
  Py.int 10 (pretty_N_go (Npos p) "") = Some (Zpos p).
Proof.
  pose proof (pretty_go_plain (Npos p) "" (Forall_nil_2 _)) as Hplain.
  destruct (digits_pretty_go (Npos p)) as (k & _ & Hgo); [lia|].
  pose proof (pretty_go_nonempty (Npos p) "" ltac:(lia)) as Hne.
  unfold Py.int. rewrite strip_no_space.
  2:{ eapply Forall_impl; [exact Hplain|]. cbn. intros ? (? & _). assumption. }
  destruct (list_ascii_of_string (pretty_N_go (Npos p) "")) as [|c cs] eqn:Hcs.
  { exfalso. apply Hne. rewrite <- (string_of_list_ascii_of_string (pretty_N_go (N.pos p) "")).
    rewrite Hcs. reflexivity. }
  apply Forall_cons in Hplain as [(_ & -> & ->) _].
  unfold Py.skip_prefix. cbn [Z.eqb Pos.eqb].
  rewrite <- Hcs, Hgo. cbn. reflexivity.
Qed.

(** [int(str(n)) == n] *)
Lemma int_str_of_int n : Py.int 10 (Py.str_of_int n) = Some n.
Proof.
  destruct n as [|p|p].
  - vm_compute. reflexivity.
  - apply int_pretty_pos.
  - change (Py.str_of_int (Z.neg p))
      with (String "-" (pretty_N_go (N.pos p) "")).
    pose proof (pretty_go_plain (Npos p) "" (Forall_nil_2 _)) as Hplain.
    destruct (digits_pretty_go (Npos p)) as (k & _ & Hgo); [lia|].
    unfold Py.int. cbn [list_ascii_of_string].
    rewrite strip_no_space.
    2:{ constructor; [reflexivity|].
        eapply Forall_impl; [exact Hplain|]. cbn. intros ? (? & _). assumption. }
    cbn [Ascii.eqb Bool.eqb]. unfold Py.skip_prefix. cbn [Z.eqb Pos.eqb].
    rewrite Hgo. cbn. reflexivity.
Qed.

(** ** create_accept_packet, create_reject_packet *)

(** C8. The accept reply carries the three tunnel attributes and nothing
    else: Tunnel-Type 13, Tunnel-Medium-Type 6, and as
    Tunnel-Private-Group-ID the decimal text of the VLAN id, a text that
    [int] reads back as that very number. The reject reply carries no
    attribute; both are addressed to the source of the request. Both
    functions are pure: they read the request and build a new reply. *)
Theorem reply_builders_attributes pkt vlan_id :
  code (create_accept_packet pkt vlan_id) = AccessAccept
  /\ reply_attrs (create_accept_packet pkt vlan_id)
     = {[ "Tunnel-Type" := [VInt 13];
          "Tunnel-Medium-Type" := [VInt 6];
          "Tunnel-Private-Group-ID" := [VStr (Py.str_of_int vlan_id)] ]}
  /\ (exists text,
        reply_attrs (create_accept_packet pkt vlan_id) !! "Tunnel-Private-Group-ID"
        = Some [VStr text]
        /\ Py.int 10 text = Some vlan_id)
  /\ reply_source (create_accept_packet pkt vlan_id) = source pkt
  /\ code (create_reject_packet pkt) = AccessReject
  /\ reply_attrs (create_reject_packet pkt) = ∅
  /\ reply_source (create_reject_packet pkt) = source pkt.
Proof.
  split; [reflexivity|]. split; [|split; [|repeat split]].
  2:{ exists (Py.str_of_int vlan_id). split; [|apply int_str_of_int].
      unfold create_accept_packet, AddAttribute, CreateReply, set_code, set_source.
      cbn [reply_attrs code reply_source].
      rewrite lookup_insert_eq. vm_compute. reflexivity. }
  unfold create_accept_packet, AddAttribute, CreateReply, set_code, set_source.
  cbn [reply_attrs code reply_source].
  apply map_eq. intros k.
  destruct (decide (k = "Tunnel-Type")) as [->|H1];
    [vm_compute; reflexivity|].
  destruct (decide (k = "Tunnel-Medium-Type")) as [->|H2];
    [vm_compute; reflexivity|].
  destruct (decide (k = "Tunnel-Private-Group-ID")) as [->|H3];
    [vm_compute; reflexivity|].
  rewrite !lookup_insert_ne by congruence.
  rewrite lookup_singleton_ne by congruence. reflexivity.
Qed.

Example accept_packet_100 :
  reply_attrs (create_accept_packet {| attrs := ∅; source := ("10.0.0.2", 40000) |} 100)
  !! "Tunnel-Private-Group-ID" = Some [VStr "100"].
Proof. vm_compute. reflexivity. Qed.

(** ** Scripts *)

Lemma quiet_nil : quiet [].
Proof. constructor. Qed.

Lemma quiet_tl s : quiet s -> quiet (tl s).
Proof. destruct 1; [constructor | assumption]. Qed.

Lemma next_outcome_quiet s : quiet s -> next_outcome s = (None, tl s).
Proof. destruct 1 as [|o s Ho Hs]; [reflexivity | subst; reflexivity]. Qed.

Ltac quiet_step :=
  match goal with
  | |- context [next_outcome ?s] =>
      rewrite (next_outcome_quiet s) by (repeat apply quiet_tl; assumption)
  end.

Lemma get_vlan_for_mac_healthy thread_id mac normalized_mac w :
  healthy w ->
  normalize_mac mac = Some normalized_mac ->
  exists w',
    get_vlan_for_mac thread_id mac w =
      (match select_radreply (db w) normalized_mac with
       | Some row =>
           match Py.int 10 (rr_value row) with
           | Some v => Return (Some v, Some "exact")
           | None => Raise (ValueError (Py.invalid_literal 10 (rr_value row)))
           end
       | None =>
           match select_mac_prefixes (db w) (prefix_of normalized_mac) with
           | Some row => Return (Some (mp_vlan_id row), Some "prefix")
           | None =>
               match select_default_vlan (db w) with
               | Some row => Return (Some (dv_vlan_id row), Some "default")
               | None => Return (None, None)
               end
           end
       end, w')
    /\ db w' = db w
    /\ executed w' =
       (executed w ++
         SelectRadreply normalized_mac ::
         match select_radreply (db w) normalized_mac with
         | Some _ => []
         | None =>
             SelectMacPrefixes (prefix_of normalized_mac) ::
             match select_mac_prefixes (db w) (prefix_of normalized_mac) with
             | Some _ => []
             | None => [SelectDefaultVlan]
             end
         end)%list.
Proof.
  intros (Hc & Hu & He) Hn.
  destruct w as [d pool cs us es ss ex fds snt]. cbn in Hc, Hu, He.
  unfold get_vlan_for_mac. rewrite Hn.
  unfold mbind, M_bind, bind, get_connection, attempt, conn_cursor, try_finally,
    try_except, execute, fetchone_radreply, fetchone_mac_prefixes,
    fetchone_default_vlan, int_of_value, cursor_close, ret, raise.
  cbn.
  fold (prefix_of normalized_mac).
  destruct (pool !! thread_id) as [conn|]; cbn;
    repeat (quiet_step; cbn);
    destruct (select_radreply d normalized_mac) as [row|]; cbn;
    try (destruct (Py.int 10 (rr_value row)); cbn);
    try (eexists; split; [reflexivity | split; reflexivity]);
    repeat (quiet_step; cbn);
    destruct (select_mac_prefixes d (prefix_of normalized_mac)); cbn;
    try (eexists; split; [reflexivity | split; [reflexivity | rewrite <- app_assoc; reflexivity]]);
    repeat (quiet_step; cbn);
    destruct (select_default_vlan d); cbn;
    eexists; (split; [reflexivity | split; [reflexivity | rewrite <- !app_assoc; reflexivity]]).
Qed.

(** ** The three SELECT statements *)

Lemma select_radreply_Some d username row :
  select_radreply d username = Some row ->
  In row (radreply d) /\ rr_username row = username
  /\ rr_attribute row = "Tunnel-Private-Group-ID".
Proof.
  unfold select_radreply. intros H. apply find_some in H as [Hin Hb].
  apply andb_true_iff in Hb as [H1 H2].
  apply String.eqb_eq in H1, H2. auto.
Qed.

Lemma select_radreply_None d username :
  select_radreply d username = None <->
  (forall row, In row (radreply d) -> rr_username row = username ->
               rr_attribute row <> "Tunnel-Private-Group-ID").
Proof.
  unfold select_radreply. split.
  - intros H row Hin Hu Ha.
    pose proof (find_none _ _ H row Hin) as Hb. cbn in Hb.
    rewrite Hu, Ha, !String.eqb_refl in Hb. discriminate.
  - intros H. destruct (find _ _) as [row|] eqn:Hf; [|reflexivity].
    apply find_some in Hf as [Hin Hb].
    apply andb_true_iff in Hb as [H1 H2]. apply String.eqb_eq in H1, H2.
    exfalso. exact (H row Hin H1 H2).
Qed.

Lemma select_mac_prefixes_Some d prefix row :
  select_mac_prefixes d prefix = Some row ->
  In row (mac_prefixes d) /\ mp_prefix row = prefix.
Proof.
  unfold select_mac_prefixes. intros H. apply find_some in H as [Hin Hb].
  apply String.eqb_eq in Hb. auto.
Qed.

Lemma select_mac_prefixes_None d prefix :
  select_mac_prefixes d prefix = None <->
  (forall row, In row (mac_prefixes d) -> mp_prefix row <> prefix).
Proof.
  unfold select_mac_prefixes. split.
  - intros H row Hin Hp.
    pose proof (find_none _ _ H row Hin) as Hb. cbn in Hb.
    rewrite Hp, String.eqb_refl in Hb. discriminate.
  - intros H. destruct (find _ _) as [row|] eqn:Hf; [|reflexivity].
    apply find_some in Hf as [Hin Hb]. apply String.eqb_eq in Hb.
    exfalso. exact (H row Hin Hb).
Qed.

Lemma fold_newest rows : forall acc,
  match fold_left newest rows acc with
  | None => acc = None /\ rows = []
  | Some b =>
      (acc = Some b \/ In b rows)
      /\ (forall a, acc = Some a -> dv_id a <= dv_id b)
      /\ (forall r, In r rows -> dv_id r <= dv_id b)
  end.
Proof.
  induction rows as [|r rows IH]; intros acc; cbn [fold_left].
  - destruct acc as [a|]; [|auto].
    split; [auto|]. split; [intros ? [= ->]; lia | intros ? []].
  - specialize (IH (newest acc r)).
    destruct (fold_left newest rows (newest acc r)) as [b|].
    + destruct IH as (Hb & Hacc & Hrows).
      assert (Hr : dv_id r <= dv_id b).
      { destruct acc as [a|]; cbn in Hacc.
        - destruct (Z.ltb_spec (dv_id a) (dv_id r)).
          + apply Hacc. reflexivity.
          + specialize (Hacc a eq_refl). lia.
        - apply Hacc. reflexivity. }
      split; [|split].
      * destruct Hb as [Hb|Hb]; [|right; right; exact Hb].
        destruct acc as [a|]; cbn in Hb.
        -- destruct (dv_id a <? dv_id r); injection Hb as <-; cbn; auto.
        -- injection Hb as <-. cbn; auto.
      * intros a ->. cbn in Hacc.
        destruct (Z.ltb_spec (dv_id a) (dv_id r)).
        -- specialize (Hacc r eq_refl). lia.
        -- apply Hacc. reflexivity.
      * intros r' [<-|Hin]; [exact Hr | apply Hrows; exact Hin].
    + destruct IH as [Hacc _]. destruct acc as [a|]; cbn in Hacc.
      * destruct (dv_id a <? dv_id r); discriminate.
      * discriminate.
Qed.

(** The default row chosen is an enabled row of greatest [id]; none is
    chosen exactly when no row is enabled. *)
Lemma select_default_vlan_spec d :
  match select_default_vlan d with
  | None => forall r, In r (default_vlan_config d) -> dv_enabled r <> 1
  | Some b =>
      In b (default_vlan_config d) /\ dv_enabled b = 1
      /\ forall r, In r (default_vlan_config d) -> dv_enabled r = 1 ->
                   dv_id r <= dv_id b
  end.
Proof.
  unfold select_default_vlan.
  pose proof (fold_newest
                (List.filter (fun r => dv_enabled r =? 1) (default_vlan_config d))
                None) as H.
  destruct (fold_left newest _ None) as [b|].
  - destruct H as ([H|H] & _ & Hmax); [discriminate|].
    apply filter_In in H as [Hin Hen]. apply Z.eqb_eq in Hen.
    split; [exact Hin|]. split; [exact Hen|].
    intros r Hr Hre. apply Hmax. apply filter_In. split; [exact Hr|].
    apply Z.eqb_eq. exact Hre.
  - destruct H as [_ H]. intros r Hr Hre.
    assert (Hin : In r (List.filter (fun r => dv_enabled r =? 1) (default_vlan_config d))).
    { apply filter_In. split; [exact Hr | apply Z.eqb_eq; exact Hre]. }
    rewrite H in Hin. destruct Hin.
Qed.

Lemma up_healthy d : healthy (up d).
Proof. repeat split; constructor. Qed.

(** ** get_vlan_for_mac *)

(** C1. With a store that answers, the three tiers are tried in the order
    exact, prefix, default and the first that yields a row decides: a
    device row gives its VLAN with [exact] whatever [mac_prefixes] holds,
    a prefix row is used only when there is no device row, the default
    only when there is neither, and the statements executed stop at the
    tier that answered. *)
Theorem resolver_precedence thread_id mac normalized_mac w :
  healthy w ->
  normalize_mac mac = Some normalized_mac ->
  let run := get_vlan_for_mac thread_id mac w in
  let prefix := prefix_of normalized_mac in
  (forall device v,
      select_radreply (db w) normalized_mac = Some device ->
      Py.int 10 (rr_value device) = Some v ->
      fst run = Return (Some v, Some "exact")
      /\ (forall row, fst run <> Return (Some (mp_vlan_id row), Some "prefix"))
      /\ executed (snd run) = (executed w ++ [SelectRadreply normalized_mac])%list)
  /\ (forall row,
      select_radreply (db w) normalized_mac = None ->
      select_mac_prefixes (db w) prefix = Some row ->
      fst run = Return (Some (mp_vlan_id row), Some "prefix")
      /\ executed (snd run) =
         (executed w ++ [SelectRadreply normalized_mac; SelectMacPrefixes prefix])%list)
  /\ (forall row,
      select_radreply (db w) normalized_mac = None ->
      select_mac_prefixes (db w) prefix = None ->
      select_default_vlan (db w) = Some row ->
      fst run = Return (Some (dv_vlan_id row), Some "default")
      /\ executed (snd run) =
         (executed w ++ [SelectRadreply normalized_mac; SelectMacPrefixes prefix;
                         SelectDefaultVlan])%list)
  /\ (select_radreply (db w) normalized_mac = None ->
      select_mac_prefixes (db w) prefix = None ->
      select_default_vlan (db w) = None ->
      fst run = Return (None, None)
      /\ executed (snd run) =
         (executed w ++ [SelectRadreply normalized_mac; SelectMacPrefixes prefix;
                         SelectDefaultVlan])%list).
Proof.
  intros Hw Hn run prefix.
  destruct (get_vlan_for_mac_healthy thread_id mac normalized_mac w Hw Hn)
    as (w' & Hrun & _ & Hex).
  subst run prefix. rewrite Hrun. cbn [fst snd]. rewrite Hex.
  split; [|split; [|split]].
  - intros device v Hd Hv. rewrite Hd, Hv.
    split; [reflexivity|]. split; [|reflexivity].
    intros row Heq. discriminate Heq.
  - intros row Hd Hp. rewrite Hd, Hp. split; reflexivity.
  - intros row Hd Hp Hdef. rewrite Hd, Hp, Hdef. split; reflexivity.
  - intros Hd Hp Hdef. rewrite Hd, Hp, Hdef. split; reflexivity.
Qed.

Lemma resolver_precedence_witness :
  healthy (up example_db)
  /\ normalize_mac (Some "AA:BB:CC:DD:EE:FF") = Some "aa:bb:cc:dd:ee:ff"
  /\ select_mac_prefixes example_db "aa:bb:cc"
     = Some {| mp_prefix := "aa:bb:cc"; mp_vlan_id := 300 |}
  /\ fst (get_vlan_for_mac 7 (Some "AA:BB:CC:DD:EE:FF") (up example_db))
     = Return (Some 100, Some "exact").
Proof.
  split; [apply up_healthy|].
  split; [vm_compute; reflexivity|].
  split; [vm_compute; reflexivity|].
  destruct (resolver_precedence 7 (Some "AA:BB:CC:DD:EE:FF") "aa:bb:cc:dd:ee:ff"
              (up example_db) (up_healthy _) eq_refl) as [Hexact _].
  apply (Hexact {| rr_username := "aa:bb:cc:dd:ee:ff"; rr_attribute := TPGI;
                   rr_value := "100" |} 100); vm_compute; reflexivity.
Defined.

Example prefix_of_canonical : prefix_of "aa:bb:cc:dd:ee:ff" = "aa:bb:cc".
Proof. vm_compute. reflexivity. Qed.

Example scenario_prefix :
  fst (get_vlan_for_mac 7 (Some "aa-bb-cc-11-22-33") (up example_db))
  = Return (Some 300, Some "prefix").
Proof. vm_compute. reflexivity. Qed.

Example scenario_no_match :
  fst (get_vlan_for_mac 7 (Some "99:88:77:66:55:44") (up no_default_db))
  = Return (None, None).
Proof. vm_compute. reflexivity. Qed.

(** C6. When no device row and no prefix row matches: if some default row
    is enabled, the answer is [default] with the VLAN of an enabled row
    whose [id] is the greatest among the enabled rows; if none is enabled,
    the answer is no assignment. *)
Theorem resolver_default_fallback thread_id mac normalized_mac w :
  healthy w ->
  normalize_mac mac = Some normalized_mac ->
  select_radreply (db w) normalized_mac = None ->
  select_mac_prefixes (db w) (prefix_of normalized_mac) = None ->
  let answer := fst (get_vlan_for_mac thread_id mac w) in
  (forall row, In row (default_vlan_config (db w)) -> dv_enabled row = 1 ->
     exists best,
       In best (default_vlan_config (db w)) /\ dv_enabled best = 1
       /\ (forall r, In r (default_vlan_config (db w)) -> dv_enabled r = 1 ->
                     dv_id r <= dv_id best)
       /\ answer = Return (Some (dv_vlan_id best), Some "default"))
  /\ ((forall row, In row (default_vlan_config (db w)) -> dv_enabled row <> 1) ->
      answer = Return (None, None)).
Proof.
  intros Hw Hn Hex Hpre answer.
  destruct (get_vlan_for_mac_healthy thread_id mac normalized_mac w Hw Hn)
    as (w' & Hrun & _ & _).
  subst answer. rewrite Hrun, Hex, Hpre. cbn [fst].
  pose proof (select_default_vlan_spec (db w)) as Hsel.
  destruct (select_default_vlan (db w)) as [b|].
  - destruct Hsel as (Hin & Hen & Hmax). split.
    + intros _ _ _. exists b. auto.
    + intros Hnone. exfalso. exact (Hnone b Hin Hen).
  - split.
    + intros row Hin Hen. exfalso. exact (Hsel row Hin Hen).
    + reflexivity.
Qed.

Lemma resolver_default_fallback_witness :
  (exists best,
     In best (default_vlan_config example_db) /\ dv_enabled best = 1
     /\ (forall r, In r (default_vlan_config example_db) -> dv_enabled r = 1 ->
                   dv_id r <= dv_id best)
     /\ fst (get_vlan_for_mac 7 (Some "99:88:77:66:55:44") (up example_db))
        = Return (Some (dv_vlan_id best), Some "default"))
  /\ fst (get_vlan_for_mac 7 (Some "99:88:77:66:55:44") (up no_default_db))
     = Return (None, None).
Proof.
  destruct (resolver_default_fallback 7 (Some "99:88:77:66:55:44")
              "99:88:77:66:55:44" (up example_db) (up_healthy _)
              eq_refl eq_refl eq_refl) as [Hsome _].
  destruct (resolver_default_fallback 7 (Some "99:88:77:66:55:44")
              "99:88:77:66:55:44" (up no_default_db) (up_healthy _)
              eq_refl eq_refl eq_refl) as [_ Hnone].
  split.
  - apply (Hsome {| dv_id := 1; dv_vlan_id := 999; dv_enabled := 1 |});
      [left; reflexivity | reflexivity].
  - apply Hnone. intros row [<-|[]]. discriminate.
Defined.

Example scenario_default_newest :
  fst (get_vlan_for_mac 7 (Some "99:88:77:66:55:44") (up example_db))
  = Return (Some 998, Some "default").
Proof. vm_compute. reflexivity. Qed.

(** ** Runs of the effectful methods in an arbitrary world *)

Ltac quiet_inv :=
  repeat match goal with
         | H : quiet (_ :: _) |- _ =>
             apply Forall_cons in H; destruct H as [? H]
         | H : Forall _ (_ :: _) |- _ =>
             apply Forall_cons in H; destruct H as [? H]
         end.

Ltac frame_solve :=
  unfold frame; cbn;
  repeat split; try reflexivity; intros; quiet_inv;
  repeat first [assumption | reflexivity | discriminate | constructor].

(** Case analysis on the head of a script, or on a lookup, under a
    [match]. *)
Ltac run_step :=
  cbn;
  match goal with
  | |- context [match ?s with [] => _ | _ :: _ => _ end] =>
      is_var s; destruct s as [|[?|] s]
  | |- context [match ?x with Some _ => _ | None => _ end] =>
      destruct x eqn:?
  end.

Ltac unfold_run :=
  unfold mbind, M_bind, bind, get_connection, attempt, conn_cursor, try_finally,
    try_except, execute, fetchone_radreply, fetchone_mac_prefixes,
    fetchone_default_vlan, int_of_value, cursor_close, ret, raise, next_outcome.

Lemma log_radius_request_run thread_id u ip port called calling rq rs reason w :
  let row := audit_row u ip port called calling rq rs reason in
  exists r w',
    log_radius_request thread_id u ip port called calling rq rs reason w = (r, w')
    /\ frame w w'
    /\ ((r = Return true /\ db w' = append_log row (db w)
         /\ executed w' = (executed w ++ [InsertRadiusLog row])%list)
        \/ (r = Return false /\ db w' = db w /\ ~ (quiet (connect_script w) /\ quiet (execute_script w))
            /\ (executed w' = executed w
                \/ executed w' = (executed w ++ [InsertRadiusLog row])%list))
        \/ (r = Raise unbound_cursor /\ db w' = db w /\ executed w' = executed w
            /\ ~ quiet (cursor_script w))).
Proof.
  intros row. subst row.
  destruct w as [d pool cs us es ss ex fds snt].
  unfold log_radius_request, audit_row. unfold_run. unfold unbound_cursor.
  repeat run_step; cbn.
  all: eexists; eexists; (split; [reflexivity|]); (split; [frame_solve|]).
  all: first
    [ left; repeat split; reflexivity
    | right; left; split; [reflexivity|]; split; [reflexivity|];
      split; [intros [? ?]; cbn in *; quiet_inv; discriminate|];
      first [left; reflexivity | right; reflexivity]
    | right; right; split; [reflexivity|]; split; [reflexivity|];
      split; [reflexivity|]; intros ?; cbn in *; quiet_inv; discriminate ].
Qed.

Lemma get_vlan_for_mac_run thread_id mac w :
  exists r w',
    get_vlan_for_mac thread_id mac w = (r, w')
    /\ frame w w' /\ db w' = db w.
Proof.
  destruct w as [d pool cs us es ss ex fds snt].
  unfold get_vlan_for_mac. unfold_run.
  repeat run_step; cbn.
  all: eexists; eexists; (split; [reflexivity|]); (split; [frame_solve | reflexivity]).
Qed.

Lemma failed_in_app used after :
  failed_in (used ++ after)%list after <-> exists msg, In (Some msg) used.
Proof.
  split.
  - intros (used' & msg & Heq & Hin). apply app_inv_tail in Heq. subst.
    eauto.
  - intros [msg Hin]. exists used, msg. auto.
Qed.

Lemma not_failed_in_0 s : ~ failed_in s s.
Proof.
  intros H. apply (failed_in_app [] s) in H. destruct H as [? []].
Qed.

Lemma not_failed_in_1 s : ~ failed_in (None :: s) s.
Proof.
  intros H. apply (failed_in_app [None] s) in H.
  destruct H as [? [H|[]]]. discriminate.
Qed.

Lemma not_failed_in_2 s : ~ failed_in (None :: None :: s) s.
Proof.
  intros H. apply (failed_in_app [None; None] s) in H.
  destruct H as [? [H|[H|[]]]]; discriminate.
Qed.

Lemma not_failed_in_3 s : ~ failed_in (None :: None :: None :: s) s.
Proof.
  intros H. apply (failed_in_app [None; None; None] s) in H.
  destruct H as [? [H|[H|[H|[]]]]]; discriminate.
Qed.

(** Whenever connecting or a statement fails while a valid MAC is being
    resolved, the answer is the pair [(None, None)]. *)
Lemma get_vlan_for_mac_store_failure thread_id mac normalized_mac w :
  normalize_mac mac = Some normalized_mac ->
  quiet (cursor_script w) ->
  let run := get_vlan_for_mac thread_id mac w in
  failed_in (connect_script w) (connect_script (snd run))
  \/ failed_in (execute_script w) (execute_script (snd run)) ->
  fst run = Return (None, None).
Proof.
  intros Hn Hq.
  destruct w as [d pool cs us es ss ex fds snt].
  unfold get_vlan_for_mac. rewrite Hn. unfold_run. cbn in Hq.
  repeat run_step; cbn; quiet_inv; try discriminate; try reflexivity.
  all: intros [Hf|Hf]; exfalso;
    first [ exact (not_failed_in_0 _ Hf) | exact (not_failed_in_1 _ Hf)
          | exact (not_failed_in_2 _ Hf) | exact (not_failed_in_3 _ Hf) ].
Qed.

Lemma frame_refl w : frame w w.
Proof. unfold frame. repeat split; auto. Qed.

Lemma frame_trans w1 w2 w3 : frame w1 w2 -> frame w2 w3 -> frame w1 w3.
Proof.
  unfold frame. intros (a1 & a2 & a3 & a4 & a5 & a6 & a7 & a8 & a9)
                       (b1 & b2 & b3 & b4 & b5 & b6 & b7 & b8 & b9).
  repeat split; try congruence; auto.
Qed.

Lemma frame_healthy w w' : frame w w' -> healthy w -> healthy w'.
Proof.
  unfold frame, healthy. intros (_ & _ & _ & _ & _ & _ & a7 & a8 & a9) (? & ? & ?).
  auto.
Qed.

Lemma frame_quiet_cursor w w' :
  frame w w' -> quiet (cursor_script w) -> quiet (cursor_script w').
Proof. unfold frame. intros (_ & _ & _ & _ & _ & _ & _ & a8 & _). exact a8. Qed.

(** One audit call followed by [reply = ...], when cursors can be opened:
    the reply is produced, and the row is appended or the store is left as
    it was. *)
Lemma audited_reply thread_id u ip port called calling rs reason (reply : Reply) w :
  quiet (cursor_script w) ->
  let row := audit_row u ip port called calling "Access-Request" rs reason in
  exists w',
    bind (log_radius_request thread_id u ip port called calling
            "Access-Request" rs reason) (fun _ => ret reply) w = (Return reply, w')
    /\ frame w w'
    /\ ((db w' = db w
         /\ (executed w' = executed w
             \/ executed w' = (executed w ++ [InsertRadiusLog row])%list))
        \/ (db w' = append_log row (db w)
            /\ executed w' = (executed w ++ [InsertRadiusLog row])%list))
    /\ (healthy w -> db w' = append_log row (db w)
                     /\ executed w' = (executed w ++ [InsertRadiusLog row])%list).
Proof.
  intros Hq row.
  destruct (log_radius_request_run thread_id u ip port called calling
              "Access-Request" rs reason w)
    as (r & w' & Hrun & Hframe & Hcases).
  exists w'. unfold bind. rewrite Hrun.
  destruct Hcases as [(-> & Hdb & Hex) | [(-> & Hdb & Hno & Hex) | (-> & _ & _ & Hno)]].
  - split; [reflexivity|]. split; [exact Hframe|]. split; [right; auto|].
    intros _. auto.
  - split; [reflexivity|]. split; [exact Hframe|]. split; [left; auto|].
    intros (Hc & _ & He). exfalso. apply Hno. auto.
  - exfalso. exact (Hno Hq).
Qed.

(** The [try] block and its [except] clause, when cursors can be opened:
    one reply comes out, an Accept or a Reject, and the audit table gains
    at most one row, which names the response given. *)
Lemma decision_run thread_id pkt l stopped w :
  quiet (cursor_script w) ->
  exists reply w',
    try_except
      (match stopped with
       | Some e => raise e
       | None => decide_request thread_id pkt l
       end)
      (fun _ => true)
      (on_error thread_id pkt l) w = (Return reply, w')
    /\ frame w w'
    /\ (reply = create_reject_packet pkt
        \/ exists vlan_id, reply = create_accept_packet pkt vlan_id)
    /\ (db w' = db w
        \/ exists row, db w' = append_log row (db w)
                       /\ lg_response_type row = response_type_of (code reply))
    /\ (healthy w ->
        exists row, db w' = append_log row (db w)
                    /\ lg_response_type row = response_type_of (code reply)).
Proof.
  intros Hq.
  assert (Herr : forall e w1, frame w w1 -> db w1 = db w ->
    exists reply w',
      on_error thread_id pkt l e w1 = (Return reply, w')
      /\ frame w w'
      /\ (reply = create_reject_packet pkt
          \/ exists vlan_id, reply = create_accept_packet pkt vlan_id)
      /\ (db w' = db w
          \/ exists row, db w' = append_log row (db w)
                         /\ lg_response_type row = response_type_of (code reply))
      /\ (healthy w ->
          exists row, db w' = append_log row (db w)
                      /\ lg_response_type row = response_type_of (code reply))).
  { intros e w1 Hf Hdb. unfold on_error, mbind, M_bind.
    destruct (audited_reply thread_id (mac_address l)
                (local_or_None (nas_ip l)) (local_or_None (nas_port l))
                (local_or_None (called_station_id l))
                (local_or_None (calling_station_id l))
                "Access-Reject" ("Server error: " ++ exn_str e)
                (create_reject_packet pkt) w1 (frame_quiet_cursor _ _ Hf Hq))
      as (w' & Hrun & Hf' & Hcases & Hh).
    exists (create_reject_packet pkt), w'.
    split; [exact Hrun|]. split; [eapply frame_trans; eassumption|].
    split; [left; reflexivity|]. rewrite <- Hdb. split.
    - destruct Hcases as [[H _]|[H _]]; [left; exact H|right; eexists; split; [exact H|reflexivity]].
    - intros Hw. eexists. split; [apply Hh; eapply frame_healthy; eassumption|reflexivity]. }
  unfold try_except.
  destruct stopped as [e|].
  { cbn [raise]. apply (Herr e w (frame_refl w) eq_refl). }
  unfold decide_request, mbind, M_bind.
  destruct (truthy (mac_address l)) eqn:Ht; cbn [negb].
  2:{ destruct (audited_reply thread_id (Some (VStr "unknown"))
                (local_or_None (nas_ip l)) (local_or_None (nas_port l))
                (local_or_None (called_station_id l))
                (local_or_None (calling_station_id l))
                "Access-Reject" "No MAC address found in request"
                (create_reject_packet pkt) w Hq)
      as (w' & Hrun & Hf' & Hcases & Hh).
      rewrite Hrun. exists (create_reject_packet pkt), w'.
      split; [reflexivity|]. split; [exact Hf'|].
      split; [left; reflexivity|]. split.
      - destruct Hcases as [[H _]|[H _]]; [left; exact H|right; eexists; split; [exact H|reflexivity]].
      - intros Hw. eexists. split; [apply Hh; exact Hw|reflexivity]. }
  unfold bind at 1.
  unfold call_get_vlan_for_mac.
  destruct (mac_address l) as [[s|n]|] eqn:Hmac; [| |discriminate].
  2:{ cbn [raise]. apply (Herr _ w (frame_refl w) eq_refl). }
  destruct (get_vlan_for_mac_run thread_id (Some s) w) as (r & w1 & Hrun1 & Hf1 & Hdb1).
  rewrite Hrun1.
  destruct r as [[[vlan_id|] match_type]|e].
  - destruct (audited_reply thread_id (Some (VStr s))
                (local_or_None (nas_ip l)) (local_or_None (nas_port l))
                (local_or_None (called_station_id l))
                (local_or_None (calling_station_id l))
                "Access-Accept"
                ("VLAN " ++ Py.str_of_int vlan_id ++ " assigned via "
                   ++ str_of_opt match_type ++ " match")
                (create_accept_packet pkt vlan_id) w1
                (frame_quiet_cursor _ _ Hf1 Hq))
      as (w' & Hrun & Hf' & Hcases & Hh).
    rewrite Hrun. exists (create_accept_packet pkt vlan_id), w'.
    split; [reflexivity|]. split; [eapply frame_trans; eassumption|].
    split; [right; eexists; reflexivity|]. rewrite <- Hdb1. split.
    + destruct Hcases as [[H _]|[H _]]; [left; exact H|right; eexists; split; [exact H|reflexivity]].
    + intros Hw. eexists.
      split; [apply Hh; eapply frame_healthy; eassumption|reflexivity].
  - destruct (audited_reply thread_id (Some (VStr s))
                (local_or_None (nas_ip l)) (local_or_None (nas_port l))
                (local_or_None (called_station_id l))
                (local_or_None (calling_station_id l))
                "Access-Reject"
                ("No VLAN assignment found for MAC " ++ str_of (Some (VStr s)))
                (create_reject_packet pkt) w1
                (frame_quiet_cursor _ _ Hf1 Hq))
      as (w' & Hrun & Hf' & Hcases & Hh).
    rewrite Hrun. exists (create_reject_packet pkt), w'.
    split; [reflexivity|]. split; [eapply frame_trans; eassumption|].
    split; [left; reflexivity|]. rewrite <- Hdb1. split.
    + destruct Hcases as [[H _]|[H _]]; [left; exact H|right; eexists; split; [exact H|reflexivity]].
    + intros Hw. eexists.
      split; [apply Hh; eapply frame_healthy; eassumption|reflexivity].
  - cbn. apply (Herr e w1 Hf1 Hdb1).
Qed.

(** ** HandleAuthPacket *)

Lemma send_response_run (reply : Reply) w :
  exists w',
    send_response (Some reply) w = (Return tt, w')
    /\ db w' = db w /\ executed w' = executed w
    /\ (sent w' = sent w \/ exists fd, sent w' = (sent w ++ [(fd, reply)])%list)
    /\ (quiet (send_script w) -> forall fd fds, authfds w = fd :: fds ->
        sent w' = (sent w ++ [(fd, reply)])%list).
Proof.
  destruct w as [d pool cs us es ss ex fds snt].
  unfold send_response, get_authfds, SendReplyPacket, try_except.
  unfold mbind, M_bind, bind, ret, next_outcome. cbn.
  destruct fds as [|fd fds]; [|destruct ss as [|[m|] ss]]; cbn;
    eexists; (split; [reflexivity|]); (split; [reflexivity|]);
    (split; [reflexivity|]); split; eauto.
  - intros _ ? ? [=].
  - intros _ ? ? [= -> _]. reflexivity.
  - intros H. quiet_inv. discriminate.
  - intros _ ? ? [= -> _]. reflexivity.
Qed.

(** [HandleAuthPacket] is its decision followed by the transmission. *)
Lemma HandleAuthPacket_decided thread_id pkt w reply w1 :
  try_except
    (match snd (read_request pkt) with
     | Some e => raise e
     | None => decide_request thread_id pkt (fst (read_request pkt))
     end)
    (fun _ => true)
    (on_error thread_id pkt (fst (read_request pkt))) w = (Return reply, w1) ->
  exists w',
    HandleAuthPacket thread_id pkt w = (Return (Some reply), w')
    /\ db w' = db w1 /\ executed w' = executed w1
    /\ (sent w' = sent w1 \/ exists fd, sent w' = (sent w1 ++ [(fd, reply)])%list)
    /\ (quiet (send_script w1) -> forall fd fds, authfds w1 = fd :: fds ->
        sent w' = (sent w1 ++ [(fd, reply)])%list).
Proof.
  intros Hdec. unfold HandleAuthPacket.
  destruct (read_request pkt) as [l stopped]. cbn [fst snd] in Hdec.
  unfold mbind at 1, M_bind at 1, bind at 1. rewrite Hdec.
  destruct (send_response_run reply w1) as (w' & Hsend & Hrest).
  unfold mbind, M_bind, bind. rewrite Hsend. exists w'. split; [reflexivity | exact Hrest].
Qed.

Lemma HandleAuthPacket_raised thread_id pkt w e w1 :
  try_except
    (match snd (read_request pkt) with
     | Some e => raise e
     | None => decide_request thread_id pkt (fst (read_request pkt))
     end)
    (fun _ => true)
    (on_error thread_id pkt (fst (read_request pkt))) w = (Raise e, w1) ->
  HandleAuthPacket thread_id pkt w = (Raise e, w1).
Proof.
  intros Hdec. unfold HandleAuthPacket.
  destruct (read_request pkt) as [l stopped]. cbn [fst snd] in Hdec.
  unfold mbind at 1, M_bind at 1, bind at 1. rewrite Hdec. reflexivity.
Qed.

(** C4, as the code has it. When a cursor can be opened, every request ends
    with one reply, an Accept or a Reject, handed to the socket at most
    once, and with at most one new audit row, which names the response
    given. The row is there when the store answers; the reply is on the
    wire when there is a socket and sending succeeds. *)
Theorem one_reply_at_most_one_audit thread_id pkt w :
  quiet (cursor_script w) ->
  exists reply w',
    HandleAuthPacket thread_id pkt w = (Return (Some reply), w')
    /\ (code reply = AccessAccept \/ code reply = AccessReject)
    /\ (radius_logs (db w') = radius_logs (db w)
        \/ exists row, radius_logs (db w') = (radius_logs (db w) ++ [row])%list
                       /\ lg_response_type row = response_type_of (code reply))
    /\ (sent w' = sent w \/ exists fd, sent w' = (sent w ++ [(fd, reply)])%list)
    /\ (healthy w ->
        exists row, radius_logs (db w') = (radius_logs (db w) ++ [row])%list
                    /\ lg_response_type row = response_type_of (code reply))
    /\ (quiet (send_script w) -> forall fd fds, authfds w = fd :: fds ->
        sent w' = (sent w ++ [(fd, reply)])%list).
Proof.
  intros Hq.
  destruct (decision_run thread_id pkt (fst (read_request pkt))
              (snd (read_request pkt)) w Hq)
    as (reply & w1 & Hdec & Hf & Hkind & Hlog & Hhealthy).
  destruct (HandleAuthPacket_decided thread_id pkt w reply w1 Hdec)
    as (w' & Hrun & Hdb & _ & Hsent & Hsend).
  destruct Hf as (_ & _ & _ & Hfds & Hsnt & Hss & _).
  exists reply, w'. rewrite Hdb. rewrite Hsnt in Hsent, Hsend.
  rewrite Hss, Hfds in Hsend.
  split; [exact Hrun|]. split.
  { destruct Hkind as [->|[v ->]]; [right|left]; reflexivity. }
  split.
  { destruct Hlog as [->|(row & -> & Hrow)]; [left; reflexivity|].
    right. exists row. split; [reflexivity | exact Hrow]. }
  split; [exact Hsent|]. split; [|exact Hsend].
  intros Hw. destruct (Hhealthy Hw) as (row & -> & Hrow).
  exists row. split; [reflexivity | exact Hrow].
Qed.

Lemma one_reply_at_most_one_audit_witness :
  quiet (cursor_script (up example_db))
  /\ exists reply w',
      HandleAuthPacket 7 (request_for "AA:BB:CC:DD:EE:FF") (up example_db)
      = (Return (Some reply), w')
      /\ (exists row, radius_logs (db w') = [row]
                      /\ lg_response_type row = response_type_of (code reply))
      /\ sent w' = [(5%nat, reply)].
Proof.
  split; [exact quiet_nil|].
  destruct (one_reply_at_most_one_audit 7 (request_for "AA:BB:CC:DD:EE:FF")
              (up example_db) quiet_nil)
    as (reply & w' & Hrun & _ & _ & _ & Hlog & Hsend).
  exists reply, w'. split; [exact Hrun|]. split.
  - apply Hlog. apply up_healthy.
  - apply (Hsend quiet_nil 5%nat []). reflexivity.
Defined.

Example scenario_exact_accept :
  let run := HandleAuthPacket 7 (request_for "AA:BB:CC:DD:EE:FF") (up example_db) in
  fst run = Return (Some (create_accept_packet (request_for "AA:BB:CC:DD:EE:FF") 100))
  /\ lg_reason <$> radius_logs (db (snd run)) = ["VLAN 100 assigned via exact match"].
Proof. vm_compute. split; reflexivity. Qed.

(** A device row whose value is no number ends in the [except] clause. *)
Example scenario_value_not_a_number :
  let d := {| radreply := [ {| rr_username := "aa:bb:cc:dd:ee:ff";
                               rr_attribute := TPGI; rr_value := "guest" |} ];
              mac_prefixes := []; default_vlan_config := []; radius_logs := [] |} in
  let run := HandleAuthPacket 7 (request_for "AA:BB:CC:DD:EE:FF") (up d) in
  fst run = Return (Some (create_reject_packet (request_for "AA:BB:CC:DD:EE:FF")))
  /\ lg_reason <$> radius_logs (db (snd run))
     = ["Server error: invalid literal for int() with base 10: 'guest'"].
Proof. vm_compute. split; reflexivity. Qed.

(** C4, as stated, fails when the store is down: the request is answered
    with a Reject and no audit row is written. *)
Lemma store_outage_no_audit_record :
  let run := HandleAuthPacket 7 (request_for "AA:BB:CC:DD:EE:FF") outage in
  fst run = Return (Some (create_reject_packet (request_for "AA:BB:CC:DD:EE:FF")))
  /\ ~ (exists row,
          radius_logs (db (snd run)) = (radius_logs (db outage) ++ [row])%list).
Proof.
  split; [vm_compute; reflexivity|].
  intros [row H]. vm_compute in H. discriminate H.
Qed.

(** ** log_radius_request *)

(** C9. On a connection that cannot open a cursor, [log_radius_request]
    raises: the [finally] clause closes a cursor that was never assigned. *)
Theorem log_radius_request_raises_on_stale_connection :
  fst (log_radius_request 7 (Some (VStr "aa:bb:cc:dd:ee:ff")) (Some (VStr "192.0.2.10"))
         None None (Some (VStr "aa:bb:cc:dd:ee:ff"))
         "Access-Request" "Access-Reject"
         "No VLAN assignment found for MAC aa:bb:cc:dd:ee:ff" stale)
  = Raise unbound_cursor.
Proof. vm_compute. reflexivity. Qed.

(** With a cursor at hand the call returns: [true] with the row appended,
    [false] with the table as it was. *)
Lemma log_radius_request_returns thread_id u ip port called calling rq rs reason w :
  quiet (cursor_script w) ->
  let run := log_radius_request thread_id u ip port called calling rq rs reason w in
  (fst run = Return true
   /\ radius_logs (db (snd run)) =
      (radius_logs (db w) ++ [audit_row u ip port called calling rq rs reason])%list)
  \/ (fst run = Return false /\ db (snd run) = db w).
Proof.
  intros Hq run.
  destruct (log_radius_request_run thread_id u ip port called calling rq rs reason w)
    as (r & w' & Hrun & _ & Hcases).
  subst run. rewrite Hrun. cbn [fst snd].
  destruct Hcases as [(-> & -> & _) | [(-> & Hdb & _) | (_ & _ & _ & Hno)]].
  - left. split; reflexivity.
  - right. split; [reflexivity | exact Hdb].
  - exfalso. exact (Hno Hq).
Qed.

(** The request that meets the stale connection is never answered. *)
Example stale_connection_no_reply :
  fst (HandleAuthPacket 7 (request_for "AA:BB:CC:DD:EE:FF")
         (set_cursor_script [Some "MySQL Connection not available.";
                             Some "MySQL Connection not available."] stale))
  = Raise unbound_cursor.
Proof. vm_compute. reflexivity. Qed.

(** ** Identity extraction *)

Ltac read_cases :=
  repeat match goal with
         | |- context [match ?x with inl _ => _ | inr _ => _ end] =>
             destruct x eqn:?
         end.

Lemma first_value_decoded pkt key :
  decoded pkt -> exists v, first_value pkt key = inr v.
Proof.
  intros Hd. unfold first_value. specialize (Hd key).
  destruct (attrs pkt !! key) as [[|v l]|]; cbn; eauto. congruence.
Qed.

Lemma read_request_decoded pkt : decoded pkt -> snd (read_request pkt) = None.
Proof.
  intros Hd. unfold read_request.
  destruct (first_value_decoded pkt "Calling-Station-Id" Hd) as [v1 H1].
  destruct (first_value_decoded pkt "User-Name" Hd) as [v2 H2].
  destruct (first_value_decoded pkt "NAS-IP-Address" Hd) as [v3 H3].
  destruct (first_value_decoded pkt "NAS-Port" Hd) as [v4 H4].
  destruct (first_value_decoded pkt "Called-Station-Id" Hd) as [v5 H5].
  rewrite H1, H2, H3, H4, H5.
  repeat match goal with
         | |- context [if ?b then _ else _] => destruct b
         end; reflexivity.
Qed.

Lemma read_request_mac pkt :
  forall mac,
    (if has pkt "Calling-Station-Id" then first_value pkt "Calling-Station-Id"
     else if has pkt "User-Name" then first_value pkt "User-Name"
     else inr None) = inr mac ->
    mac_address (fst (read_request pkt)) = mac.
Proof.
  intros mac H. unfold read_request. rewrite H. read_cases; reflexivity.
Qed.

Lemma has_Some pkt key l : attrs pkt !! key = Some l -> has pkt key = true.
Proof. intros H. unfold has. rewrite H. reflexivity. Qed.

Lemma has_None pkt key : attrs pkt !! key = None -> has pkt key = false.
Proof. intros H. unfold has. rewrite H. reflexivity. Qed.

(** A request that needs no lookup: the packet could not be read, or it
    names no identity, or the identity is no MAC address. When cursors can
    be opened it is rejected after one audit call, and no SELECT statement
    is executed. *)
Lemma reject_without_lookup thread_id pkt w :
  let l := fst (read_request pkt) in
  is_Some (snd (read_request pkt))
  \/ truthy (mac_address l) = false
  \/ (exists s, mac_address l = Some (VStr s) /\ normalize_mac (Some s) = None) ->
  quiet (cursor_script w) ->
  exists row w',
    HandleAuthPacket thread_id pkt w = (Return (Some (create_reject_packet pkt)), w')
    /\ lg_request_type row = "Access-Request"
    /\ lg_response_type row = "Access-Reject"
    /\ (snd (read_request pkt) = None -> truthy (mac_address l) = false ->
        lg_username row = VStr "unknown"
        /\ lg_reason row = "No MAC address found in request")
    /\ (snd (read_request pkt) = None -> truthy (mac_address l) = true ->
        lg_username row = or_empty (mac_address l)
        /\ lg_reason row = "No VLAN assignment found for MAC " ++ str_of (mac_address l))
    /\ ((db w' = db w
         /\ (executed w' = executed w
             \/ executed w' = (executed w ++ [InsertRadiusLog row])%list))
        \/ (db w' = append_log row (db w)
            /\ executed w' = (executed w ++ [InsertRadiusLog row])%list))
    /\ (healthy w -> db w' = append_log row (db w)
                     /\ executed w' = (executed w ++ [InsertRadiusLog row])%list).
Proof.
  intros l Hwhy Hq.
  assert (Hgoal : forall u rs reason,
    rs = "Access-Reject" ->
    (snd (read_request pkt) = None -> truthy (mac_address l) = false ->
     or_empty u = VStr "unknown" /\ reason = "No MAC address found in request") ->
    (snd (read_request pkt) = None -> truthy (mac_address l) = true ->
     or_empty u = or_empty (mac_address l)
     /\ reason = "No VLAN assignment found for MAC " ++ str_of (mac_address l)) ->
    (forall w1,
      bind (log_radius_request thread_id u
              (local_or_None (nas_ip l)) (local_or_None (nas_port l))
              (local_or_None (called_station_id l))
              (local_or_None (calling_station_id l))
              "Access-Request" rs reason)
           (fun _ => ret (create_reject_packet pkt)) w
      = (Return (create_reject_packet pkt), w1) ->
      try_except
        (match snd (read_request pkt) with
         | Some e => raise e
         | None => decide_request thread_id pkt l
         end)
        (fun _ => true) (on_error thread_id pkt l) w
      = (Return (create_reject_packet pkt), w1)) ->
    exists row w',
      HandleAuthPacket thread_id pkt w = (Return (Some (create_reject_packet pkt)), w')
      /\ lg_request_type row = "Access-Request"
      /\ lg_response_type row = "Access-Reject"
      /\ (snd (read_request pkt) = None -> truthy (mac_address l) = false ->
          lg_username row = VStr "unknown"
          /\ lg_reason row = "No MAC address found in request")
      /\ (snd (read_request pkt) = None -> truthy (mac_address l) = true ->
          lg_username row = or_empty (mac_address l)
          /\ lg_reason row = "No VLAN assignment found for MAC " ++ str_of (mac_address l))
      /\ ((db w' = db w
           /\ (executed w' = executed w
               \/ executed w' = (executed w ++ [InsertRadiusLog row])%list))
          \/ (db w' = append_log row (db w)
              /\ executed w' = (executed w ++ [InsertRadiusLog row])%list))
      /\ (healthy w -> db w' = append_log row (db w)
                       /\ executed w' = (executed w ++ [InsertRadiusLog row])%list)).
  { intros u rs reason -> Hno Hyes Heq.
    destruct (audited_reply thread_id u
                (local_or_None (nas_ip l)) (local_or_None (nas_port l))
                (local_or_None (called_station_id l))
                (local_or_None (calling_station_id l))
                "Access-Reject" reason (create_reject_packet pkt) w Hq)
      as (w1 & Hrun & _ & Hcases & Hh).
    specialize (Heq w1 Hrun).
    destruct (HandleAuthPacket_decided thread_id pkt w _ w1 Heq)
      as (w' & Hrun' & Hdb & Hex & _).
    exists (audit_row u
              (local_or_None (nas_ip l)) (local_or_None (nas_port l))
              (local_or_None (called_station_id l))
              (local_or_None (calling_station_id l))
              "Access-Request" "Access-Reject" reason), w'.
    rewrite Hdb, Hex.
    split; [exact Hrun'|]. split; [reflexivity|]. split; [reflexivity|].
    split; [exact Hno|]. split; [exact Hyes|]. split; [exact Hcases | exact Hh]. }
  unfold try_except in Hgoal.
  destruct (snd (read_request pkt)) as [e|] eqn:Hstop.
  { apply (Hgoal (mac_address l) "Access-Reject" ("Server error: " ++ exn_str e));
      [reflexivity | discriminate | discriminate |].
    intros w1 Hb. cbn [raise]. unfold on_error, mbind, M_bind. exact Hb. }
  destruct Hwhy as [[e He]|[Hfalse|(s & Hs & Hnorm)]]; [discriminate| |].
  - apply (Hgoal (Some (VStr "unknown")) "Access-Reject"
             "No MAC address found in request"); [reflexivity|auto| |].
    + intros _ Ht. congruence.
    + intros w1 Hb. unfold decide_request. rewrite Hfalse. cbn [negb].
      unfold mbind, M_bind. rewrite Hb. reflexivity.
  - destruct (truthy (mac_address l)) eqn:Ht.
    + apply (Hgoal (mac_address l) "Access-Reject"
               ("No VLAN assignment found for MAC " ++ str_of (mac_address l)));
        [reflexivity| discriminate | auto |].
      intros w1 Hb. unfold decide_request. rewrite Ht. cbn [negb].
      unfold mbind at 1, M_bind at 1, bind at 1.
      rewrite Hs in *. unfold call_get_vlan_for_mac, get_vlan_for_mac.
      rewrite Hnorm. cbn [ret]. unfold mbind, M_bind. rewrite Hb. reflexivity.
    + apply (Hgoal (Some (VStr "unknown")) "Access-Reject"
               "No MAC address found in request"); [reflexivity|auto|discriminate|].
      intros w1 Hb. unfold decide_request. rewrite Ht. cbn [negb].
      unfold mbind, M_bind. rewrite Hb. reflexivity.
Qed.

(** C5, as the code has it. The identity is the first value of
    Calling-Station-Id whenever that attribute is present, whatever
    User-Name holds; User-Name is read only when Calling-Station-Id is
    absent. With neither, the decision is one audit call whose reason says
    that no MAC address was found, followed by the Reject: no
    normalisation, no lookup, no SELECT statement. For a packet whose
    attributes all have a value, and provided a cursor can be opened on
    the store connection, the request then ends with that Reject; the
    audit row is written when the store answers. *)
Theorem identity_extraction pkt :
  (forall v rest,
      attrs pkt !! "Calling-Station-Id" = Some (v :: rest) ->
      mac_address (fst (read_request pkt)) = Some v)
  /\ (forall v rest,
      attrs pkt !! "Calling-Station-Id" = None ->
      attrs pkt !! "User-Name" = Some (v :: rest) ->
      mac_address (fst (read_request pkt)) = Some v)
  /\ (attrs pkt !! "Calling-Station-Id" = None ->
      attrs pkt !! "User-Name" = None ->
      let l := fst (read_request pkt) in
      mac_address l = None
      /\ (forall thread_id,
            decide_request thread_id pkt l =
            bind (log_radius_request thread_id (Some (VStr "unknown"))
                    (local_or_None (nas_ip l)) (local_or_None (nas_port l))
                    (local_or_None (called_station_id l))
                    (local_or_None (calling_station_id l))
                    "Access-Request" "Access-Reject"
                    "No MAC address found in request")
                 (fun _ => ret (create_reject_packet pkt)))
      /\ (forall thread_id w,
            decoded pkt -> quiet (cursor_script w) ->
            exists row w',
              HandleAuthPacket thread_id pkt w
              = (Return (Some (create_reject_packet pkt)), w')
              /\ lg_response_type row = "Access-Reject"
              /\ lg_reason row = "No MAC address found in request"
              /\ ((db w' = db w
                   /\ (executed w' = executed w
                       \/ executed w' = (executed w ++ [InsertRadiusLog row])%list))
                  \/ (db w' = append_log row (db w)
                      /\ executed w' = (executed w ++ [InsertRadiusLog row])%list))
              /\ (healthy w ->
                  db w' = append_log row (db w)
                  /\ executed w' = (executed w ++ [InsertRadiusLog row])%list))).
Proof.
  split; [|split].
  - intros v rest H. apply read_request_mac.
    rewrite (has_Some _ _ _ H). unfold first_value. rewrite H. reflexivity.
  - intros v rest Hc Hu. apply read_request_mac.
    rewrite (has_None _ _ Hc), (has_Some _ _ _ Hu).
    unfold first_value. rewrite Hu. reflexivity.
  - intros Hc Hu l.
    assert (Hmac : mac_address l = None).
    { apply read_request_mac. rewrite (has_None _ _ Hc), (has_None _ _ Hu).
      reflexivity. }
    split; [exact Hmac|]. split.
    + intros thread_id. unfold decide_request. rewrite Hmac. reflexivity.
    + intros thread_id w Hd Hq.
      pose proof (read_request_decoded pkt Hd) as Hstop.
      destruct (reject_without_lookup thread_id pkt w) as
        (row & w' & Hrun & _ & Hrs & Hno & _ & Hcases & Hh); [|exact Hq|].
      { right. left. fold l. rewrite Hmac. reflexivity. }
      fold l in Hno. rewrite Hmac in Hno.
      destruct (Hno Hstop eq_refl) as [_ Hreason].
      exists row, w'. auto.
Qed.

Lemma anonymous_request_decoded : decoded anonymous_request.
Proof.
  intros key. unfold anonymous_request; cbn [attrs].
  destruct (decide (key = "NAS-Port")) as [->|Hne].
  - rewrite lookup_singleton_eq. discriminate.
  - rewrite lookup_singleton_ne by congruence. discriminate.
Qed.

Lemma identity_extraction_witness :
  mac_address (fst (read_request (request_for "AA:BB:CC:DD:EE:FF")))
  = Some (VStr "AA:BB:CC:DD:EE:FF")
  /\ exists row w',
      HandleAuthPacket 7 anonymous_request (up example_db)
      = (Return (Some (create_reject_packet anonymous_request)), w')
      /\ lg_reason row = "No MAC address found in request"
      /\ db w' = append_log row example_db
      /\ executed w' = [InsertRadiusLog row].
Proof.
  destruct (identity_extraction (request_for "AA:BB:CC:DD:EE:FF")) as (Hcsi & _ & _).
  destruct (identity_extraction anonymous_request) as (_ & _ & Hnone).
  split.
  - apply (Hcsi (VStr "AA:BB:CC:DD:EE:FF") []). vm_compute. reflexivity.
  - destruct (Hnone eq_refl eq_refl) as (_ & _ & Hrun).
    destruct (Hrun 7%nat (up example_db) anonymous_request_decoded quiet_nil)
      as (row & w' & Hr & _ & Hreason & _ & Hh).
    destruct (Hh (up_healthy _)) as [Hdb Hex].
    exists row, w'. auto.
Defined.

(** C5, as stated, fails when the store is down: the request without
    identity ends with a Reject, and no audit record states that the
    identity was missing, for none is written. *)
Lemma no_identity_outage_no_audit_record :
  let run := HandleAuthPacket 7 anonymous_request outage in
  attrs anonymous_request !! "Calling-Station-Id" = None
  /\ attrs anonymous_request !! "User-Name" = None
  /\ fst run = Return (Some (create_reject_packet anonymous_request))
  /\ radius_logs (db (snd run)) = [].
Proof. vm_compute. repeat split; reflexivity. Qed.

Example user_name_fallback :
  mac_address (fst (read_request
    {| attrs := {[ "User-Name" := [VStr "aabbccddeeff"] ]};
       source := ("192.0.2.10", 51000) |}))
  = Some (VStr "aabbccddeeff").
Proof. vm_compute. reflexivity. Qed.

(** What one audit call followed by [reply = ...] executes, in any world:
    nothing, or the INSERT of its row; nothing when it raises. *)
Lemma audited_executed thread_id u ip port called calling rs reason (reply : Reply) w :
  let row := audit_row u ip port called calling "Access-Request" rs reason in
  let run := bind (log_radius_request thread_id u ip port called calling
                     "Access-Request" rs reason) (fun _ => ret reply) w in
  (executed (snd run) = executed w
   \/ executed (snd run) = (executed w ++ [InsertRadiusLog row])%list)
  /\ (forall e, fst run = Raise e -> executed (snd run) = executed w).
Proof.
  intros row run. subst run.
  destruct (log_radius_request_run thread_id u ip port called calling
              "Access-Request" rs reason w)
    as (r & w' & Hrun & _ & Hcases).
  unfold bind. rewrite Hrun.
  destruct Hcases as [(-> & _ & Hex) | [(-> & _ & _ & Hex) | (-> & _ & Hex & _)]];
    cbn [fst snd ret].
  - split; [right; exact Hex | intros e [=]].
  - split; [exact Hex | intros e [=]].
  - split; [left; exact Hex | intros _ _; exact Hex].
Qed.

(** A request that needs no lookup executes no SELECT statement, in any
    world: at most the INSERT of one audit row reaches the store. *)
Lemma no_lookup_executed thread_id pkt w :
  let l := fst (read_request pkt) in
  is_Some (snd (read_request pkt))
  \/ truthy (mac_address l) = false
  \/ (exists s, mac_address l = Some (VStr s) /\ normalize_mac (Some s) = None) ->
  exists ins,
    executed (snd (HandleAuthPacket thread_id pkt w)) = (executed w ++ ins)%list
    /\ Forall (fun st => is_select st = false) ins
    /\ (List.length ins <= 1)%nat.
Proof.
  intros l Hwhy.
  assert (Hins : forall w0 w1 row,
            executed w1 = executed w0
            \/ executed w1 = (executed w0 ++ [InsertRadiusLog row])%list ->
            exists ins, executed w1 = (executed w0 ++ ins)%list
                        /\ Forall (fun st => is_select st = false) ins
                        /\ (List.length ins <= 1)%nat).
  { intros w0 w1 row [H|H].
    - exists []. rewrite app_nil_r. split; [exact H|]. split; [constructor | cbn; lia].
    - exists [InsertRadiusLog row]. split; [exact H|].
      split; [repeat constructor | cbn; lia]. }
  assert (Herr : forall e w0,
            executed w0 = executed w ->
            exists ins,
              executed (snd (on_error thread_id pkt l e w0)) = (executed w ++ ins)%list
              /\ Forall (fun st => is_select st = false) ins
              /\ (List.length ins <= 1)%nat).
  { intros e w0 Hw0. unfold on_error, mbind, M_bind. rewrite <- Hw0.
    eapply Hins.
    apply (audited_executed thread_id (mac_address l)
             (local_or_None (nas_ip l)) (local_or_None (nas_port l))
             (local_or_None (called_station_id l))
             (local_or_None (calling_station_id l))
             "Access-Reject" ("Server error: " ++ exn_str e)
             (create_reject_packet pkt) w0). }
  assert (Hlog : forall u rs reason reply,
            exists ins,
              executed (snd (let (o, w') :=
                               bind (log_radius_request thread_id u
                                       (local_or_None (nas_ip l)) (local_or_None (nas_port l))
                                       (local_or_None (called_station_id l))
                                       (local_or_None (calling_station_id l))
                                       "Access-Request" rs reason)
                                    (fun _ => ret reply) w in
                             match o with
                             | Return a => (Return a, w')
                             | Raise e => on_error thread_id pkt l e w'
                             end))
              = (executed w ++ ins)%list
              /\ Forall (fun st => is_select st = false) ins
              /\ (List.length ins <= 1)%nat).
  { intros u rs reason reply.
    pose proof (audited_executed thread_id u
                  (local_or_None (nas_ip l)) (local_or_None (nas_port l))
                  (local_or_None (called_station_id l))
                  (local_or_None (calling_station_id l))
                  rs reason reply w) as [Hex Hraise].
    cbv zeta in Hex, Hraise.
    destruct (bind _ _ w) as [[a|e] w1]; cbn [fst snd] in *.
    - eapply Hins. exact Hex.
    - apply Herr. apply (Hraise e eq_refl). }
  assert (Hdec : exists ins,
            executed (snd (try_except
                             (match snd (read_request pkt) with
                              | Some e => raise e
                              | None => decide_request thread_id pkt l
                              end)
                             (fun _ => true) (on_error thread_id pkt l) w))
            = (executed w ++ ins)%list
            /\ Forall (fun st => is_select st = false) ins
            /\ (List.length ins <= 1)%nat).
  { unfold try_except.
    destruct (snd (read_request pkt)) as [e|] eqn:Hstop.
    { cbn [raise]. apply Herr. reflexivity. }
    unfold decide_request, mbind, M_bind.
    destruct Hwhy as [[e He]|[Hfalse|(s & Hs & Hnorm)]]; [discriminate| |].
    - rewrite Hfalse. cbn [negb]. apply Hlog.
    - destruct (truthy (mac_address l)) eqn:Ht; cbn [negb]; [|apply Hlog].
      unfold bind at 1. rewrite Hs. unfold call_get_vlan_for_mac, get_vlan_for_mac.
      rewrite Hnorm. cbn [ret]. apply Hlog. }
  destruct Hdec as (ins & Hex & Hall & Hlen).
  destruct (try_except _ _ _ w) as [[reply|e] w1] eqn:Hrun; cbn [snd] in Hex.
  - destruct (HandleAuthPacket_decided thread_id pkt w reply w1 Hrun)
      as (w' & Hrun' & _ & Hex' & _).
    rewrite Hrun'. cbn [snd]. rewrite Hex'. eauto.
  - rewrite (HandleAuthPacket_raised thread_id pkt w e w1 Hrun). cbn [snd]. eauto.
Qed.

(** C7, as the code has it. An identity that is no MAC address costs no
    lookup, in any world: the resolver answers at once and leaves the world as it was, not even
    asking for a connection, and the whole request executes no SELECT
    statement, at most the INSERT of one audit row. When a cursor can be
    opened the request ends with a Reject after one audit call; the audit
    row is written when the store answers. *)
Theorem malformed_identity_no_store_lookup thread_id pkt s w :
  mac_address (fst (read_request pkt)) = Some (VStr s) ->
  normalize_mac (Some s) = None ->
  get_vlan_for_mac thread_id (Some s) w = (Return (None, None), w)
  /\ (exists ins,
        executed (snd (HandleAuthPacket thread_id pkt w)) = (executed w ++ ins)%list
        /\ Forall (fun st => is_select st = false) ins
        /\ (List.length ins <= 1)%nat)
  /\ (quiet (cursor_script w) ->
      exists row w',
        HandleAuthPacket thread_id pkt w
        = (Return (Some (create_reject_packet pkt)), w')
        /\ lg_response_type row = "Access-Reject"
        /\ ((db w' = db w
             /\ (executed w' = executed w
                 \/ executed w' = (executed w ++ [InsertRadiusLog row])%list))
            \/ (db w' = append_log row (db w)
                /\ executed w' = (executed w ++ [InsertRadiusLog row])%list))
        /\ (healthy w ->
            db w' = append_log row (db w)
            /\ executed w' = (executed w ++ [InsertRadiusLog row])%list)).
Proof.
  intros Hmac Hnorm. split; [|split].
  - unfold get_vlan_for_mac. rewrite Hnorm. reflexivity.
  - apply no_lookup_executed. right. right. exists s. auto.
  - intros Hq.
    destruct (reject_without_lookup thread_id pkt w) as
      (row & w' & Hrun & _ & Hrs & _ & _ & Hcases & Hh); [|exact Hq|].
    { right. right. exists s. auto. }
    exists row, w'. auto.
Qed.

Lemma malformed_identity_no_store_lookup_witness :
  normalize_mac (Some "invalid-mac") = None
  /\ exists row w',
      HandleAuthPacket 7 (request_for "invalid-mac") (up example_db)
      = (Return (Some (create_reject_packet (request_for "invalid-mac"))), w')
      /\ lg_response_type row = "Access-Reject"
      /\ executed w' = [InsertRadiusLog row].
Proof.
  split; [vm_compute; reflexivity|].
  destruct (malformed_identity_no_store_lookup 7 (request_for "invalid-mac")
              "invalid-mac" (up example_db)) as (_ & _ & Hrun).
  - vm_compute. reflexivity.
  - vm_compute. reflexivity.
  - destruct (Hrun quiet_nil) as (row & w' & Hr & Hrs & _ & Hh).
    destruct (Hh (up_healthy _)) as [_ Hex]. exists row, w'. auto.
Defined.

(** C7, as stated, fails when the store is down: the request of a
    malformed identity ends with a Reject and no audit record. *)
Lemma malformed_identity_outage_no_audit_record :
  let run := HandleAuthPacket 7 (request_for "invalid-mac") outage in
  normalize_mac (Some "invalid-mac") = None
  /\ fst run = Return (Some (create_reject_packet (request_for "invalid-mac")))
  /\ radius_logs (db (snd run)) = []
  /\ executed (snd run) = [].
Proof. vm_compute. repeat split; reflexivity. Qed.

Example scenario_invalid_mac :
  let run := HandleAuthPacket 7 (request_for "invalid-mac") (up example_db) in
  executed (snd run)
  = InsertRadiusLog <$> radius_logs (db (snd run))
  /\ lg_reason <$> radius_logs (db (snd run))
     = ["No VLAN assignment found for MAC invalid-mac"].
Proof. vm_compute. split; reflexivity. Qed.

(** ** Store failures during resolution *)

(** C2, as stated, fails: a store that cannot be reached and a store
    without a rule for the station give the same answer to the caller, and
    the two requests leave the same audit row. *)
Lemma store_outage_indistinguishable_from_no_match :
  let mac := "99:88:77:66:55:44" in
  fst (get_vlan_for_mac 7 (Some mac) flaky) = Return (None, None)
  /\ fst (get_vlan_for_mac 7 (Some mac) (up no_default_db)) = Return (None, None)
  /\ radius_logs (db (snd (HandleAuthPacket 7 (request_for mac) flaky)))
     = radius_logs (db (snd (HandleAuthPacket 7 (request_for mac) (up no_default_db))))
  /\ lg_reason <$> radius_logs (db (snd (HandleAuthPacket 7 (request_for mac) flaky)))
     = ["No VLAN assignment found for MAC 99:88:77:66:55:44"].
Proof. vm_compute. repeat split; reflexivity. Qed.

(** C2, as the code has it. Provided a cursor can be opened on the store
    connection: when connecting fails or a statement fails while a valid
    MAC is resolved, the resolver returns [(None, None)], the value it
    returns when no rule matches; and whenever it returns that value for
    a request whose attributes were read without error, the request is
    rejected and the audit row, if the store takes it, gives the reason
    [No VLAN assignment found for MAC] followed by the identity. *)
Theorem store_failure_reported_as_no_match thread_id pkt s normalized_mac w :
  snd (read_request pkt) = None ->
  mac_address (fst (read_request pkt)) = Some (VStr s) ->
  normalize_mac (Some s) = Some normalized_mac ->
  quiet (cursor_script w) ->
  let l := fst (read_request pkt) in
  let res := get_vlan_for_mac thread_id (Some s) w in
  let row := audit_row (Some (VStr s))
               (local_or_None (nas_ip l)) (local_or_None (nas_port l))
               (local_or_None (called_station_id l))
               (local_or_None (calling_station_id l))
               "Access-Request" "Access-Reject"
               ("No VLAN assignment found for MAC " ++ s) in
  (failed_in (connect_script w) (connect_script (snd res))
   \/ failed_in (execute_script w) (execute_script (snd res)) ->
   fst res = Return (None, None))
  /\ (fst res = Return (None, None) ->
      exists w',
        HandleAuthPacket thread_id pkt w
        = (Return (Some (create_reject_packet pkt)), w')
        /\ (radius_logs (db w') = radius_logs (db w)
            \/ radius_logs (db w') = (radius_logs (db w) ++ [row])%list)).
Proof.
  intros Hstop Hmac Hnorm Hq l res row. split.
  - apply (get_vlan_for_mac_store_failure thread_id (Some s) normalized_mac w Hnorm Hq).
  - intros Hres. subst res.
    destruct (get_vlan_for_mac_run thread_id (Some s) w) as (r & w1 & Hrun1 & Hf1 & Hdb1).
    rewrite Hrun1 in Hres. cbn [fst] in Hres. subst r.
    assert (Hs : truthy (Some (VStr s)) = true).
    { destruct s; [discriminate Hnorm | reflexivity]. }
    destruct (audited_reply thread_id (Some (VStr s))
                (local_or_None (nas_ip l)) (local_or_None (nas_port l))
                (local_or_None (called_station_id l))
                (local_or_None (calling_station_id l))
                "Access-Reject" ("No VLAN assignment found for MAC " ++ s)
                (create_reject_packet pkt) w1 (frame_quiet_cursor _ _ Hf1 Hq))
      as (w2 & Hrun2 & _ & Hcases & _).
    destruct (HandleAuthPacket_decided thread_id pkt w (create_reject_packet pkt) w2)
      as (w' & Hrun & Hdb & _).
    { rewrite Hstop. fold l. fold l in Hmac. unfold try_except, decide_request.
      rewrite Hmac, Hs. cbn [negb].
      unfold mbind at 1, M_bind at 1, bind at 1. unfold call_get_vlan_for_mac.
      rewrite Hrun1. unfold mbind, M_bind. cbn [str_of].
      rewrite Hrun2. reflexivity. }
    exists w'. split; [exact Hrun|]. rewrite Hdb, <- Hdb1.
    destruct Hcases as [[-> _]|[-> _]]; [left|right]; reflexivity.
Qed.

Lemma store_failure_reported_as_no_match_witness :
  fst (get_vlan_for_mac 7 (Some "99:88:77:66:55:44") flaky) = Return (None, None)
  /\ exists w',
      HandleAuthPacket 7 (request_for "99:88:77:66:55:44") flaky
      = (Return (Some (create_reject_packet (request_for "99:88:77:66:55:44"))), w')
      /\ (radius_logs (db w') = []
          \/ lg_reason <$> radius_logs (db w')
             = ["No VLAN assignment found for MAC 99:88:77:66:55:44"]).
Proof.
  destruct (store_failure_reported_as_no_match 7 (request_for "99:88:77:66:55:44")
              "99:88:77:66:55:44" "99:88:77:66:55:44" flaky)
    as [Hfail Hreason].
  - vm_compute. reflexivity.
  - vm_compute. reflexivity.
  - vm_compute. reflexivity.
  - exact quiet_nil.
  - assert (H : fst (get_vlan_for_mac 7 (Some "99:88:77:66:55:44") flaky)
                = Return (None, None)).
    { apply Hfail. left.
      exists [Some "Can't connect to MySQL server"], "Can't connect to MySQL server".
      split; [vm_compute; reflexivity | left; reflexivity]. }
    split; [exact H|].
    destruct (Hreason H) as (w' & Hrun & Hlog).
    exists w'. split; [exact Hrun|].
    destruct Hlog as [Hlog|Hlog]; rewrite Hlog;
      [left; reflexivity | right; vm_compute; reflexivity].
Defined.

(** * Further properties *)

(** ** More on normalize_mac *)

Lemma normalize_mac_unfold s :
  normalize_mac (Some s) =
  if negb (String.length (clean_mac_of s) =? 12)%nat then None
  else match Py.int 16 (clean_mac_of s) with
       | None => None
       | Some _ => Some (canonical (clean_mac_of s))
       end.
Proof. destruct s; reflexivity. Qed.

Lemma list_ascii_of_string_app a b :
  list_ascii_of_string (a ++ b) = (list_ascii_of_string a ++ list_ascii_of_string b)%list.
Proof. induction a as [|c a IH]; simpl; [reflexivity | f_equal; exact IH]. Qed.

Lemma clean_chars_app l1 l2 :
  clean_chars (l1 ++ l2)%list = (clean_chars l1 ++ clean_chars l2)%list.
Proof. unfold clean_chars. rewrite filter_app, fmap_app. reflexivity. Qed.

Lemma clean_chars_separators l :
  Forall (fun c => Py.isalnum c = false) l -> clean_chars l = [].
Proof.
  induction 1 as [|c l Hc _ IH]; [reflexivity|].
  rewrite clean_chars_cons, Hc. exact IH.
Qed.

(** Characters that are not alphanumeric count for nothing, wherever they
    stand in the text: colons, dashes, dots, spaces, or any mix of them. *)
Theorem normalize_mac_ignores_separators a sep b :
  Forall (fun c => Py.isalnum c = false) (list_ascii_of_string sep) ->
  normalize_mac (Some (a ++ sep ++ b)) = normalize_mac (Some (a ++ b)).
Proof.
  intros Hsep. rewrite !normalize_mac_unfold.
  assert (Hclean : clean_mac_of (a ++ sep ++ b) = clean_mac_of (a ++ b)).
  { rewrite !clean_mac_of_chars, !list_ascii_of_string_app, !clean_chars_app.
    rewrite (clean_chars_separators _ Hsep). reflexivity. }
  rewrite Hclean. reflexivity.
Qed.

Lemma normalize_mac_ignores_separators_witness :
  normalize_mac (Some ("aabb" ++ ". -" ++ "ccddeeff"))
  = normalize_mac (Some ("aabb" ++ "ccddeeff")).
Proof.
  apply (normalize_mac_ignores_separators "aabb" ". -" "ccddeeff").
  repeat constructor.
Defined.

(** Two accepted texts give the same MAC address exactly when they hold
    the same alphanumeric characters up to case. *)
Theorem normalize_mac_same_output_iff s t y y' :
  normalize_mac (Some s) = Some y ->
  normalize_mac (Some t) = Some y' ->
  y = y' <-> clean_mac_of s = clean_mac_of t.
Proof.
  intros Hs Ht.
  apply normalize_mac_Some in Hs as (s' & [= <-] & _ & Hls & _ & ->).
  apply normalize_mac_Some in Ht as (t' & [= <-] & _ & Hlt & _ & ->).
  split; [|intros ->; reflexivity].
  intros Heq.
  rewrite clean_mac_of_chars, string_length_list,
    list_ascii_of_string_of_list_ascii in Hls, Hlt.
  destruct (clean_canonical _ Hls (clean_chars_fixed _)) as [Hcs _].
  destruct (clean_canonical _ Hlt (clean_chars_fixed _)) as [Hct _].
  rewrite <- !clean_mac_of_chars in Hcs, Hct.
  rewrite <- Hcs, <- Hct, Heq. reflexivity.
Qed.

Lemma normalize_mac_same_output_iff_witness :
  clean_mac_of "AA-BB-CC-DD-EE-FF" = clean_mac_of "aabb.ccdd.eeff".
Proof.
  apply (normalize_mac_same_output_iff "AA-BB-CC-DD-EE-FF" "aabb.ccdd.eeff"
           "aa:bb:cc:dd:ee:ff" "aa:bb:cc:dd:ee:ff");
    vm_compute; reflexivity.
Defined.

Lemma alnum_not_colon c : Py.isalnum c = true -> Ascii.eqb c ":" = false.
Proof. destruct c as [[] [] [] [] [] [] [] []]; vm_compute; congruence. Qed.

(** The text returned for an accepted address, character by character. *)
Lemma normalize_mac_form mac y :
  normalize_mac mac = Some y ->
  exists c0 c1 c2 c3 c4 c5 c6 c7 c8 c9 c10 c11,
    Forall (fun c => Py.isalnum c = true /\ Py.lower c = c)
           [c0; c1; c2; c3; c4; c5; c6; c7; c8; c9; c10; c11]
    /\ y = string_of_list_ascii
             [c0; c1; ":"%char; c2; c3; ":"%char; c4; c5; ":"%char;
              c6; c7; ":"%char; c8; c9; ":"%char; c10; c11]
    /\ Py.split ":" y
       = string_of_list_ascii <$>
           [[c0; c1]; [c2; c3]; [c4; c5]; [c6; c7]; [c8; c9]; [c10; c11]].
Proof.
  intros H. apply normalize_mac_Some in H as (s & -> & _ & Hlen & _ & ->).
  rewrite clean_mac_of_chars in *.
  pose proof (clean_chars_fixed (list_ascii_of_string s)) as Hall.
  rewrite string_length_list, list_ascii_of_string_of_list_ascii in Hlen.
  destruct (clean_chars (list_ascii_of_string s)) as [|c0 cs]; [discriminate|].
  do 11 (destruct cs as [|? cs]; [discriminate|]).
  destruct cs; [|discriminate].
  eexists _, _, _, _, _, _, _, _, _, _, _, _.
  split; [exact Hall|]. split; [reflexivity|].
  repeat match goal with
         | H : Forall _ (_ :: _) |- _ => apply Forall_cons in H; destruct H as [[? _] H]
         end.
  repeat match goal with
         | H : Py.isalnum _ = true |- _ => apply alnum_not_colon in H
         end.
  cbv [canonical Py.range Py.slice Py.join fmap list_fmap seq
       string_of_list_ascii list_ascii_of_string take drop
       Nat.add Nat.sub Nat.mul Nat.div Nat.divmod fst String.append
       Py.split].
  repeat (cbn [Py.split_go];
          match goal with
          | H : Ascii.eqb ?c ":" = false |- context [Ascii.eqb ?c ":"] => rewrite H
          | |- context [Ascii.eqb ":" ":"] => change (Ascii.eqb ":" ":") with true; cbv iota
          end).
  cbn. reflexivity.
Qed.

(** An accepted address comes back as 17 characters: six groups of two
    lower-case alphanumeric characters with a colon between them, so that
    splitting at the colons and joining again is the identity. *)
Theorem normalize_mac_shape mac y :
  normalize_mac mac = Some y ->
  String.length y = 17%nat
  /\ List.length (Py.split ":" y) = 6%nat
  /\ Forall (fun g => String.length g = 2%nat
                      /\ Forall (fun c => Py.isalnum c = true /\ Py.lower c = c)
                                (list_ascii_of_string g))
            (Py.split ":" y)
  /\ Py.join ":" (Py.split ":" y) = y.
Proof.
  intros H.
  destruct (normalize_mac_form mac y H)
    as (c0 & c1 & c2 & c3 & c4 & c5 & c6 & c7 & c8 & c9 & c10 & c11
        & Hall & -> & Hsplit).
  rewrite Hsplit.
  repeat match goal with
         | H : Forall _ (_ :: _) |- _ => apply Forall_cons in H; destruct H as [? H]
         end.
  split; [reflexivity|]. split; [reflexivity|]. split; [|reflexivity].
  cbn. repeat constructor; tauto.
Qed.

Lemma normalize_mac_shape_witness :
  String.length "aa:bb:cc:dd:ee:ff" = 17%nat
  /\ List.length (Py.split ":" "aa:bb:cc:dd:ee:ff") = 6%nat
  /\ Forall (fun g => String.length g = 2%nat
                      /\ Forall (fun c => Py.isalnum c = true /\ Py.lower c = c)
                                (list_ascii_of_string g))
            (Py.split ":" "aa:bb:cc:dd:ee:ff")
  /\ Py.join ":" (Py.split ":" "aa:bb:cc:dd:ee:ff") = "aa:bb:cc:dd:ee:ff".
Proof.
  apply (normalize_mac_shape (Some "AABB.CCDD.EEFF") "aa:bb:cc:dd:ee:ff").
  vm_compute. reflexivity.
Defined.

(** A canonical address is accepted as it is. *)
Lemma normalize_mac_fixed mac y :
  normalize_mac mac = Some y -> normalize_mac (Some y) = Some y.
Proof.
  intros H.
  destruct (normalize_mac_Some _ _ H) as (s & -> & Hs & Hlen & Hint & ->).
  rewrite clean_mac_of_chars in *.
  set (cs := clean_chars (list_ascii_of_string s)) in *.
  assert (Hcs : List.length cs = 12%nat).
  { rewrite string_length_list, list_ascii_of_string_of_list_ascii in Hlen.
    exact Hlen. }
  destruct (clean_canonical cs Hcs (clean_chars_fixed _)) as [Hclean Hne].
  rewrite (normalize_mac_of_clean _ Hne); rewrite Hclean.
  - reflexivity.
  - rewrite string_length_list, list_ascii_of_string_of_list_ascii. exact Hcs.
  - exact Hint.
Qed.

(** ** More on get_connection *)

(** A thread connects at most once: after a call that returned a
    connection, every later call of the thread returns that connection and
    changes nothing, whatever the server does in between; the entries of
    the other threads are never touched. *)
Theorem get_connection_once thread_id w conn w' :
  get_connection thread_id w = (Return (Some conn), w') ->
  connection_pool w' !! thread_id = Some conn
  /\ get_connection thread_id w' = (Return (Some conn), w')
  /\ (forall script, get_connection thread_id (set_connect_script script w')
                     = (Return (Some conn), set_connect_script script w'))
  /\ (forall t, t <> thread_id ->
                connection_pool w' !! t = connection_pool w !! t)
  /\ db w' = db w.
Proof.
  unfold get_connection. intros H.
  destruct (connection_pool w !! thread_id) as [c|] eqn:Hpool.
  - injection H as <- <-. rewrite Hpool.
    split; [reflexivity|]. split; [reflexivity|].
    split; [|split; [reflexivity | reflexivity]].
    intros script. cbn. rewrite Hpool. reflexivity.
  - destruct (next_outcome (connect_script w)) as [[msg|] rest]; [discriminate|].
    injection H as <- <-. cbn.
    rewrite lookup_insert_eq.
    split; [reflexivity|]. split; [reflexivity|].
    split; [intros script; reflexivity|].
    split; [|reflexivity].
    intros t Ht. rewrite lookup_insert_ne by congruence. reflexivity.
Qed.

Lemma get_connection_once_witness :
  connection_pool (snd (get_connection 7 (up example_db))) !! 7%nat = Some (Conn 7)
  /\ get_connection 7 (snd (get_connection 7 (up example_db)))
     = (Return (Some (Conn 7)), snd (get_connection 7 (up example_db))).
Proof.
  destruct (get_connection_once 7 (up example_db) (Conn 7)
              (snd (get_connection 7 (up example_db))))
    as (Hpool & Hagain & _).
  - vm_compute. reflexivity.
  - split; [exact Hpool | exact Hagain].
Defined.

(** A failure to connect is no exception: the call returns [None], the
    pool is as it was, and the thread connects again on its next call,
    with success as soon as the server answers. *)
Theorem get_connection_failure thread_id w :
  connection_pool w !! thread_id = None ->
  forall msg rest, connect_script w = Some msg :: rest ->
  exists w',
    get_connection thread_id w = (Return None, w')
    /\ connection_pool w' = connection_pool w
    /\ db w' = db w /\ executed w' = executed w
    /\ connect_script w' = rest
    /\ (quiet rest ->
        fst (get_connection thread_id w') = Return (Some (Conn thread_id))).
Proof.
  intros Hpool msg rest Hscript. unfold get_connection.
  rewrite Hpool, Hscript. cbn. eexists. split; [reflexivity|].
  cbn. rewrite Hpool. repeat split.
  intros Hq. rewrite (next_outcome_quiet rest Hq). reflexivity.
Qed.

Lemma get_connection_failure_witness :
  exists w',
    get_connection 7 flaky = (Return None, w')
    /\ fst (get_connection 7 w') = Return (Some (Conn 7)).
Proof.
  destruct (get_connection_failure 7 flaky eq_refl
              "Can't connect to MySQL server" [] eq_refl)
    as (w' & Hrun & _ & _ & _ & _ & Hnext).
  exists w'. split; [exact Hrun | apply Hnext; exact quiet_nil].
Defined.

(** ** More on get_vlan_for_mac *)

Ltac selects_only :=
  first
    [ exists []; split; [rewrite app_nil_r; reflexivity|];
      split; [constructor | cbn; lia]
    | eexists [_]; split; [reflexivity|];
      split; [repeat constructor | cbn; lia]
    | eexists [_; _]; split; [rewrite <- !app_assoc; reflexivity|];
      split; [repeat constructor | cbn; lia]
    | eexists [_; _; _]; split; [rewrite <- !app_assoc; reflexivity|];
      split; [repeat constructor | cbn; lia] ].

(** The resolver only reads. In every world and however the call ends,
    the tables are as they were, nothing is sent, the pool of the other
    threads is untouched, and the statements executed are at most three
    SELECT statements. *)
Theorem get_vlan_for_mac_read_only thread_id mac w :
  let w' := snd (get_vlan_for_mac thread_id mac w) in
  db w' = db w
  /\ sent w' = sent w
  /\ (forall t, t <> thread_id -> connection_pool w' !! t = connection_pool w !! t)
  /\ exists sel,
      executed w' = (executed w ++ sel)%list
      /\ Forall (fun st => is_select st = true) sel
      /\ (List.length sel <= 3)%nat.
Proof.
  destruct w as [d pool cs us es ss ex fds snt].
  unfold get_vlan_for_mac. unfold_run.
  repeat run_step; cbn.
  all: split; [reflexivity|]; split; [reflexivity|].
  all: split;
    [ intros t Ht; try reflexivity; rewrite lookup_insert_ne by congruence; reflexivity |].
  all: selects_only.
Qed.

(** What the resolver can hand to its caller: [(None, None)], or a VLAN
    with one of the three match kinds; and the only exceptions that leave
    it are the [ValueError] of a value that is no number and the
    [UnboundLocalError] of its [finally] clause. A MySQL error never
    escapes. *)
Theorem get_vlan_for_mac_outcomes thread_id mac w :
  match fst (get_vlan_for_mac thread_id mac w) with
  | Return (None, match_type) => match_type = None
  | Return (Some _, match_type) =>
      match_type = Some "exact" \/ match_type = Some "prefix"
      \/ match_type = Some "default"
  | Raise e => (exists msg, e = ValueError msg) \/ e = unbound_cursor
  end.
Proof.
  destruct w as [d pool cs us es ss ex fds snt].
  unfold get_vlan_for_mac. unfold_run.
  repeat run_step; cbn; eauto.
Qed.

(** Resolving again gives the same answer: with a store that answers, a
    second lookup of the same address, run after the first, returns what
    the first returned. *)
Theorem get_vlan_for_mac_repeatable thread_id mac w :
  healthy w ->
  fst (get_vlan_for_mac thread_id mac (snd (get_vlan_for_mac thread_id mac w)))
  = fst (get_vlan_for_mac thread_id mac w).
Proof.
  intros Hw.
  destruct (get_vlan_for_mac_run thread_id mac w) as (r & w1 & Hrun & Hf & Hdb).
  rewrite Hrun. cbn [fst snd].
  destruct (normalize_mac mac) as [nm|] eqn:Hn.
  - destruct (get_vlan_for_mac_healthy thread_id mac nm w Hw Hn) as (w' & H1 & _).
    destruct (get_vlan_for_mac_healthy thread_id mac nm w1
                (frame_healthy _ _ Hf Hw) Hn) as (w'' & H2 & _).
    rewrite H2. rewrite Hrun in H1. injection H1 as -> _.
    rewrite Hdb. reflexivity.
  - unfold get_vlan_for_mac in *. rewrite Hn in *. cbn in *.
    injection Hrun as <- _. reflexivity.
Qed.

Lemma get_vlan_for_mac_repeatable_witness :
  fst (get_vlan_for_mac 7 (Some "aa-bb-cc-11-22-33")
         (snd (get_vlan_for_mac 7 (Some "aa-bb-cc-11-22-33") (up example_db))))
  = fst (get_vlan_for_mac 7 (Some "aa-bb-cc-11-22-33") (up example_db)).
Proof.
  apply (get_vlan_for_mac_repeatable 7 (Some "aa-bb-cc-11-22-33") (up example_db)).
  apply up_healthy.
Defined.

(** The resolver sees an address through its canonical form only: the
    text received and the canonical text give the same run, in every
    world. *)
Theorem get_vlan_for_mac_canonical thread_id mac y w :
  normalize_mac mac = Some y ->
  get_vlan_for_mac thread_id mac w = get_vlan_for_mac thread_id (Some y) w.
Proof.
  intros H. unfold get_vlan_for_mac.
  rewrite (normalize_mac_fixed mac y H), H. reflexivity.
Qed.

Lemma get_vlan_for_mac_canonical_witness :
  get_vlan_for_mac 7 (Some "AABB.CCDD.EEFF") (up example_db)
  = get_vlan_for_mac 7 (Some "aa:bb:cc:dd:ee:ff") (up example_db).
Proof.
  apply (get_vlan_for_mac_canonical 7 (Some "AABB.CCDD.EEFF")).
  vm_compute. reflexivity.
Defined.

(** When the connection is there and the cursor cannot be opened, the
    lookup of a valid address raises [UnboundLocalError] from its
    [finally] clause, before any statement is executed. *)
Theorem get_vlan_for_mac_cursor_failure thread_id mac normalized_mac w msg rest :
  normalize_mac mac = Some normalized_mac ->
  is_Some (connection_pool w !! thread_id) \/ quiet (connect_script w) ->
  cursor_script w = Some msg :: rest ->
  let run := get_vlan_for_mac thread_id mac w in
  fst run = Raise unbound_cursor
  /\ executed (snd run) = executed w
  /\ db (snd run) = db w.
Proof.
  intros Hn Hconn Hcur.
  destruct w as [d pool cs us es ss ex fds snt]. cbn in Hconn, Hcur. subst us.
  unfold get_vlan_for_mac. rewrite Hn. unfold_run. cbn.
  destruct (pool !! thread_id) as [c|] eqn:Hpool; cbn.
  - repeat split.
  - destruct Hconn as [[c Hc]|Hq]; [discriminate|].
    destruct cs as [|[m|] cs]; cbn; quiet_inv; try discriminate; repeat split.
Qed.

Lemma get_vlan_for_mac_cursor_failure_witness :
  fst (get_vlan_for_mac 7 (Some "AA:BB:CC:DD:EE:FF") stale) = Raise unbound_cursor
  /\ executed (snd (get_vlan_for_mac 7 (Some "AA:BB:CC:DD:EE:FF") stale)) = []
  /\ db (snd (get_vlan_for_mac 7 (Some "AA:BB:CC:DD:EE:FF") stale)) = example_db.
Proof.
  apply (get_vlan_for_mac_cursor_failure 7 (Some "AA:BB:CC:DD:EE:FF")
           "aa:bb:cc:dd:ee:ff" stale "MySQL Connection not available." []).
  - vm_compute. reflexivity.
  - left. exists (Conn 7). vm_compute. reflexivity.
  - reflexivity.
Defined.

(** The prefix tier is asked for the first eight characters of the
    canonical address, its first three octets: with a store that answers
    and no device row, that is the second statement executed. *)
Theorem get_vlan_for_mac_prefix_key thread_id mac normalized_mac w :
  healthy w ->
  normalize_mac mac = Some normalized_mac ->
  select_radreply (db w) normalized_mac = None ->
  String.length (String.substring 0 8 normalized_mac) = 8%nat
  /\ (executed (snd (get_vlan_for_mac thread_id mac w))) !! List.length (executed w)
     = Some (SelectRadreply normalized_mac)
  /\ (executed (snd (get_vlan_for_mac thread_id mac w))) !! S (List.length (executed w))
     = Some (SelectMacPrefixes (String.substring 0 8 normalized_mac)).
Proof.
  intros Hw Hn Hnone.
  destruct (get_vlan_for_mac_healthy thread_id mac normalized_mac w Hw Hn)
    as (w' & Hrun & _ & Hex).
  rewrite Hrun. cbn [snd]. rewrite Hex, Hnone.
  destruct (normalize_mac_form mac normalized_mac Hn)
    as (c0 & c1 & c2 & c3 & c4 & c5 & c6 & c7 & c8 & c9 & c10 & c11
        & _ & Hy & Hsplit).
  assert (Hprefix : prefix_of normalized_mac = String.substring 0 8 normalized_mac).
  { unfold prefix_of. rewrite Hsplit. rewrite Hy. reflexivity. }
  rewrite Hprefix.
  split; [rewrite Hy; reflexivity|]. split.
  - rewrite lookup_app_r by lia. rewrite Nat.sub_diag. reflexivity.
  - rewrite lookup_app_r by lia.
    replace (S (List.length (executed w)) - List.length (executed w))%nat
      with 1%nat by lia.
    reflexivity.
Qed.

Lemma get_vlan_for_mac_prefix_key_witness :
  (executed (snd (get_vlan_for_mac 7 (Some "aa-bb-cc-11-22-33") (up example_db))))
    !! 1%nat = Some (SelectMacPrefixes "aa:bb:cc").
Proof.
  destruct (get_vlan_for_mac_prefix_key 7 (Some "aa-bb-cc-11-22-33")
              "aa:bb:cc:11:22:33" (up example_db) (up_healthy _) eq_refl eq_refl)
    as (_ & _ & H).
  exact H.
Defined.

(** A VLAN stored as text by [str] comes back as the same number: when
    the first device row of an address holds [str(vlan)], the resolver
    answers [vlan] with [exact], for every integer. *)
Theorem get_vlan_for_mac_stored_vlan thread_id mac normalized_mac w row vlan :
  healthy w ->
  normalize_mac mac = Some normalized_mac ->
  select_radreply (db w) normalized_mac = Some row ->
  rr_value row = Py.str_of_int vlan ->
  fst (get_vlan_for_mac thread_id mac w) = Return (Some vlan, Some "exact").
Proof.
  intros Hw Hn Hrow Hval.
  destruct (get_vlan_for_mac_healthy thread_id mac normalized_mac w Hw Hn)
    as (w' & Hrun & _).
  rewrite Hrun, Hrow, Hval, int_str_of_int. reflexivity.
Qed.

Lemma get_vlan_for_mac_stored_vlan_witness :
  fst (get_vlan_for_mac 7 (Some "AA:BB:CC:DD:EE:FF") (up example_db))
  = Return (Some 100, Some "exact").
Proof.
  apply (get_vlan_for_mac_stored_vlan 7 (Some "AA:BB:CC:DD:EE:FF")
           "aa:bb:cc:dd:ee:ff" (up example_db)
           {| rr_username := "aa:bb:cc:dd:ee:ff"; rr_attribute := TPGI;
              rr_value := "100" |} 100).
  - apply up_healthy.
  - vm_compute. reflexivity.
  - vm_compute. reflexivity.
  - vm_compute. reflexivity.
Defined.

(** ** More on HandleAuthPacket *)

(** A request whose decision comes down to one audit call made in the
    world [w1], with a cursor at hand there: the reply is produced and
    handed to the socket, and the audit row is the one built from the
    arguments of the call. *)
Lemma audited_request thread_id pkt w w1 u rs reason (reply : Reply) :
  let l := fst (read_request pkt) in
  let row := audit_row u
               (local_or_None (nas_ip l)) (local_or_None (nas_port l))
               (local_or_None (called_station_id l))
               (local_or_None (calling_station_id l))
               "Access-Request" rs reason in
  quiet (cursor_script w1) ->
  (forall w2,
      bind (log_radius_request thread_id u
              (local_or_None (nas_ip l)) (local_or_None (nas_port l))
              (local_or_None (called_station_id l))
              (local_or_None (calling_station_id l))
              "Access-Request" rs reason)
           (fun _ => ret reply) w1 = (Return reply, w2) ->
      try_except
        (match snd (read_request pkt) with
         | Some e => raise e
         | None => decide_request thread_id pkt l
         end)
        (fun _ => true) (on_error thread_id pkt l) w = (Return reply, w2)) ->
  exists w2 w',
    HandleAuthPacket thread_id pkt w = (Return (Some reply), w')
    /\ frame w1 w2
    /\ db w' = db w2 /\ executed w' = executed w2
    /\ (db w2 = db w1 \/ db w2 = append_log row (db w1))
    /\ (healthy w1 -> db w2 = append_log row (db w1)
                      /\ executed w2 = (executed w1 ++ [InsertRadiusLog row])%list)
    /\ (sent w' = sent w1 \/ exists fd, sent w' = (sent w1 ++ [(fd, reply)])%list)
    /\ (quiet (send_script w1) -> forall fd fds, authfds w1 = fd :: fds ->
        sent w' = (sent w1 ++ [(fd, reply)])%list).
Proof.
  intros l row Hq Hdec.
  destruct (audited_reply thread_id u
              (local_or_None (nas_ip l)) (local_or_None (nas_port l))
              (local_or_None (called_station_id l))
              (local_or_None (calling_station_id l))
              rs reason reply w1 Hq)
    as (w2 & Hrun & Hf & Hcases & Hh).
  specialize (Hdec w2 Hrun).
  destruct (HandleAuthPacket_decided thread_id pkt w reply w2 Hdec)
    as (w' & Hrun' & Hdb & Hex & Hsent & Hsend).
  pose proof Hf as (_ & _ & _ & Hfds & Hsnt & Hss & _).
  rewrite Hsnt in Hsent, Hsend. rewrite Hss, Hfds in Hsend.
  exists w2, w'. split; [exact Hrun'|]. split; [exact Hf|]. split; [exact Hdb|].
  split; [exact Hex|].
  split; [destruct Hcases as [[? _]|[? _]]; auto|].
  split; [exact Hh|]. split; [exact Hsent | exact Hsend].
Qed.

(** The decision block of a request whose identity is the text [s], once
    the resolver has run. *)
Lemma decision_after_lookup thread_id pkt s w r w1 :
  snd (read_request pkt) = None ->
  mac_address (fst (read_request pkt)) = Some (VStr s) ->
  s <> "" ->
  get_vlan_for_mac thread_id (Some s) w = (r, w1) ->
  let l := fst (read_request pkt) in
  try_except
    (match snd (read_request pkt) with
     | Some e => raise e
     | None => decide_request thread_id pkt l
     end)
    (fun _ => true) (on_error thread_id pkt l) w
  = try_except
      (match r with
       | Return (Some vlan_id, match_type) =>
           bind (log_radius_request thread_id (Some (VStr s))
                   (local_or_None (nas_ip l)) (local_or_None (nas_port l))
                   (local_or_None (called_station_id l))
                   (local_or_None (calling_station_id l))
                   "Access-Request" "Access-Accept"
                   ("VLAN " ++ Py.str_of_int vlan_id ++ " assigned via "
                      ++ str_of_opt match_type ++ " match"))
                (fun _ => ret (create_accept_packet pkt vlan_id))
       | Return (None, _) =>
           bind (log_radius_request thread_id (Some (VStr s))
                   (local_or_None (nas_ip l)) (local_or_None (nas_port l))
                   (local_or_None (called_station_id l))
                   (local_or_None (calling_station_id l))
                   "Access-Request" "Access-Reject"
                   ("No VLAN assignment found for MAC " ++ s))
                (fun _ => ret (create_reject_packet pkt))
       | Raise e => raise e
       end)
      (fun _ => true) (on_error thread_id pkt l) w1.
Proof.
  intros Hstop Hmac Hs Hrun l. fold l in Hmac.
  rewrite Hstop. unfold try_except, decide_request.
  rewrite Hmac.
  assert (Ht : truthy (Some (VStr s)) = true).
  { destruct s; [congruence | reflexivity]. }
  rewrite Ht. cbn [negb].
  unfold mbind at 1, M_bind at 1, bind at 1. unfold call_get_vlan_for_mac.
  rewrite Hrun. destruct r as [[[v|] k]|e]; reflexivity.
Qed.

Lemma identity_not_empty thread_id s w vlan k :
  fst (get_vlan_for_mac thread_id (Some s) w) = Return (Some vlan, k) -> s <> "".
Proof. intros H ->. discriminate H. Qed.

(** A request is accepted with the VLAN the resolver returned. With a
    store that answers and a socket that sends, the reply is the accept
    packet for that VLAN, its Tunnel-Private-Group-ID reads back as the
    same number, it is handed to the first listening socket, and the audit
    table gains the row that names the VLAN and the match kind. *)
Theorem accept_carries_resolved_vlan thread_id pkt s w vlan match_type :
  healthy w ->
  quiet (send_script w) ->
  snd (read_request pkt) = None ->
  mac_address (fst (read_request pkt)) = Some (VStr s) ->
  fst (get_vlan_for_mac thread_id (Some s) w) = Return (Some vlan, match_type) ->
  let l := fst (read_request pkt) in
  let reply := create_accept_packet pkt vlan in
  let row := audit_row (Some (VStr s))
               (local_or_None (nas_ip l)) (local_or_None (nas_port l))
               (local_or_None (called_station_id l))
               (local_or_None (calling_station_id l))
               "Access-Request" "Access-Accept"
               ("VLAN " ++ Py.str_of_int vlan ++ " assigned via "
                  ++ str_of_opt match_type ++ " match") in
  exists w',
    HandleAuthPacket thread_id pkt w = (Return (Some reply), w')
    /\ db w' = append_log row (db w)
    /\ (forall fd fds, authfds w = fd :: fds ->
        sent w' = (sent w ++ [(fd, reply)])%list)
    /\ (exists text, reply_attrs reply !! "Tunnel-Private-Group-ID" = Some [VStr text]
                     /\ Py.int 10 text = Some vlan).
Proof.
  intros Hw Hsend Hstop Hmac Hres l reply row.
  pose proof (identity_not_empty _ _ _ _ _ Hres) as Hs.
  destruct (get_vlan_for_mac_run thread_id (Some s) w) as (r & w1 & Hrun & Hf & Hdb).
  rewrite Hrun in Hres. cbn [fst] in Hres. subst r.
  pose proof (frame_healthy _ _ Hf Hw) as Hw1.
  destruct (audited_request thread_id pkt w w1 (Some (VStr s)) "Access-Accept"
              ("VLAN " ++ Py.str_of_int vlan ++ " assigned via "
                 ++ str_of_opt match_type ++ " match") reply)
    as (w2 & w' & Hrun' & _ & Hdb' & _ & _ & Hh & _ & Hsent).
  { destruct Hw1 as (_ & ? & _). assumption. }
  { intros w2 Hb.
    rewrite (decision_after_lookup thread_id pkt s w _ w1 Hstop Hmac Hs Hrun).
    unfold try_except. cbv zeta. unfold reply, l in *. rewrite Hb. reflexivity. }
  destruct (Hh Hw1) as [Hrow _].
  pose proof Hf as (_ & _ & _ & Hfds & Hsnt & Hss & _).
  exists w'. split; [exact Hrun'|]. split.
  { rewrite Hdb', Hrow, Hdb. reflexivity. }
  split.
  { intros fd fds Hfd. rewrite <- Hsnt. apply (Hsent ltac:(rewrite Hss; exact Hsend) fd fds).
    rewrite Hfds. exact Hfd. }
  exists (Py.str_of_int vlan). split; [|apply int_str_of_int].
  unfold reply, create_accept_packet, AddAttribute, CreateReply, set_code, set_source.
  cbn [reply_attrs code reply_source].
  rewrite lookup_insert_eq. vm_compute. reflexivity.
Qed.

Lemma accept_carries_resolved_vlan_witness :
  exists w',
    HandleAuthPacket 7 (request_for "aa-bb-cc-11-22-33") (up example_db)
    = (Return (Some (create_accept_packet (request_for "aa-bb-cc-11-22-33") 300)), w')
    /\ lg_reason <$> radius_logs (db w') = ["VLAN 300 assigned via prefix match"]
    /\ sent w' = [(5%nat, create_accept_packet (request_for "aa-bb-cc-11-22-33") 300)].
Proof.
  destruct (accept_carries_resolved_vlan 7 (request_for "aa-bb-cc-11-22-33")
              "aa-bb-cc-11-22-33" (up example_db) 300 (Some "prefix"))
    as (w' & Hrun & Hdb & Hsent & _).
  - apply up_healthy.
  - exact quiet_nil.
  - vm_compute. reflexivity.
  - vm_compute. reflexivity.
  - vm_compute. reflexivity.
  - exists w'. split; [exact Hrun|]. split.
    + rewrite Hdb. vm_compute. reflexivity.
    + apply (Hsent 5%nat []). reflexivity.
Defined.

(** With a store that answers, a device row whose value is no number
    does not fall through to the prefix or the default tier: the request
    is rejected from the [except] clause, the only lookup executed is the
    first, and the audit row gives the message of [int]: the [repr] of the
    value it refused, cut after 200 characters. *)
Theorem device_row_not_a_number thread_id pkt s normalized_mac w device :
  healthy w ->
  snd (read_request pkt) = None ->
  mac_address (fst (read_request pkt)) = Some (VStr s) ->
  normalize_mac (Some s) = Some normalized_mac ->
  select_radreply (db w) normalized_mac = Some device ->
  Py.int 10 (rr_value device) = None ->
  let l := fst (read_request pkt) in
  let row := audit_row (Some (VStr s))
               (local_or_None (nas_ip l)) (local_or_None (nas_port l))
               (local_or_None (called_station_id l))
               (local_or_None (calling_station_id l))
               "Access-Request" "Access-Reject"
               ("Server error: " ++ Py.invalid_literal 10 (rr_value device)) in
  exists w',
    HandleAuthPacket thread_id pkt w = (Return (Some (create_reject_packet pkt)), w')
    /\ db w' = append_log row (db w)
    /\ executed w' = (executed w ++ [SelectRadreply normalized_mac;
                                     InsertRadiusLog row])%list.
Proof.
  intros Hw Hstop Hmac Hn Hdev Hint l row.
  assert (Hs : s <> "") by (intros ->; discriminate Hn).
  destruct (get_vlan_for_mac_healthy thread_id (Some s) normalized_mac w Hw Hn)
    as (w1 & Hrun & Hdb & Hex).
  rewrite Hdev, Hint in Hrun. rewrite Hdev in Hex.
  destruct (get_vlan_for_mac_run thread_id (Some s) w) as (r & w1' & Hrun' & Hf & _).
  rewrite Hrun in Hrun'. injection Hrun' as <- <-.
  pose proof (frame_healthy _ _ Hf Hw) as Hw1.
  destruct (audited_request thread_id pkt w w1 (Some (VStr s)) "Access-Reject"
              ("Server error: " ++ Py.invalid_literal 10 (rr_value device))
              (create_reject_packet pkt))
    as (w2 & w' & Hrun' & _ & Hdb' & Hex' & _ & Hh & _).
  { destruct Hw1 as (_ & ? & _). assumption. }
  { intros w2 Hb.
    rewrite (decision_after_lookup thread_id pkt s w _ w1 Hstop Hmac Hs Hrun).
    unfold try_except. cbv zeta. cbn [raise].
    unfold on_error, mbind, M_bind. fold l in Hmac. unfold l in *.
    rewrite Hmac. cbn [exn_str]. exact Hb. }
  destruct (Hh Hw1) as [Hrow Hexec].
  exists w'. split; [exact Hrun'|]. split.
  - rewrite Hdb', Hrow, Hdb. reflexivity.
  - rewrite Hex', Hexec, Hex, <- app_assoc. reflexivity.
Qed.

Lemma device_row_not_a_number_witness :
  let d := {| radreply := [ {| rr_username := "aa:bb:cc:dd:ee:ff";
                               rr_attribute := TPGI; rr_value := "guest" |} ];
              mac_prefixes := mac_prefixes example_db;
              default_vlan_config := default_vlan_config example_db;
              radius_logs := [] |} in
  exists w',
    HandleAuthPacket 7 (request_for "AA:BB:CC:DD:EE:FF") (up d)
    = (Return (Some (create_reject_packet (request_for "AA:BB:CC:DD:EE:FF"))), w')
    /\ lg_reason <$> radius_logs (db w')
       = ["Server error: invalid literal for int() with base 10: 'guest'"]
    /\ List.length (executed w') = 2%nat.
Proof.
  intros d.
  destruct (device_row_not_a_number 7 (request_for "AA:BB:CC:DD:EE:FF")
              "AA:BB:CC:DD:EE:FF" "aa:bb:cc:dd:ee:ff" (up d)
              {| rr_username := "aa:bb:cc:dd:ee:ff"; rr_attribute := TPGI;
                 rr_value := "guest" |})
    as (w' & Hrun & Hdb & Hex).
  - apply up_healthy.
  - vm_compute. reflexivity.
  - vm_compute. reflexivity.
  - vm_compute. reflexivity.
  - vm_compute. reflexivity.
  - vm_compute. reflexivity.
  - exists w'. split; [exact Hrun|]. split.
    + rewrite Hdb. vm_compute. reflexivity.
    + rewrite Hex. reflexivity.
Defined.

(** An empty Calling-Station-Id is not replaced by User-Name. For a packet
    whose attributes all have a value, and provided a cursor can be opened
    on the store connection: whatever User-Name holds, the request is
    rejected for want of a MAC address, and the audit row, written when
    the store answers, names the user [unknown]. *)
Theorem empty_calling_station_no_fallback thread_id pkt rest w :
  decoded pkt ->
  attrs pkt !! "Calling-Station-Id" = Some (VStr "" :: rest) ->
  quiet (cursor_script w) ->
  exists row w',
    HandleAuthPacket thread_id pkt w = (Return (Some (create_reject_packet pkt)), w')
    /\ lg_username row = VStr "unknown"
    /\ lg_reason row = "No MAC address found in request"
    /\ lg_response_type row = "Access-Reject"
    /\ (db w' = db w \/ db w' = append_log row (db w))
    /\ (healthy w -> db w' = append_log row (db w)
                     /\ executed w' = (executed w ++ [InsertRadiusLog row])%list).
Proof.
  intros Hd Hcsi Hq.
  assert (Hmac : mac_address (fst (read_request pkt)) = Some (VStr "")).
  { apply read_request_mac. rewrite (has_Some _ _ _ Hcsi).
    unfold first_value. rewrite Hcsi. reflexivity. }
  destruct (reject_without_lookup thread_id pkt w) as
    (row & w' & Hrun & _ & Hrs & Hno & _ & Hcases & Hh); [|exact Hq|].
  { right. left. rewrite Hmac. reflexivity. }
  rewrite Hmac in Hno.
  destruct (Hno (read_request_decoded pkt Hd) eq_refl) as [Hu Hreason].
  exists row, w'. split; [exact Hrun|]. split; [exact Hu|].
  split; [exact Hreason|]. split; [exact Hrs|].
  split; [destruct Hcases as [[? _]|[? _]]; auto | exact Hh].
Qed.

Lemma empty_calling_station_no_fallback_witness :
  let pkt := {| attrs := {[ "Calling-Station-Id" := [VStr ""];
                            "User-Name" := [VStr "aa:bb:cc:dd:ee:ff"] ]};
                source := ("192.0.2.10", 51000) |} in
  exists row w',
    HandleAuthPacket 7 pkt (up example_db)
    = (Return (Some (create_reject_packet pkt)), w')
    /\ lg_reason row = "No MAC address found in request"
    /\ db w' = append_log row example_db.
Proof.
  intros pkt.
  destruct (empty_calling_station_no_fallback 7 pkt [] (up example_db))
    as (row & w' & Hrun & _ & Hreason & _ & _ & Hh).
  - intros key. unfold pkt; cbn [attrs].
    destruct (decide (key = "Calling-Station-Id")) as [->|H1];
      [vm_compute; discriminate|].
    destruct (decide (key = "User-Name")) as [->|H2];
      [vm_compute; discriminate|].
    rewrite lookup_insert_ne by congruence.
    rewrite lookup_singleton_ne by congruence. discriminate.
  - vm_compute. reflexivity.
  - exact quiet_nil.
  - exists row, w'. split; [exact Hrun|]. split; [exact Hreason|].
    apply Hh. apply up_healthy.
Defined.

(** *** Every world *)

Lemma audited_any thread_id u ip port called calling rs reason (reply : Reply) w :
  let row := audit_row u ip port called calling "Access-Request" rs reason in
  exists o w',
    bind (log_radius_request thread_id u ip port called calling
            "Access-Request" rs reason) (fun _ => ret reply) w = (o, w')
    /\ frame w w'
    /\ ((o = Return reply /\ (db w' = db w \/ db w' = append_log row (db w)))
        \/ (o = Raise unbound_cursor /\ db w' = db w)).
Proof.
  intros row.
  destruct (log_radius_request_run thread_id u ip port called calling
              "Access-Request" rs reason w)
    as (r & w' & Hrun & Hframe & Hcases).
  unfold bind. rewrite Hrun.
  destruct Hcases as [(-> & Hdb & _) | [(-> & Hdb & _) | (-> & Hdb & _)]];
    eexists; exists w'; (split; [reflexivity|]); (split; [exact Hframe|]); auto.
Qed.

Lemma frame_db w w' row :
  frame w w' -> db w' = db w \/ db w' = append_log row (db w) ->
  radreply (db w') = radreply (db w)
  /\ mac_prefixes (db w') = mac_prefixes (db w)
  /\ default_vlan_config (db w') = default_vlan_config (db w).
Proof. intros (? & ? & ? & _) _. auto. Qed.

(** The decision block in any world: it ends with a reply, or with the
    [UnboundLocalError] of an audit call; the audit table gains at most
    one row, and only together with a reply, whose kind the row names. *)
Lemma decision_any thread_id pkt w :
  let l := fst (read_request pkt) in
  exists o w',
    try_except
      (match snd (read_request pkt) with
       | Some e => raise e
       | None => decide_request thread_id pkt l
       end)
      (fun _ => true) (on_error thread_id pkt l) w = (o, w')
    /\ frame w w'
    /\ ((exists reply,
           o = Return reply
           /\ (reply = create_reject_packet pkt
               \/ exists vlan_id, reply = create_accept_packet pkt vlan_id)
           /\ (db w' = db w
               \/ exists u reason,
                   db w' = append_log
                             (audit_row u
                                (local_or_None (nas_ip l)) (local_or_None (nas_port l))
                                (local_or_None (called_station_id l))
                                (local_or_None (calling_station_id l))
                                "Access-Request" (response_type_of (code reply)) reason)
                             (db w)))
        \/ (o = Raise unbound_cursor /\ db w' = db w)).
Proof.
  intros l.
  assert (Herr : forall e w1, frame w w1 -> db w1 = db w ->
    exists o w',
      on_error thread_id pkt l e w1 = (o, w')
      /\ frame w w'
      /\ ((exists reply,
             o = Return reply
             /\ (reply = create_reject_packet pkt
                 \/ exists vlan_id, reply = create_accept_packet pkt vlan_id)
             /\ (db w' = db w
                 \/ exists u reason,
                     db w' = append_log
                               (audit_row u
                                  (local_or_None (nas_ip l)) (local_or_None (nas_port l))
                                  (local_or_None (called_station_id l))
                                  (local_or_None (calling_station_id l))
                                  "Access-Request" (response_type_of (code reply)) reason)
                               (db w)))
          \/ (o = Raise unbound_cursor /\ db w' = db w))).
  { intros e w1 Hf Hdb. unfold on_error, mbind, M_bind.
    destruct (audited_any thread_id (mac_address l)
                (local_or_None (nas_ip l)) (local_or_None (nas_port l))
                (local_or_None (called_station_id l))
                (local_or_None (calling_station_id l))
                "Access-Reject" ("Server error: " ++ exn_str e)
                (create_reject_packet pkt) w1)
      as (o & w' & Hrun & Hf' & Hcases).
    exists o, w'. split; [exact Hrun|]. split; [eapply frame_trans; eassumption|].
    rewrite <- Hdb.
    destruct Hcases as [(-> & Hlog)|(-> & Hsame)]; [left|right; auto].
    exists (create_reject_packet pkt). split; [reflexivity|]. split; [left; reflexivity|].
    destruct Hlog as [?|?]; [left; assumption|right; eauto]. }
  assert (Hlog : forall u rs reason reply w1,
    frame w w1 -> db w1 = db w ->
    rs = response_type_of (code reply) ->
    (reply = create_reject_packet pkt
     \/ exists vlan_id, reply = create_accept_packet pkt vlan_id) ->
    exists o w',
      (let (o, w') :=
         bind (log_radius_request thread_id u
                 (local_or_None (nas_ip l)) (local_or_None (nas_port l))
                 (local_or_None (called_station_id l))
                 (local_or_None (calling_station_id l))
                 "Access-Request" rs reason) (fun _ => ret reply) w1 in
       match o with
       | Return a => (Return a, w')
       | Raise e => on_error thread_id pkt l e w'
       end) = (o, w')
      /\ frame w w'
      /\ ((exists reply,
             o = Return reply
             /\ (reply = create_reject_packet pkt
                 \/ exists vlan_id, reply = create_accept_packet pkt vlan_id)
             /\ (db w' = db w
                 \/ exists u reason,
                     db w' = append_log
                               (audit_row u
                                  (local_or_None (nas_ip l)) (local_or_None (nas_port l))
                                  (local_or_None (called_station_id l))
                                  (local_or_None (calling_station_id l))
                                  "Access-Request" (response_type_of (code reply)) reason)
                               (db w)))
          \/ (o = Raise unbound_cursor /\ db w' = db w))).
  { intros u rs reason reply w1 Hf Hdb -> Hkind.
    destruct (audited_any thread_id u
                (local_or_None (nas_ip l)) (local_or_None (nas_port l))
                (local_or_None (called_station_id l))
                (local_or_None (calling_station_id l))
                (response_type_of (code reply)) reason reply w1)
      as (o & w2 & Hrun & Hf' & Hcases).
    rewrite Hrun.
    destruct Hcases as [(-> & Hrow)|(-> & Hsame)].
    - exists (Return reply), w2. split; [reflexivity|].
      split; [eapply frame_trans; eassumption|]. left.
      exists reply. split; [reflexivity|]. split; [exact Hkind|].
      rewrite <- Hdb. destruct Hrow as [?|?]; [left; assumption|right; eauto].
    - apply Herr; [eapply frame_trans; eassumption | congruence]. }
  unfold try_except.
  destruct (snd (read_request pkt)) as [e|].
  { cbn [raise]. apply (Herr e w (frame_refl w) eq_refl). }
  unfold decide_request, mbind, M_bind.
  destruct (truthy (mac_address l)) eqn:Ht; cbn [negb].
  2:{ apply (Hlog _ _ _ _ w (frame_refl w) eq_refl); [reflexivity | left; reflexivity]. }
  unfold bind at 1. unfold call_get_vlan_for_mac.
  destruct (mac_address l) as [[s|n]|] eqn:Hmac; [| |discriminate].
  2:{ cbn [raise]. apply (Herr _ w (frame_refl w) eq_refl). }
  destruct (get_vlan_for_mac_run thread_id (Some s) w) as (r & w1 & Hrun1 & Hf1 & Hdb1).
  rewrite Hrun1.
  destruct r as [[[vlan_id|] match_type]|e].
  - apply (Hlog _ _ _ _ w1 Hf1 Hdb1); [reflexivity | right; eexists; reflexivity].
  - apply (Hlog _ _ _ _ w1 Hf1 Hdb1); [reflexivity | left; reflexivity].
  - apply (Herr e w1 Hf1 Hdb1).
Qed.

(** What a request can do to the world, whatever the store and the socket
    do. The rule tables are never changed; the audit table gains at most
    one row, at its end; at most one reply is handed to a socket, and it is
    the reply decided. The call ends with a reply, a Reject without
    attribute or an Accept for some VLAN, or with the [UnboundLocalError]
    of an audit call, in which case nothing was audited and nothing
    sent. *)
Theorem HandleAuthPacket_effects thread_id pkt w :
  let run := HandleAuthPacket thread_id pkt w in
  let w' := snd run in
  radreply (db w') = radreply (db w)
  /\ mac_prefixes (db w') = mac_prefixes (db w)
  /\ default_vlan_config (db w') = default_vlan_config (db w)
  /\ (radius_logs (db w') = radius_logs (db w)
      \/ exists row, radius_logs (db w') = (radius_logs (db w) ++ [row])%list)
  /\ ((exists reply,
         fst run = Return (Some reply)
         /\ (reply = create_reject_packet pkt
             \/ exists vlan_id, reply = create_accept_packet pkt vlan_id)
         /\ (sent w' = sent w
             \/ exists fd, sent w' = (sent w ++ [(fd, reply)])%list))
      \/ (fst run = Raise unbound_cursor
          /\ db w' = db w /\ sent w' = sent w)).
Proof.
  intros run w'. subst run w'.
  destruct (decision_any thread_id pkt w) as (o & w1 & Hdec & Hf & Hcases).
  pose proof Hf as (Hr & Hp & Hd & _ & Hsnt & _).
  destruct Hcases as [(reply & -> & Hkind & Hlog)|(-> & Hdb)].
  - destruct (HandleAuthPacket_decided thread_id pkt w reply w1 Hdec)
      as (w' & Hrun & Hdb & _ & Hsent & _).
    rewrite Hrun. cbn [fst snd]. rewrite Hdb, Hr, Hp, Hd.
    split; [reflexivity|]. split; [reflexivity|]. split; [reflexivity|].
    split.
    + destruct Hlog as [->|(u & reason & ->)]; [left; reflexivity|right].
      eexists. reflexivity.
    + left. exists reply. split; [reflexivity|]. split; [exact Hkind|].
      rewrite <- Hsnt. exact Hsent.
  - rewrite (HandleAuthPacket_raised thread_id pkt w _ w1 Hdec). cbn [fst snd].
    rewrite Hdb. split; [reflexivity|]. split; [reflexivity|]. split; [reflexivity|].
    split; [left; reflexivity|]. right. auto.
Qed.

(** *** The fields of the audit row *)

Lemma append_log_changes row d : append_log row d <> d.
Proof.
  intros H. apply (f_equal radius_logs) in H. cbn in H.
  apply (f_equal (@List.length _)) in H. rewrite length_app in H. cbn in H. lia.
Qed.

Lemma append_log_inj r1 r2 d : append_log r1 d = append_log r2 d -> r1 = r2.
Proof.
  intros H. apply (f_equal radius_logs) in H. cbn in H.
  apply app_inj_tail in H as [_ H]. exact H.
Qed.

Lemma first_value_first_attr pkt key :
  decoded pkt -> first_value pkt key = inr (first_attr pkt key).
Proof.
  intros Hd. specialize (Hd key). unfold first_value, first_attr.
  destruct (attrs pkt !! key) as [[|v l]|]; [congruence | reflexivity | reflexivity].
Qed.

Lemma has_first_attr pkt key :
  decoded pkt -> has pkt key = bool_decide (is_Some (first_attr pkt key)).
Proof.
  intros Hd. specialize (Hd key). unfold has, first_attr.
  destruct (attrs pkt !! key) as [[|v l]|]; [congruence | reflexivity | reflexivity].
Qed.

(** What the engine reads from a packet as pyrad decodes it. *)
Lemma read_request_fields pkt :
  decoded pkt ->
  read_request pkt =
  ({| mac_address :=
        match first_attr pkt "Calling-Station-Id" with
        | Some v => Some v
        | None => first_attr pkt "User-Name"
        end;
      nas_ip :=
        Some (match first_attr pkt "NAS-IP-Address" with
              | Some v => Some v
              | None => Some (VStr (fst (source pkt)))
              end);
      nas_port := Some (first_attr pkt "NAS-Port");
      called_station_id := Some (first_attr pkt "Called-Station-Id");
      calling_station_id := Some (first_attr pkt "Calling-Station-Id") |}, None).
Proof.
  intros Hd. unfold read_request.
  rewrite !(has_first_attr pkt _ Hd), !(first_value_first_attr pkt _ Hd).
  destruct (first_attr pkt "Calling-Station-Id");
    destruct (first_attr pkt "User-Name");
    destruct (first_attr pkt "NAS-IP-Address");
    destruct (first_attr pkt "NAS-Port");
    destruct (first_attr pkt "Called-Station-Id"); reflexivity.
Qed.

(** With a store that answers, every request leaves exactly one audit
    row, whose kind is that of the reply and whose station and NAS fields
    come from the packet: the NAS address is the NAS-IP-Address attribute
    or, without it, the host the datagram came from; a field the packet
    does not hold is stored as the empty text. *)
Theorem audit_row_fields thread_id pkt w :
  healthy w ->
  decoded pkt ->
  exists reply row w',
    HandleAuthPacket thread_id pkt w = (Return (Some reply), w')
    /\ db w' = append_log row (db w)
    /\ lg_request_type row = "Access-Request"
    /\ lg_response_type row = response_type_of (code reply)
    /\ lg_nas_ip_address row
       = or_empty (match first_attr pkt "NAS-IP-Address" with
                   | Some v => Some v
                   | None => Some (VStr (fst (source pkt)))
                   end)
    /\ lg_nas_port_id row = or_empty (first_attr pkt "NAS-Port")
    /\ lg_called_station_id row = or_empty (first_attr pkt "Called-Station-Id")
    /\ lg_calling_station_id row = or_empty (first_attr pkt "Calling-Station-Id").
Proof.
  intros Hw Hd.
  destruct (decision_any thread_id pkt w) as (o & w1 & Hdec & _ & Hcases).
  destruct (decision_run thread_id pkt (fst (read_request pkt))
              (snd (read_request pkt)) w ltac:(destruct Hw as (_ & ? & _); assumption))
    as (reply & w1' & Hdec' & _ & _ & _ & Hh).
  rewrite Hdec in Hdec'. injection Hdec' as -> <-.
  destruct (Hh Hw) as (row & Hrow & _).
  destruct Hcases as [(reply' & [= <-] & _ & Hlog)|([=] & _)].
  destruct Hlog as [Hsame|(u & reason & Hrow')].
  { exfalso. rewrite Hsame in Hrow. symmetry in Hrow.
    exact (append_log_changes _ _ Hrow). }
  destruct (HandleAuthPacket_decided thread_id pkt w reply w1 Hdec)
    as (w' & Hrun & Hdb & _).
  eexists reply, _, w'. split; [exact Hrun|]. split; [rewrite Hdb; exact Hrow'|].
  rewrite (read_request_fields pkt Hd). cbn. repeat split.
Qed.

Lemma audit_row_fields_witness :
  exists reply row w',
    HandleAuthPacket 7 (request_for "AA:BB:CC:DD:EE:FF") (up example_db)
    = (Return (Some reply), w')
    /\ db w' = append_log row example_db
    /\ lg_nas_ip_address row = VStr "192.0.2.10"
    /\ lg_nas_port_id row = VStr ""
    /\ lg_calling_station_id row = VStr "AA:BB:CC:DD:EE:FF".
Proof.
  destruct (audit_row_fields 7 (request_for "AA:BB:CC:DD:EE:FF") (up example_db))
    as (reply & row & w' & Hrun & Hdb & _ & _ & Hip & Hport & _ & Hcalling).
  - apply up_healthy.
  - intros key. unfold request_for; cbn [attrs].
    destruct (decide (key = "Calling-Station-Id")) as [->|H1];
      [vm_compute; discriminate|].
    destruct (decide (key = "User-Name")) as [->|H2];
      [vm_compute; discriminate|].
    rewrite lookup_insert_ne by congruence.
    rewrite lookup_singleton_ne by congruence. discriminate.
  - exists reply, row, w'. split; [exact Hrun|]. split; [exact Hdb|].
    split; [exact Hip|]. split; [exact Hport | exact Hcalling].
Defined.

(** ** More on log_radius_request *)

(** The return value tells whether the row was written. In every world
    the call returns [True] exactly when the audit table has gained the
    row built from its arguments; otherwise the store is as it was. The
    rule tables are never changed, and the only exception that can leave
    the call is the [UnboundLocalError] of its [finally] clause. *)
Theorem log_radius_request_true_iff thread_id u ip port called calling rq rs reason w :
  let run := log_radius_request thread_id u ip port called calling rq rs reason w in
  let row := audit_row u ip port called calling rq rs reason in
  (fst run = Return true
   <-> radius_logs (db (snd run)) = (radius_logs (db w) ++ [row])%list)
  /\ (fst run <> Return true -> db (snd run) = db w)
  /\ radreply (db (snd run)) = radreply (db w)
  /\ mac_prefixes (db (snd run)) = mac_prefixes (db w)
  /\ default_vlan_config (db (snd run)) = default_vlan_config (db w)
  /\ (forall e, fst run = Raise e -> e = unbound_cursor).
Proof.
  intros run row. subst run.
  destruct (log_radius_request_run thread_id u ip port called calling rq rs reason w)
    as (r & w' & Hrun & Hf & Hcases).
  rewrite Hrun. cbn [fst snd].
  destruct Hf as (Hr & Hp & Hd & _).
  assert (Hgrow : db w' = db w ->
            radius_logs (db w') = (radius_logs (db w) ++ [row])%list -> False).
  { intros -> H. apply (f_equal (@List.length _)) in H.
    rewrite length_app in H. cbn in H. lia. }
  destruct Hcases as [(-> & Hdb & _) | [(-> & Hdb & _) | (-> & Hdb & _)]].
  - split; [split; [intros _; rewrite Hdb; reflexivity | reflexivity]|].
    split; [congruence|]. repeat split; try assumption. intros e [=].
  - split; [split; [discriminate | intros H; exfalso; exact (Hgrow Hdb H)]|].
    split; [intros _; exact Hdb|]. repeat split; try assumption. intros e [=].
  - split; [split; [discriminate | intros H; exfalso; exact (Hgrow Hdb H)]|].
    split; [intros _; exact Hdb|]. repeat split; try assumption.
    intros e [= <-]. reflexivity.
Qed.

(** ** demo_radius.py against the server *)

Lemma find_dict {A} (f : string * Z -> A) (p : A -> bool) (g : Z -> A) key
    (l : list (string * Z)) : forall o : option Z,
  (forall kv, p (f kv) = String.eqb (fst kv) key) ->
  (forall v, f (key, v) = g v) ->
  (forall v, (key, v) ∈ l <-> o = Some v) ->
  List.find p (f <$> l) = g <$> o.
Proof.
  intros o Hp Hg. induction l as [|[k v] l IH]; intros Hin.
  - destruct o as [v|]; [|reflexivity].
    exfalso. apply (not_elem_of_nil (key, v)). apply Hin. reflexivity.
  - cbn [fmap list_fmap List.find]. rewrite Hp. cbn [fst].
    destruct (String.eqb_spec k key) as [->|Hne].
    + assert (o = Some v) as -> by (apply Hin; left).
      cbn. rewrite Hg. reflexivity.
    + apply IH. intros v'. rewrite <- Hin. split.
      * intros H. right. exact H.
      * intros H. apply elem_of_cons in H as [[= ? _]|H]; [congruence | exact H].
Qed.

Lemma select_radreply_dict radreply_dict mac_prefixes_dict key :
  select_radreply (db_of_dicts radreply_dict mac_prefixes_dict) key
  = (fun v => {| rr_username := key; rr_attribute := "Tunnel-Private-Group-ID";
                 rr_value := Py.str_of_int v |}) <$> radreply_dict !! key.
Proof.
  unfold select_radreply, db_of_dicts. cbn [radreply].
  apply (find_dict _ _ _ key).
  - intros kv. cbn. rewrite andb_true_r. reflexivity.
  - reflexivity.
  - intros v. apply elem_of_map_to_list.
Qed.

Lemma select_mac_prefixes_dict radreply_dict mac_prefixes_dict key :
  select_mac_prefixes (db_of_dicts radreply_dict mac_prefixes_dict) key
  = (fun v => {| mp_prefix := key; mp_vlan_id := v |}) <$> mac_prefixes_dict !! key.
Proof.
  unfold select_mac_prefixes, db_of_dicts. cbn [mac_prefixes].
  apply (find_dict _ _ _ key).
  - intros kv. reflexivity.
  - reflexivity.
  - intros v. apply elem_of_map_to_list.
Qed.

(** The lookup of the demonstration is the lookup of the server: on a
    store that answers and holds the rules of the two dictionaries, each
    VLAN written with [str], and no default, [get_vlan_for_mac] returns
    what [mock_vlan_lookup] returns, for every text. *)
Theorem mock_vlan_lookup_is_get_vlan_for_mac thread_id radreply_dict mac_prefixes_dict mac w :
  healthy w ->
  db w = db_of_dicts radreply_dict mac_prefixes_dict ->
  fst (get_vlan_for_mac thread_id mac w)
  = Return (mock_vlan_lookup radreply_dict mac_prefixes_dict mac).
Proof.
  intros Hw Hdb. unfold mock_vlan_lookup.
  destruct (normalize_mac mac) as [nm|] eqn:Hn.
  - destruct (get_vlan_for_mac_healthy thread_id mac nm w Hw Hn) as (w' & Hrun & _).
    rewrite Hrun. cbn [fst]. rewrite Hdb.
    rewrite select_radreply_dict, select_mac_prefixes_dict.
    fold (prefix_of nm).
    destruct (radreply_dict !! nm) as [v|]; cbn.
    + rewrite int_str_of_int. reflexivity.
    + destruct (mac_prefixes_dict !! prefix_of nm); reflexivity.
  - unfold get_vlan_for_mac. rewrite Hn. reflexivity.
Qed.

Lemma mock_vlan_lookup_is_get_vlan_for_mac_witness :
  fst (get_vlan_for_mac 7 (Some "AA:BB:CC:77:88:99")
         (up (db_of_dicts mock_radreply mock_mac_prefixes)))
  = Return (mock_vlan_lookup mock_radreply mock_mac_prefixes (Some "AA:BB:CC:77:88:99")).
Proof.
  apply (mock_vlan_lookup_is_get_vlan_for_mac 7 mock_radreply mock_mac_prefixes
           (Some "AA:BB:CC:77:88:99") (up (db_of_dicts mock_radreply mock_mac_prefixes))).
  - apply up_healthy.
  - reflexivity.
Defined.

(** The six addresses that [demo_vlan_lookup_logic] tries. *)
Example demo_vlan_lookup_logic_cases :
  mock_vlan_lookup mock_radreply mock_mac_prefixes <$>
    [Some "aa:bb:cc:dd:ee:ff"; Some "AA:BB:CC:77:88:99"; Some "aa:bb:cc:11:22:33";
     Some "ff:ee:dd:11:22:33"; Some "99:88:77:66:55:44"; Some "invalid-mac"]
  = [(Some 100, Some "exact"); (Some 150, Some "exact"); (Some 300, Some "prefix");
     (Some 500, Some "prefix"); (None, None); (None, None)].
Proof. vm_compute. reflexivity. Qed.

(** The response that the demonstration prints is the reply that the
    server builds: the same code, and for an accept the same three
    attributes, each with its single value. *)
Theorem mock_response_is_reply pkt vlan_id :
  let reply :=
    match vlan_id with
    | Some v => create_accept_packet pkt v
    | None => create_reject_packet pkt
    end in
  let mock := create_mock_radius_response vlan_id in
  mock_code mock = response_type_of (code reply)
  /\ reply_attrs reply = (fun v => [v]) <$> default ∅ (mock_attributes mock).
Proof.
  destruct vlan_id as [v|]; cbn zeta; (split; [reflexivity|]).
  - unfold create_accept_packet, AddAttribute, CreateReply, set_code, set_source,
      create_mock_radius_response.
    cbn [reply_attrs code reply_source mock_attributes from_option]. unfold id.
    apply map_eq. intros k. rewrite lookup_fmap.
    destruct (decide (k = "Tunnel-Type")) as [->|H1];
      [vm_compute; reflexivity|].
    destruct (decide (k = "Tunnel-Medium-Type")) as [->|H2];
      [vm_compute; reflexivity|].
    destruct (decide (k = "Tunnel-Private-Group-ID")) as [->|H3];
      [vm_compute; reflexivity|].
    rewrite !lookup_insert_ne by congruence.
    rewrite lookup_singleton_ne by congruence. rewrite lookup_empty. reflexivity.
  - cbn. rewrite fmap_empty. reflexivity.
Qed.

(** ** Case, and rows of other attributes *)

Lemma lower_keeps_alnum c : Py.isalnum (Py.lower c) = Py.isalnum c.
Proof. destruct c as [[] [] [] [] [] [] [] []]; vm_compute; reflexivity. Qed.

Lemma lower_lower c : Py.lower (Py.lower c) = Py.lower c.
Proof. destruct c as [[] [] [] [] [] [] [] []]; vm_compute; reflexivity. Qed.

Lemma clean_chars_lower l : clean_chars (Py.lower <$> l) = clean_chars l.
Proof.
  induction l as [|c l IH]; [reflexivity|].
  cbn [fmap list_fmap]. rewrite !clean_chars_cons, lower_keeps_alnum, lower_lower.
  fold (fmap Py.lower l). rewrite IH. reflexivity.
Qed.

(** Case is ignored: two texts that agree once every character is
    lower-cased are normalised alike. *)
Theorem normalize_mac_ignores_case s t :
  Py.lower <$> list_ascii_of_string s = Py.lower <$> list_ascii_of_string t ->
  normalize_mac (Some s) = normalize_mac (Some t).
Proof.
  intros H. rewrite !normalize_mac_unfold.
  assert (Hclean : clean_mac_of s = clean_mac_of t).
  { rewrite !clean_mac_of_chars.
    rewrite <- (clean_chars_lower (list_ascii_of_string s)), H, clean_chars_lower.
    reflexivity. }
  rewrite Hclean. reflexivity.
Qed.

Lemma normalize_mac_ignores_case_witness :
  normalize_mac (Some "Aa:bB:CC:dd:Ee:fF") = normalize_mac (Some "aA:Bb:cc:DD:eE:Ff").
Proof.
  apply (normalize_mac_ignores_case "Aa:bB:CC:dd:Ee:fF" "aA:Bb:cc:DD:eE:Ff").
  vm_compute. reflexivity.
Defined.

Lemma find_filter {A} (p q : A -> bool) l :
  (forall x, p x = true -> q x = true) ->
  List.find p (List.filter q l) = List.find p l.
Proof.
  intros Hpq. induction l as [|x l IH]; [reflexivity|].
  cbn [List.filter List.find].
  destruct (q x) eqn:Hq; cbn [List.find].
  - rewrite IH. reflexivity.
  - destruct (p x) eqn:Hp; [|exact IH].
    rewrite (Hpq x Hp) in Hq. discriminate.
Qed.

(** The device rows of other attributes never decide. A station has
    three rows in [radreply], for Tunnel-Type, Tunnel-Medium-Type and
    Tunnel-Private-Group-ID; the resolver runs as if the table held the
    rows of the last kind only, so the values 13 and 6 are never taken for
    a VLAN. *)
Theorem get_vlan_for_mac_other_attributes thread_id mac w :
  healthy w ->
  fst (get_vlan_for_mac thread_id mac (set_db (only_vlan_rows (db w)) w))
  = fst (get_vlan_for_mac thread_id mac w).
Proof.
  intros Hw.
  destruct (normalize_mac mac) as [nm|] eqn:Hn.
  - destruct (get_vlan_for_mac_healthy thread_id mac nm w Hw Hn) as (w1 & H1 & _).
    destruct (get_vlan_for_mac_healthy thread_id mac nm
                (set_db (only_vlan_rows (db w)) w) Hw Hn) as (w2 & H2 & _).
    rewrite H1, H2. cbn [fst db set_db].
    assert (Hsel : select_radreply (only_vlan_rows (db w)) nm = select_radreply (db w) nm).
    { unfold select_radreply, only_vlan_rows. cbn [radreply].
      apply find_filter. intros r Hr. apply andb_true_iff in Hr as [_ Hr]. exact Hr. }
    rewrite Hsel. reflexivity.
  - unfold get_vlan_for_mac. rewrite Hn. reflexivity.
Qed.

Lemma get_vlan_for_mac_other_attributes_witness :
  let d := {| radreply := device_rows "aa:bb:cc:dd:ee:ff" 100;
              mac_prefixes := [ {| mp_prefix := "aa:bb:cc"; mp_vlan_id := 200 |} ];
              default_vlan_config := []; radius_logs := [] |} in
  fst (get_vlan_for_mac 7 (Some "aa:bb:cc:dd:ee:ff") (up (only_vlan_rows d)))
  = fst (get_vlan_for_mac 7 (Some "aa:bb:cc:dd:ee:ff") (up d)).
Proof.
  intros d.
  apply (get_vlan_for_mac_other_attributes 7 (Some "aa:bb:cc:dd:ee:ff") (up d)).
  apply up_healthy.
Defined.

(** The three requests of [test_radius_auth] against the rows of
    [setup_test_data]. *)
Example test_radius_auth_cases :
  let d := {| radreply := device_rows "aa:bb:cc:dd:ee:ff" 100;
              mac_prefixes := [ {| mp_prefix := "aa:bb:cc"; mp_vlan_id := 200 |} ];
              default_vlan_config := []; radius_logs := [] |} in
  (fun mac => fst (get_vlan_for_mac 7 (Some mac) (up d)))
    <$> ["aa:bb:cc:dd:ee:ff"; "aa:bb:cc:11:22:33"; "ff:ff:ff:ff:ff:ff"]
  = [Return (Some 100, Some "exact"); Return (Some 200, Some "prefix");
     Return (None, None)].
Proof. vm_compute. reflexivity. Qed.

(** ** A reply that cannot be sent *)

Lemma send_response_unsent (reply : Reply) w :
  authfds w = [] \/ (exists msg rest, send_script w = Some msg :: rest) ->
  exists w',
    send_response (Some reply) w = (Return tt, w')
    /\ db w' = db w /\ sent w' = sent w.
Proof.
  destruct w as [d pool cs us es ss ex fds snt]. cbn.
  unfold send_response, get_authfds, SendReplyPacket, try_except.
  unfold mbind, M_bind, bind, ret, next_outcome. cbn.
  intros [->|(msg & rest & ->)].
  - eexists. repeat split.
  - destruct fds; cbn; eexists; repeat split.
Qed.

(** Provided a cursor can be opened on the store connection, a request is
    decided and audited even when its reply cannot leave: with no
    listening socket, or when the transmission fails, the engine still
    returns its reply and raises nothing; nothing is added to what was
    sent. *)
Theorem unsent_reply_is_still_decided thread_id pkt w :
  quiet (cursor_script w) ->
  authfds w = [] \/ (exists msg rest, send_script w = Some msg :: rest) ->
  exists reply w',
    HandleAuthPacket thread_id pkt w = (Return (Some reply), w')
    /\ sent w' = sent w
    /\ (healthy w ->
        exists row, db w' = append_log row (db w)
                    /\ lg_response_type row = response_type_of (code reply)).
Proof.
  intros Hq Hsock.
  destruct (decision_run thread_id pkt (fst (read_request pkt))
              (snd (read_request pkt)) w Hq)
    as (reply & w1 & Hdec & Hf & _ & _ & Hh).
  pose proof Hf as (_ & _ & _ & Hfds & Hsnt & Hss & _).
  destruct (send_response_unsent reply w1) as (w' & Hsend & Hdb & Hsent).
  { rewrite Hfds, Hss. exact Hsock. }
  exists reply, w'. split.
  - unfold HandleAuthPacket.
    destruct (read_request pkt) as [l stopped]. cbn [fst snd] in Hdec.
    unfold mbind at 1, M_bind at 1, bind at 1. rewrite Hdec.
    unfold mbind, M_bind, bind. rewrite Hsend. reflexivity.
  - split; [rewrite Hsent; exact Hsnt|].
    intros Hw. rewrite Hdb. exact (Hh Hw).
Qed.

Lemma unsent_reply_is_still_decided_witness :
  exists reply w',
    HandleAuthPacket 7 (request_for "AA:BB:CC:DD:EE:FF")
      (set_send_script [Some "Network is unreachable"] (up example_db))
    = (Return (Some reply), w')
    /\ sent w' = []
    /\ exists row, db w' = append_log row example_db
                   /\ lg_response_type row = response_type_of (code reply).
Proof.
  destruct (unsent_reply_is_still_decided 7 (request_for "AA:BB:CC:DD:EE:FF")
              (set_send_script [Some "Network is unreachable"] (up example_db)))
    as (reply & w' & Hrun & Hsent & Hh).
  - exact quiet_nil.
  - right. exists "Network is unreachable", []. reflexivity.
  - exists reply, w'. split; [exact Hrun|]. split; [exact Hsent|].
    apply Hh. repeat split; constructor.
Defined.
